(** * Voice Assistant: the capture -> transcribe -> post-process -> inject
      pipeline of [app.py], embedded and verified.

    The development follows the layout of the source file:
    - [PyStr]   : Python [str] values and the few [str] methods used;
    - [Float]   : binary32 / binary64 arithmetic as NumPy and CPython use it;
    - [Re]      : [re.sub(pattern, repl, text, flags=re.IGNORECASE)];
    - [Recorder]: class [AudioRecorder];
    - [App]     : the methods of [VoiceAssistantApp] that drive a recording
                  cycle ([_start_recording], [_stop_recording],
                  [_transcribe], [_cleanup_audio_file],
                  [_cleanup_old_recordings]);
    - [Threads] : the threads started by [_stop_recording];
    - [Props]   : the predicates the statements are written with;
    - [Sample]  : concrete machines, configurations and runs.
    The theorems follow, grouped by the part of the pipeline they are about.

    The libraries and the operating system enter as the record [App.Env]:
    every call that leaves the program (devices, files, [glob], [re],
    the speech model, the AI service, clipboard, focus, keyboard, threads)
    can succeed or raise as the record says. The widgets, the lines written
    to the log file and the console output are left out. *)

From stdpp Require Import gmap strings list.
From Stdlib Require Import ZArith NArith Ascii String List Bool Lia SpecFloat.
Import ListNotations.

Local Open Scope Z_scope.

(* ===================================================================== *)
(** * Python strings *)
(* ===================================================================== *)

Module PyStr.

(** A Python [str] is a sequence of Unicode code points. *)
Definition pystr := list N.

(** An ASCII literal of the source, as a [str]. *)
Definition py (s : string) : pystr :=
  List.map N_of_ascii (list_ascii_of_string s).

(** Truth value of a [str]: [if text:] holds for the non-empty ones. *)
Definition truthy (s : pystr) : bool :=
  match s with [] => false | _ :: _ => true end.

(** [c.isspace()], the table of CPython's [_PyUnicode_IsWhitespace]. *)
Definition isspace (c : N) : bool :=
  ((9 <=? c) && (c <=? 13) || (28 <=? c) && (c <=? 32)
   || (c =? 133) || (c =? 160) || (c =? 5760)
   || (8192 <=? c) && (c <=? 8202)
   || (c =? 8232) || (c =? 8233) || (c =? 8239) || (c =? 8287)
   || (c =? 12288))%N.

Fixpoint lstrip (s : pystr) : pystr :=
  match s with
  | c :: s' => if isspace c then lstrip s' else s
  | [] => []
  end.

Definition rstrip (s : pystr) : pystr := rev (lstrip (rev s)).

(** [s.strip()] *)
Definition strip (s : pystr) : pystr := rstrip (lstrip s).

(** [sep.join(parts)] *)
Fixpoint join (sep : pystr) (parts : list pystr) : pystr :=
  match parts with
  | [] => []
  | [p] => p
  | p :: ps => p ++ sep ++ join sep ps
  end.

Definition eqb (a b : pystr) : bool := bool_decide (a = b).

End PyStr.
Export PyStr.

(* ===================================================================== *)
(** * Floating point *)
(* ===================================================================== *)

Module Float.

(** [numpy.float32]: IEEE 754 binary32 (24-bit significand). The stream is
    opened without a [dtype], so sounddevice delivers float32 blocks. *)
Definition f32_mul : spec_float -> spec_float -> spec_float := SFmul 24 128.

(** A Python [int] operand converted to the array's float32. *)
Definition f32_of_int (z : Z) : spec_float := binary_normalize 24 128 z 0 false.

(** CPython [float]: IEEE 754 binary64. *)
Definition f64_sub : spec_float -> spec_float -> spec_float := SFsub 53 1024.

(** The double nearest to an integer (an infinity when it is too large). *)
Definition f64_round_int (z : Z) : spec_float :=
  binary_normalize 53 1024 z 0 false.

(** A Python [int] operand converted to [float]; [None] stands for
    [OverflowError: int too large to convert to float]. *)
Definition f64_of_int (z : Z) : option spec_float :=
  match f64_round_int z with
  | S754_infinity _ => None
  | f => Some f
  end.

Definition f64_ltb : spec_float -> spec_float -> bool := SFltb.

(** The integer part of a float (rounding toward zero); [None] for an
    infinity or a NaN. *)
Definition trunc (f : spec_float) : option Z :=
  match f with
  | S754_zero _ => Some 0
  | S754_finite s m e => Some (cond_Zopp s (Z.shiftl (Z.pos m) e))
  | S754_infinity _ | S754_nan => None
  end.

(** Two's complement reduction of an integer to 16 bits. *)
Definition wrap_int16 (z : Z) : Z := (z + 32768) mod 65536 - 32768.

(** Conversion of a float to a 32-bit integer as the hardware does it for a
    C cast (x86 [cvttss2si]): truncation, and the "integer indefinite"
    value [-2^31] when the result does not fit. *)
Definition to_int32 (f : spec_float) : Z :=
  match trunc f with
  | Some z => if (-2147483648 <=? z) && (z <=? 2147483647) then z
              else -2147483648
  | None => -2147483648
  end.

(** [arr.astype(np.int16)] on one float32 element: NumPy's cast loop is the
    C conversion [(npy_short)x]; there is no saturation, the 32-bit
    conversion result keeps its low 16 bits. *)
Definition astype_int16 (f : spec_float) : Z := wrap_int16 (to_int32 f).

(** The two little-endian bytes of an int16, as [ndarray.tobytes] emits them. *)
Definition int16_bytes (z : Z) : list Z :=
  [Z.land z 255; Z.land (Z.shiftr z 8) 255].

Definition in_int16 (z : Z) : Prop := -32768 <= z <= 32767.

End Float.
Export Float.

(* ===================================================================== *)
(** * class AudioRecorder *)
(* ===================================================================== *)

Module Recorder.

(** What [sd.InputStream(...)] followed by [stream.start()] can do. *)
Inductive open_result :=
  | OpenOk          (* the stream is created and started *)
  | CtorRaises      (* sd.InputStream(...) raises: no stream object *)
  | StartRaises.    (* stream.start() raises: the object exists *)

(** A stream object; the flag tells whether it is running. *)
Record stream_obj := { running : bool }.

Record AudioRecorder := {
  sample_rate : Z;
  channels : Z;
  is_recording : bool;
  frames : list (list spec_float);   (* blocks of float32 samples *)
  stream : option stream_obj;
  temp_file : string * string;       (* directory, file name *)
}.

(** [AudioRecorder.__init__]; [tmp] is [tempfile.gettempdir()]. *)
Definition init (tmp : string) : AudioRecorder :=
  {| sample_rate := 16000; channels := 1; is_recording := false;
     frames := []; stream := None;
     temp_file := (tmp, "voice_assistant_temp.wav"%string) |}.

Definition set_is_recording (b : bool) (r : AudioRecorder) :=
  {| sample_rate := sample_rate r; channels := channels r;
     is_recording := b; frames := frames r; stream := stream r;
     temp_file := temp_file r |}.

Definition set_frames (fs : list (list spec_float)) (r : AudioRecorder) :=
  {| sample_rate := sample_rate r; channels := channels r;
     is_recording := is_recording r; frames := fs; stream := stream r;
     temp_file := temp_file r |}.

Definition set_stream (s : option stream_obj) (r : AudioRecorder) :=
  {| sample_rate := sample_rate r; channels := channels r;
     is_recording := is_recording r; frames := frames r; stream := s;
     temp_file := temp_file r |}.

(** [_callback]: a block arrives from the audio thread. *)
Definition _callback (indata : list spec_float) (r : AudioRecorder) :=
  if is_recording r then set_frames (frames r ++ [indata]) r else r.

(** [start(device)]. The device only decides how the open goes, which is
    what [o] records. *)
Definition start (o : open_result) (r : AudioRecorder) : AudioRecorder :=
  if is_recording r then r
  else
    let r := set_frames [] (set_is_recording true r) in
    match o with
    | OpenOk => set_stream (Some {| running := true |}) r
    | CtorRaises => set_is_recording false r
    | StartRaises =>
        set_is_recording false (set_stream (Some {| running := false |}) r)
    end.

(** The file handed to [wave.open(..., 'wb')]. *)
Record wav_file := {
  nchannels : Z;
  sampwidth : Z;
  framerate : Z;
  pcm : list Z;          (* the int16 samples *)
  data : list Z;         (* their bytes, [writeframes]'s argument *)
}.

(** [(audio * 32767).astype(np.int16)] *)
Definition to_pcm (audio : list spec_float) : list Z :=
  List.map (fun x => astype_int16 (f32_mul x (f32_of_int 32767))) audio.

(** [stop()]: the new recorder, the returned path and the file handed to
    [wave.open] and [writeframes] ([None] twice when it returns [None]
    before writing). Errors of [stream.stop()] / [stream.close()] are
    swallowed and change nothing. Whether the write itself goes through is
    the file system's answer: see [App.recorder_stop], where a failing
    write makes the call raise with the recorder already stopped. *)
Definition stop (r : AudioRecorder)
  : AudioRecorder * option (string * string) * option wav_file :=
  if negb (is_recording r) then (r, None, None)
  else
    let r := set_stream None (set_is_recording false r) in
    match frames r with
    | [] => (r, None, None)
    | _ :: _ =>
        let audio := List.concat (frames r) in
        let audio_int16 := to_pcm audio in
        (r, Some (temp_file r),
         Some {| nchannels := channels r; sampwidth := 2;
                 framerate := sample_rate r; pcm := audio_int16;
                 data := List.concat (List.map int16_bytes audio_int16) |})
    end.

End Recorder.

(* ===================================================================== *)
(** * re.sub with flags=re.IGNORECASE *)
(* ===================================================================== *)

Module Re.

(** The characters with a special meaning in a pattern:
    [. ^ $ * + ? { } [ ] \ | ( )]. *)
Definition is_meta (c : N) : bool :=
  existsb (N.eqb c)
    [46; 94; 36; 42; 43; 63; 123; 125; 91; 93; 92; 124; 40; 41]%N.

Definition is_ascii (c : N) : bool := (c <? 128)%N.

(** Case folding of an ASCII character. *)
Definition lower (c : N) : N :=
  if ((65 <=? c) && (c <=? 90))%N then (c + 32)%N else c.

(** A pattern that is a plain, non-empty ASCII word: it matches itself. *)
Definition literal_pattern (p : pystr) : bool :=
  truthy p && forallb (fun c => is_ascii c && negb (is_meta c)) p.

(** A replacement without backslash is inserted as it is. *)
Definition literal_repl (r : pystr) : bool :=
  forallb (fun c => negb (c =? 92)%N) r.

Definition ascii_text (t : pystr) : bool := forallb is_ascii t.

(** Does [t] start with [p], letter case ignored? *)
Fixpoint starts_with_ci (p t : pystr) : bool :=
  match p, t with
  | [], _ => true
  | _ :: _, [] => false
  | a :: p', b :: t' => (lower a =? lower b)%N && starts_with_ci p' t'
  end.

(** Leftmost, non-overlapping replacement of every occurrence of the word
    [p]. [skip] counts the characters of the current match still to drop. *)
Fixpoint sub_literal (p repl : pystr) (skip : nat) (t : pystr) : pystr :=
  match t with
  | [] => []
  | c :: t' =>
      match skip with
      | S k => sub_literal p repl k t'
      | O =>
          if starts_with_ci p t
          then repl ++ sub_literal p repl (Nat.pred (List.length p)) t'
          else c :: sub_literal p repl 0 t'
      end
  end.

(** The ways a call of [re.sub] ends. *)
Inductive result :=
  | Done (text : pystr)   (* it returns the new text *)
  | Error                 (* it raises [re.error]: the pattern or the
                             replacement template is malformed *)
  | Crash.                (* it raises something that is not a [re.error]:
                             [OverflowError] for a repeat count beyond the
                             engine's limit, [RecursionError], [MemoryError] *)

Section Engine.

(** The regular-expression engine on arbitrary patterns, replacement
    templates and texts. *)
Variable engine : pystr -> pystr -> pystr -> result.

(** [re.sub(pattern, repl, text, flags=re.IGNORECASE)]. On an ASCII word,
    a backslash-free replacement and an ASCII text the result is computed
    here; everything else is the engine's. *)
Definition sub (pattern repl text : pystr) : result :=
  if literal_pattern pattern && literal_repl repl && ascii_text text
  then Done (sub_literal pattern repl 0 text)
  else engine pattern repl text.

End Engine.

End Re.

(* ===================================================================== *)
(** * Configuration, environment and the state of a run *)
(* ===================================================================== *)

Module App.
Import Recorder.

(** A file is named by its directory and its base name. *)
Definition path : Type := string * string.

(** One entry of [CFG["replacements"]]. *)
Record ReplacementRule := {
  rep_match : pystr;          (* rep.get("match", "") *)
  rep_replace : pystr;        (* rep.get("replace", "") *)
  rep_ignore_case : bool;     (* rep["ignore_case"], false when absent *)
}.

(** The keys of [CFG] read during a recording cycle. *)
Record Config := {
  language : pystr;
  silence_threshold_ms : Z;
  auto_paste : bool;
  save_recordings_path : string;
  microphone : pystr;
  replacements : list ReplacementRule;
  ai_enabled : bool;
  ai_api_key : pystr;
  ai_model : pystr;
  ai_prompt : pystr;
  recording_retention_days : Z;
}.

(** What [chat.completions.create] does: it raises (authentication,
    network, timeout, ...) or returns a message whose content is a string
    or [None]. *)
Inductive ai_response :=
  | ApiRaises
  | ApiContent (content : option pystr).

Record device := { d_name : pystr; max_input_channels : Z }.

(** The libraries and the operating system, as one run sees them. An
    optional result is [None] when the call raises. *)
Record Env := {
  foreground_window : option Z;          (* GetForegroundWindow() *)
  query_devices : option (list device);  (* sd.query_devices() *)
  open_device : option nat -> open_result;
                                         (* how opening that device goes *)
  normcase : string -> string;           (* os.path.normcase *)
  realdir : string -> string;            (* the directory a spelling names *)
  glob_pattern : string -> list string;  (* the directories that a name with
                                            wildcard characters, read by
                                            glob as a pattern, matches *)
  stat_ok : path -> bool;                (* the system lets the file be
                                            examined *)
  remove_ok : path -> bool;              (* the system lets the file go *)
  wave_write_ok : path -> wav_file -> bool;
                                         (* wave.open ... writeframes return *)
  thread_start_ok : list path -> bool;   (* Thread(...).start() returns, with
                                            these jobs running *)
  re_engine : pystr -> pystr -> pystr -> Re.result;
  load_model_ok : bool;                  (* WhisperModel(...) returns *)
  whisper : path -> option pystr -> Z -> option (list pystr);
                                         (* segment texts; None: raises *)
  openai_ctor_ok : bool;                 (* import openai; OpenAI(...) *)
  chat_create : pystr -> pystr -> pystr -> pystr -> ai_response;
                                         (* client key, model, prompt, text *)
  paste_imports_ok : bool;               (* import pyperclip, keyboard *)
  clip_paste_ok : bool;                  (* pyperclip.paste() returns *)
  clip_copy_ok : bool;                   (* pyperclip.copy() returns *)
  user32_ok : bool;                      (* the ctypes calls return *)
  same_thread : Z -> bool;               (* our_tid == target_tid *)
  key_ok : bool;                         (* kb.press_and_release returns *)
  time_time : spec_float;                (* time.time() *)
}.

(** Calls that leave the process. *)
Inductive event :=
  | EvChat (model prompt text : pystr)   (* one request to the AI service *)
  | EvClipRead
  | EvClipWrite (text : pystr)
  | EvAttachThreadInput (attach : bool)
  | EvSetForegroundWindow (hwnd : Z)
  | EvKey (combo : string).

Record World := {
  clipboard : pystr;
  files : gmap path spec_float;          (* regular files, with their mtime *)
  dirs : gset string;                    (* existing directories *)
  trace : list event;                    (* oldest first *)
}.

Record VoiceAssistantApp := {
  recorder : AudioRecorder;
  transcriber : bool;                    (* self.transcriber is not None *)
  _openai_client : option pystr;         (* the key of the cached client *)
  _is_recording : bool;
  _prev_hwnd : option Z;
}.

(** [VoiceAssistantApp.__init__], the fields above. *)
Definition init (tmp : string) : VoiceAssistantApp :=
  {| recorder := Recorder.init tmp; transcriber := false;
     _openai_client := None; _is_recording := false; _prev_hwnd := None |}.

Definition set_recorder (r : AudioRecorder) (a : VoiceAssistantApp) :=
  {| recorder := r; transcriber := transcriber a;
     _openai_client := _openai_client a; _is_recording := _is_recording a;
     _prev_hwnd := _prev_hwnd a |}.

Definition set_transcriber (b : bool) (a : VoiceAssistantApp) :=
  {| recorder := recorder a; transcriber := b;
     _openai_client := _openai_client a; _is_recording := _is_recording a;
     _prev_hwnd := _prev_hwnd a |}.

Definition set_openai_client (c : option pystr) (a : VoiceAssistantApp) :=
  {| recorder := recorder a; transcriber := transcriber a;
     _openai_client := c; _is_recording := _is_recording a;
     _prev_hwnd := _prev_hwnd a |}.

Definition set__is_recording (b : bool) (a : VoiceAssistantApp) :=
  {| recorder := recorder a; transcriber := transcriber a;
     _openai_client := _openai_client a; _is_recording := b;
     _prev_hwnd := _prev_hwnd a |}.

Definition set_prev_hwnd (h : option Z) (a : VoiceAssistantApp) :=
  {| recorder := recorder a; transcriber := transcriber a;
     _openai_client := _openai_client a; _is_recording := _is_recording a;
     _prev_hwnd := h |}.

Definition set_clipboard (c : pystr) (w : World) :=
  {| clipboard := c; files := files w; dirs := dirs w; trace := trace w |}.

Definition set_files (f : gmap path spec_float) (w : World) :=
  {| clipboard := clipboard w; files := f; dirs := dirs w; trace := trace w |}.

Definition emit (e : event) (w : World) :=
  {| clipboard := clipboard w; files := files w; dirs := dirs w;
     trace := trace w ++ [e] |}.

(* --------------------------------------------------------------------- *)
(** ** Computations that read and write the state and may raise *)
(* --------------------------------------------------------------------- *)

Inductive exn :=
  | ImportError | ModelError | TranscribeError | ApiError | AttributeError
  | ClipboardError | OSError | KeyboardError | FileNotFoundError
  | OverflowError | PermissionError
  | PatternError.   (* what [re.sub] raises other than [re.error] *)

Inductive outcome (A : Type) :=
  | Ret (a : A)
  | Raise (e : exn).
Arguments Ret {A} a.
Arguments Raise {A} e.

Definition State : Type := VoiceAssistantApp * World.

Definition M (A : Type) : Type := State -> outcome A * State.

Definition ret {A} (a : A) : M A := fun s => (Ret a, s).

Definition raise {A} (e : exn) : M A := fun s => (Raise e, s).

Definition bind {A B} (m : M A) (k : A -> M B) : M B :=
  fun s => match m s with
           | (Ret a, s') => k a s'
           | (Raise e, s') => (Raise e, s')
           end.

(** [try: m  except Exception: h] *)
Definition try_except {A} (m : M A) (h : exn -> M A) : M A :=
  fun s => match m s with
           | (Ret a, s') => (Ret a, s')
           | (Raise e, s') => h e s'
           end.

(** [try: m  finally: f] *)
Definition try_finally {A} (m : M A) (f : M unit) : M A :=
  fun s => match m s with
           | (r, s') => match f s' with
                        | (Ret _, s'') => (r, s'')
                        | (Raise e, s'') => (Raise e, s'')
                        end
           end.

Definition get_app : M VoiceAssistantApp := fun s => (Ret (fst s), s).
Definition get_world : M World := fun s => (Ret (snd s), s).
Definition modify_app (f : VoiceAssistantApp -> VoiceAssistantApp) : M unit :=
  fun s => (Ret tt, (f (fst s), snd s)).
Definition modify_world (f : World -> World) : M unit :=
  fun s => (Ret tt, (fst s, f (snd s))).

(** A call that raises [e] unless [ok]. *)
Definition guard (ok : bool) (e : exn) : M unit :=
  if ok then ret tt else raise e.

#[global] Instance M_ret : MRet M := @ret.
#[global] Instance M_bind : MBind M := fun A B k m => bind m k.

(** [for x in l: body x] *)
Fixpoint for_each {A} (l : list A) (body : A -> M unit) : M unit :=
  match l with
  | [] => ret tt
  | x :: l' => body x;; for_each l' body
  end.

(* --------------------------------------------------------------------- *)
(** ** The methods *)
(* --------------------------------------------------------------------- *)

Section Methods.

Variable E : Env.
Variable CFG : Config.

(** The entry of the microphone menu that stands for the platform
    default, a Cyrillic literal in the source. *)
Definition default_device_name : pystr :=
  [1055; 1086; 32; 1091; 1084; 1086; 1083; 1095; 1072; 1085; 1080; 1102]%N.

Fixpoint find_device (name : pystr) (i : nat) (ds : list device)
  : option nat :=
  match ds with
  | [] => None
  | d :: ds' =>
      if PyStr.eqb (d_name d) name && (0 <? max_input_channels d)
      then Some i else find_device name (S i) ds'
  end.

(** [AudioRecorder.get_device_index(name)] *)
Definition get_device_index (name : pystr) : outcome (option nat) :=
  if negb (truthy name) || PyStr.eqb name default_device_name then Ret None
  else match query_devices E with
       | None => Raise OSError
       | Some devices => Ret (find_device name 0 devices)
       end.

(** [_start_recording]. The calls that show the overlay only touch
    widgets and are left out. *)
Definition _start_recording (a : VoiceAssistantApp) : VoiceAssistantApp :=
  let a := set__is_recording true a in
  let a := set_prev_hwnd (foreground_window E) a in
  match get_device_index (microphone CFG) with
  | Ret device_idx =>
      set_recorder (start (open_device E device_idx) (recorder a)) a
  | Raise _ => a                       (* logged *)
  end.

(** [self.recorder.stop()] as its caller sees it: the recorder is stopped
    as [Recorder.stop] says, and when [wave.open] or [writeframes] raises
    on the file, so does the call. *)
Definition recorder_stop (r : AudioRecorder)
  : AudioRecorder * outcome (option path) :=
  let '(r', audio_file, written) := stop r in
  match written with
  | Some wav =>
      if wave_write_ok E (temp_file r) wav then (r', Ret audio_file)
      else (r', Raise OSError)
  | None => (r', Ret audio_file)
  end.

(** [_stop_recording]: the new state and, when a file came out, the
    argument of the thread it then starts on [_transcribe] (see
    [Threads.spawn]). *)
Definition _stop_recording (a : VoiceAssistantApp)
  : VoiceAssistantApp * option path :=
  let a := set__is_recording false a in
  let '(r, stopped) := recorder_stop (recorder a) in
  let audio_file :=
    match stopped with
    | Ret audio_file => audio_file
    | Raise _ => None                  (* except Exception: logged *)
    end in
  (set_recorder r a, audio_file).

(** [_toggle_recording] *)
Definition _toggle_recording (a : VoiceAssistantApp)
  : VoiceAssistantApp * option path :=
  if _is_recording a then _stop_recording a
  else (_start_recording a, None).

(** *** Files *)

(** The file a path names. The operating system reads the directory part:
    spellings that differ in separators, a trailing slash, letter case or
    links name one directory, and [files] and [dirs] are keyed by what
    [realdir] gives. The base name is taken as the file system stores it. *)
Definition resolve (p : path) : path := (realdir E (fst p), snd p).

(** [os.remove(p)]: it raises when there is no such file and when the
    system refuses (the file is open elsewhere or protected). *)
Definition os_remove (p : path) : M unit :=
  w ← get_world;
  let file := resolve p in
  match files w !! file with
  | Some _ =>
      if remove_ok E file then modify_world (set_files (delete file (files w)))
      else raise PermissionError
  | None => raise FileNotFoundError
  end.

(** [os.path.getmtime(p)]: it raises when there is no such file and when
    the system does not let the file be examined. *)
Definition os_path_getmtime (p : path) : M spec_float :=
  w ← get_world;
  let file := resolve p in
  match files w !! file with
  | Some t => if stat_ok E file then mret t else raise PermissionError
  | None => raise FileNotFoundError
  end.

(** [os.path.isdir(d)] *)
Definition os_path_isdir (d : string) : M bool :=
  w ← get_world; mret (bool_decide (realdir E d ∈ dirs w)).

Definition ends_with (suffix s : string) : bool :=
  let n := (String.length s - String.length suffix)%nat in
  (String.length suffix <=? String.length s)%nat
  && String.eqb (String.substring n (String.length suffix) s) suffix.

Definition is_hidden (name : string) : bool :=
  match name with
  | String c _ => Ascii.eqb c "."
  | EmptyString => false
  end.

(** Does [glob] keep the name for the pattern [*.wav]?  A leading dot
    hides a name from [*]; the rest is [fnmatch] on the case-normalised
    name. *)
Definition matches_star_wav (name : string) : bool :=
  negb (is_hidden name)
  && ends_with ".wav" (normcase E name).

(** [glob.has_magic]: one of [*], [?] and [[] occurs in the name. *)
Definition has_magic (d : string) : bool :=
  existsb (fun c => Ascii.eqb c "*" || Ascii.eqb c "?" || Ascii.eqb c "[")
    (list_ascii_of_string d).

(** The directories [glob] lists for [os.path.join(d, "*.wav")]. The
    directory part of the pattern is not escaped: a name without wildcard
    characters is taken as it is, any other name is itself a pattern and
    the library looks for the directories it matches. *)
Definition glob_dirs (d : string) : list string :=
  if has_magic d then glob_pattern E d else [d].

(** The names [os.scandir(d)] gives; [glob] takes a failing scan (no such
    directory) for an empty one. The order is the file system's. *)
Definition listdir (d : string) (w : World) : list string :=
  if bool_decide (realdir E d ∈ dirs w)
  then List.map snd
         (List.filter (fun file => String.eqb (fst file) (realdir E d))
            (List.map fst (map_to_list (files w))))
  else [].

(** [glob.glob(os.path.join(d, "*.wav"))]: for each directory the names
    that match, joined to it. Only regular files are listed here: on a
    directory that carries such a name [os.remove] raises and the loop
    below passes over it. *)
Definition glob_wav (d : string) : M (list path) :=
  w ← get_world;
  mret (flat_map
          (fun dirname =>
             List.map (pair dirname)
               (List.filter matches_star_wav (listdir dirname w)))
          (glob_dirs d)).

(** [time.time() - (days * 86400)] *)
Definition cutoff_time (days : Z) : M spec_float :=
  match f64_of_int (days * 86400) with
  | Some seconds => mret (f64_sub (time_time E) seconds)
  | None => raise OverflowError
  end.

(** The body of the loop of [_cleanup_old_recordings], for one file. *)
Definition sweep_file (cutoff : spec_float) (f : path) : M unit :=
  try_except
    (mtime ← os_path_getmtime f;
     if f64_ltb mtime cutoff then os_remove f else mret tt)
    (fun _ => mret tt).

(** [_cleanup_old_recordings] *)
Definition _cleanup_old_recordings : M unit :=
  let days := recording_retention_days CFG in
  if days <=? 0 then mret tt
  else
    let rec_path := save_recordings_path CFG in
    is_dir ← os_path_isdir rec_path;
    if String.eqb rec_path "" || negb is_dir then mret tt
    else
      cutoff ← cutoff_time days;
      found ← glob_wav rec_path;
      for_each found (sweep_file cutoff).

(** [_cleanup_audio_file(file_path)] *)
Definition _cleanup_audio_file (file_path : path) : M unit :=
  let retention_days := recording_retention_days CFG in
  if retention_days <=? 0
  then try_except (os_remove file_path) (fun _ => mret tt)   (* logged *)
  else _cleanup_old_recordings.

(** *** The text pipeline, the blocks of [_transcribe] in order *)

(** The lazy load at the head of [_transcribe]. *)
Definition load_model : M unit :=
  a ← get_app;
  if transcriber a then mret tt
  else guard (load_model_ok E) ModelError;;
       modify_app (set_transcriber true).

(** [self.transcriber.transcribe(...)], then
    [" ".join(s.text for s in segments).strip()]. *)
Definition run_whisper (audio_file : path) (whisper_lang : option pystr)
  : M pystr :=
  match whisper E audio_file whisper_lang (silence_threshold_ms CFG) with
  | Some segments => mret (strip (join (py " ") segments))
  | None => raise TranscribeError
  end.

(** One turn of the loop over the rules: the text after it, or [None] when
    [re.sub] raises what [except re.error] does not catch. *)
Definition apply_rule (text : pystr) (rep : ReplacementRule) : option pystr :=
  let match_ := rep_match rep in
  let replace := rep_replace rep in
  if truthy match_ then
    match Re.sub (re_engine E) match_ replace text with
    | Re.Done text' => Some text'
    | Re.Error => Some text            (* except re.error: pass *)
    | Re.Crash => None                 (* not caught here *)
    end
  else Some text.

(** [for rep in CFG.get("replacements", []): ...]: the text after the last
    rule, or [None] when a turn leaves the loop with an exception. *)
Fixpoint apply_replacements (rules : list ReplacementRule) (text : pystr)
  : option pystr :=
  match rules with
  | [] => Some text
  | rep :: rules' =>
      text' ← apply_rule text rep; apply_replacements rules' text'
  end.

(** The cached client: built on first use, with the key of that moment. *)
Definition openai_client (api_key : pystr) : M pystr :=
  a ← get_app;
  match _openai_client a with
  | Some client => mret client
  | None =>
      guard (openai_ctor_ok E) ImportError;;
      modify_app (set_openai_client (Some api_key));;
      mret api_key
  end.

(** [client.chat.completions.create(...)]: the request, then
    [response.choices[0].message.content]. *)
Definition chat_completions_create (client model prompt text : pystr)
  : M (option pystr) :=
  modify_world (emit (EvChat model prompt text));;
  match chat_create E client model prompt text with
  | ApiRaises => raise ApiError
  | ApiContent content => mret content
  end.

(** The block "GPT post-processing". *)
Definition gpt_postprocess (text : pystr) : M pystr :=
  let ai_enabled := ai_enabled CFG in
  let api_key := strip (ai_api_key CFG) in
  if truthy text && truthy api_key && ai_enabled then
    try_except
      (client ← openai_client api_key;
       content ← chat_completions_create client (ai_model CFG)
                   (ai_prompt CFG) text;
       match content with
       | None => raise AttributeError   (* None.strip() *)
       | Some c =>
           let polished := strip c in
           if truthy polished then mret polished else mret text
       end)
      (fun _ => mret text)              (* printed *)
  else mret text.

(** [pyperclip.paste()] *)
Definition pyperclip_paste : M pystr :=
  guard (clip_paste_ok E) ClipboardError;;
  modify_world (emit EvClipRead);;
  w ← get_world; mret (clipboard w).

(** [pyperclip.copy(text)] *)
Definition pyperclip_copy (text : pystr) : M unit :=
  guard (clip_copy_ok E) ClipboardError;;
  modify_world (fun w => set_clipboard text (emit (EvClipWrite text) w)).

(** [kb.press_and_release(combo)] *)
Definition kb_press_and_release (combo : string) : M unit :=
  guard (key_ok E) KeyboardError;;
  modify_world (emit (EvKey combo)).

(** The body of the [try] that gives the focus back. *)
Definition restore_focus : M unit :=
  a ← get_app;
  match _prev_hwnd a with
  | None => mret tt
  | Some hwnd =>
      if hwnd =? 0 then mret tt
      else
        guard (user32_ok E) OSError;;
        (if same_thread E hwnd then mret tt
         else modify_world (emit (EvAttachThreadInput true)));;
        modify_world (emit (EvSetForegroundWindow hwnd));;
        (if same_thread E hwnd then mret tt
         else modify_world (emit (EvAttachThreadInput false)))
  end.

(** The block under [if text and CFG.get("auto_paste", True)]. The old
    clipboard content is read into [old_clip]; the line that would put it
    back is commented out in the source. *)
Definition inject (text : pystr) : M unit :=
  guard (paste_imports_ok E) ImportError;;
  old_clip ← pyperclip_paste;
  pyperclip_copy text;;
  try_except restore_focus (fun _ => mret tt);;   (* logged *)
  kb_press_and_release "ctrl+v".

(** The body of the outer [try] of [_transcribe]. *)
Definition transcribe_body (audio_file : path) : M unit :=
  load_model;;
  let lang := language CFG in
  let whisper_lang :=
    if PyStr.eqb lang (py "auto") then None else Some lang in
  text ← run_whisper audio_file whisper_lang;
  if negb (truthy text) then mret tt
  else
    text ← match apply_replacements (replacements CFG) text with
           | Some text => mret text
           | None => raise PatternError
           end;
    text ← gpt_postprocess text;
    if truthy text && auto_paste CFG then inject text else mret tt.

(** [_transcribe(audio_file)] *)
Definition _transcribe (audio_file : path) : M unit :=
  try_finally
    (try_except (transcribe_body audio_file) (fun _ => mret tt))
    (_cleanup_audio_file audio_file).

End Methods.

End App.

(* ===================================================================== *)
(** * The threads of the application *)
(* ===================================================================== *)

Module Threads.
Import Recorder App.

(** The application object and the [_transcribe] threads that have been
    started and have not returned yet, each with its argument. What such a
    thread does is [App._transcribe]; here only its lifetime counts. *)
Record System := {
  app : VoiceAssistantApp;
  jobs : list path;
}.

(** What can happen next: the hotkey or the floating button toggles, the
    waveform overlay is clicked (its [stop_callback] is [_stop_recording]),
    the audio thread delivers a block, the [n]-th running job returns. *)
Inductive input :=
  | Toggle
  | Block (indata : list spec_float)
  | JobReturns (n : nat)
  | Click.

Section Run.

Variable E : Env.
Variable CFG : Config.

Definition deliver (indata : list spec_float) (r : AudioRecorder)
  : AudioRecorder :=
  match stream r with
  | Some {| running := true |} => _callback indata r
  | _ => r
  end.

(** [threading.Thread(target=self._transcribe, args=(audio_file,),
    daemon=True).start()], the last step of [_stop_recording] when a file
    came out. When the thread cannot be created the call raises, after the
    state has been changed, and no job is added. *)
Definition spawn (started : option path) (running : list path) : list path :=
  match started with
  | Some audio_file =>
      if thread_start_ok E running then running ++ [audio_file] else running
  | None => running
  end.

Definition exec (s : System) (i : input) : System :=
  match i with
  | Toggle =>
      let '(a, started) := _toggle_recording E CFG (app s) in
      {| app := a; jobs := spawn started (jobs s) |}
  | Block indata =>
      {| app := set_recorder (deliver indata (recorder (app s))) (app s);
         jobs := jobs s |}
  | JobReturns n =>
      {| app := app s; jobs := take n (jobs s) ++ drop (S n) (jobs s) |}
  | Click =>
      let '(a, started) := _stop_recording E (app s) in
      {| app := a; jobs := spawn started (jobs s) |}
  end.

Definition run (inputs : list input) (s : System) : System :=
  fold_left exec inputs s.

(** The state after [__init__]. *)
Definition boot (tmp : string) : System :=
  {| app := App.init tmp; jobs := [] |}.

(** The number of pipeline jobs in flight. *)
Definition in_flight (s : System) : nat := List.length (jobs s).

End Run.

End Threads.

(* ===================================================================== *)
(** * Predicates used in the statements *)
(* ===================================================================== *)

Module Props.
Import Recorder App Threads.

(** How one float32 sample [x] and the int16 sample [z] written for it are
    related: [z] is the integer part [t] of [x * 32767] reduced to 16 bits.
    It is [t] itself when [t] fits, and [t - 65536], a negative number,
    when [t] is just above the int16 range. *)
Definition pcm_sample (x : spec_float) (z : Z) : Prop :=
  in_int16 z /\
  forall t, trunc (f32_mul x (f32_of_int 32767)) = Some t ->
            -2147483648 <= t <= 2147483647 ->
            z = wrap_int16 t /\
            (in_int16 t -> z = t) /\
            (32767 < t <= 65535 -> z = t - 65536).

(** The conversion as the specification words it: scale by 32767, then
    clamp to the representable range. *)
Definition clamp_int16 (z : Z) : Z := Z.max (-32768) (Z.min 32767 z).

Definition to_pcm_clamped (audio : list spec_float) : list Z :=
  List.map (fun x => match trunc (f32_mul x (f32_of_int 32767)) with
                     | Some t => clamp_int16 t
                     | None => 0
                     end) audio.

(** The requests sent to the AI service, counted in a trace. *)
Definition chat_calls (tr : list event) : nat :=
  List.length (List.filter (fun e => match e with EvChat _ _ _ => true
                                             | _ => false end) tr).

(** The texts written to the clipboard, oldest first. *)
Definition clip_writes (tr : list event) : list pystr :=
  flat_map (fun e => match e with EvClipWrite t => [t] | _ => [] end) tr.

(** The AI step cannot produce a correction: the client cannot be built,
    the request raises, or the answer is missing or blank. *)
Definition ai_call_fails (E : Env) (CFG : Config) (a : VoiceAssistantApp)
  (text : pystr) : bool :=
  let answer client :=
    match chat_create E client (ai_model CFG) (ai_prompt CFG) text with
    | ApiRaises => true
    | ApiContent None => true
    | ApiContent (Some c) => negb (truthy (strip c))
    end in
  match _openai_client a with
  | Some client => answer client
  | None => if openai_ctor_ok E then answer (strip (ai_api_key CFG)) else true
  end.

(** The file [p] of the disk exists and was last modified strictly before
    [cutoff]. *)
Definition stale (cutoff : spec_float) (w : World) (p : path) : bool :=
  match files w !! p with
  | Some mtime => f64_ltb mtime cutoff
  | None => false
  end.

(** The point in time [now - days * 86400] of the retention policy, as a
    double (minus infinity when the retention is beyond every double). *)
Definition cutoff (E : Env) (CFG : Config) : spec_float :=
  f64_sub (time_time E)
    (f64_round_int (recording_retention_days CFG * 86400)).

(** The file [p] of the disk is an audio file of the managed directory,
    that is one whose name [glob] keeps for [*.wav], last modified strictly
    before the cutoff. *)
Definition expired (E : Env) (CFG : Config) (w : World) (p : path) : bool :=
  String.eqb (fst p) (realdir E (save_recordings_path CFG))
  && matches_star_wav E (snd p)
  && stale (cutoff E CFG) w p.

(** The system lets the sweep examine the file and delete it. *)
Definition allowed (E : Env) (p : path) : bool :=
  stat_ok E p && remove_ok E p.

(** The directories the sweep lists, as the operating system resolves
    them. *)
Definition swept_dirs (E : Env) (CFG : Config) : list string :=
  List.map (realdir E) (glob_dirs E (save_recordings_path CFG)).

(** The file [p] of the disk is one the sweep removes when it runs: an
    entry [glob] returns, last modified strictly before the cutoff, that
    the system lets go. *)
Definition swept (E : Env) (CFG : Config) (w : World) (p : path) : bool :=
  bool_decide (fst p ∈ swept_dirs E CFG)
  && bool_decide (fst p ∈ dirs w)
  && matches_star_wav E (snd p)
  && stale (cutoff E CFG) w p
  && allowed E p.



(** A computation that leaves the files as they are, however it ends. *)
Definition keeps_files {A} (m : M A) : Prop :=
  forall s, files (snd (snd (m s))) = files (snd s).

(** The rule with its flag replaced. *)
Definition with_ignore_case (b : bool) (r : ReplacementRule) :=
  {| rep_match := rep_match r; rep_replace := rep_replace r;
     rep_ignore_case := b |}.

(** Two texts that differ at most in the case of ASCII letters. *)
Definition same_ignoring_case (a b : pystr) : Prop :=
  List.map Re.lower a = List.map Re.lower b.

End Props.

(* ===================================================================== *)
(** * Concrete runs *)
(* ===================================================================== *)

Module Sample.
Import Recorder App Threads Props.

(** 1.01, 0.5 and -1.0 as float32. *)
Definition f_1_01 : spec_float := S754_finite false 8472494 (-23).
Definition f_0_5 : spec_float := S754_finite false 8388608 (-24).
Definition f_m1 : spec_float := S754_finite true 8388608 (-23).

Definition tmp : string := "/tmp".
Definition working_file : path := (tmp, "voice_assistant_temp.wav"%string).

(** A recorder that has captured the single block [[1.01]]. *)
Definition recorder_over_full_scale : AudioRecorder :=
  _callback [f_1_01] (start OpenOk (Recorder.init tmp)).

(** A recorder that has captured two blocks. *)
Definition recorder_two_blocks : AudioRecorder :=
  _callback [f_m1]
    (_callback [f_0_5; f_1_01] (start OpenOk (Recorder.init tmp))).

(** An environment in which everything works; the AI service answers
    with the text in upper-case brackets. *)
Definition env : Env := {|
  foreground_window := Some 4242;
  query_devices := Some [];
  open_device := fun _ => OpenOk;
  normcase := fun s => s;
  realdir := fun d => d;
  glob_pattern := fun _ => [];
  stat_ok := fun _ => true;
  remove_ok := fun _ => true;
  wave_write_ok := fun _ _ => true;
  thread_start_ok := fun _ => true;
  re_engine := fun _ _ _ => Re.Error;
  load_model_ok := true;
  whisper := fun _ _ _ => Some [py " turn it "; py "on"];
  openai_ctor_ok := true;
  chat_create := fun _ _ _ text => ApiContent (Some (py "[" ++ text ++ py "]"));
  paste_imports_ok := true;
  clip_paste_ok := true;
  clip_copy_ok := true;
  user32_ok := true;
  same_thread := fun _ => false;
  key_ok := true;
  time_time := f64_round_int 1700000000;
|}.

(** The same machine with a microphone that cannot be opened. *)
Definition env_no_device : Env := {|
  foreground_window := foreground_window env;
  query_devices := query_devices env;
  open_device := fun _ => CtorRaises;
  normcase := normcase env;
  realdir := realdir env;
  glob_pattern := glob_pattern env;
  stat_ok := stat_ok env;
  remove_ok := remove_ok env;
  wave_write_ok := wave_write_ok env;
  thread_start_ok := thread_start_ok env;
  re_engine := re_engine env;
  load_model_ok := load_model_ok env;
  whisper := whisper env;
  openai_ctor_ok := openai_ctor_ok env;
  chat_create := chat_create env;
  paste_imports_ok := paste_imports_ok env;
  clip_paste_ok := clip_paste_ok env;
  clip_copy_ok := clip_copy_ok env;
  user32_ok := user32_ok env;
  same_thread := same_thread env;
  key_ok := key_ok env;
  time_time := time_time env;
|}.

(** The same machine with an AI service that times out. *)
Definition env_ai_timeout : Env := {|
  foreground_window := foreground_window env;
  query_devices := query_devices env;
  open_device := open_device env;
  normcase := normcase env;
  realdir := realdir env;
  glob_pattern := glob_pattern env;
  stat_ok := stat_ok env;
  remove_ok := remove_ok env;
  wave_write_ok := wave_write_ok env;
  thread_start_ok := thread_start_ok env;
  re_engine := re_engine env;
  load_model_ok := load_model_ok env;
  whisper := whisper env;
  openai_ctor_ok := openai_ctor_ok env;
  chat_create := fun _ _ _ _ => ApiRaises;
  paste_imports_ok := paste_imports_ok env;
  clip_paste_ok := clip_paste_ok env;
  clip_copy_ok := clip_copy_ok env;
  user32_ok := user32_ok env;
  same_thread := same_thread env;
  key_ok := key_ok env;
  time_time := time_time env;
|}.

Definition rule (m r : string) (flag : bool) : ReplacementRule :=
  {| rep_match := py m; rep_replace := py r; rep_ignore_case := flag |}.

(** A configuration with a key, AI on, and a retention of [days]. *)
Definition config (days : Z) (enabled : bool) (key : string) : Config := {|
  language := py "auto";
  silence_threshold_ms := 500;
  auto_paste := true;
  save_recordings_path := "/rec";
  microphone := default_device_name;
  replacements := [rule "it" "the light" true];
  ai_enabled := enabled;
  ai_api_key := py key;
  ai_model := py "gpt-4o-mini";
  ai_prompt := py "fix";
  recording_retention_days := days;
|}.

(** A disk with the working file and a managed directory holding an old
    and a recent recording and an old text file; the clock of [env] reads
    1700000000, so 7 days ago is 1699395200. *)
Definition disk : gmap path spec_float :=
  {[ working_file := f64_round_int 1699999999;
     ("/rec"%string, "old.wav"%string) := f64_round_int 1699000000;
     ("/rec"%string, "new.wav"%string) := f64_round_int 1699999000;
     ("/rec"%string, "old.txt"%string) := f64_round_int 1699000000 ]}.

Definition world : World :=
  {| clipboard := py "earlier"; files := disk;
     dirs := {[ "/rec"%string; tmp ]}; trace := [] |}.

Definition state : State := (App.init tmp, world).

(** A machine whose managed directory is called [/rec[1]], next to a
    directory [/rec1]. For [glob] the brackets are a character class: the
    name, as a pattern, matches [/rec1] and does not match itself. *)
Definition env_brackets : Env := {|
  foreground_window := foreground_window env;
  query_devices := query_devices env;
  open_device := open_device env;
  normcase := normcase env;
  realdir := realdir env;
  glob_pattern := fun d => if String.eqb d "/rec[1]" then ["/rec1"%string]
                           else [];
  stat_ok := stat_ok env;
  remove_ok := remove_ok env;
  wave_write_ok := wave_write_ok env;
  thread_start_ok := thread_start_ok env;
  re_engine := re_engine env;
  load_model_ok := load_model_ok env;
  whisper := whisper env;
  openai_ctor_ok := openai_ctor_ok env;
  chat_create := chat_create env;
  paste_imports_ok := paste_imports_ok env;
  clip_paste_ok := clip_paste_ok env;
  clip_copy_ok := clip_copy_ok env;
  user32_ok := user32_ok env;
  same_thread := same_thread env;
  key_ok := key_ok env;
  time_time := time_time env;
|}.

(** The configuration [config 7 true ""] with that managed directory. *)
Definition config_brackets : Config := {|
  language := py "auto";
  silence_threshold_ms := 500;
  auto_paste := true;
  save_recordings_path := "/rec[1]";
  microphone := default_device_name;
  replacements := [rule "it" "the light" true];
  ai_enabled := true;
  ai_api_key := [];
  ai_model := py "gpt-4o-mini";
  ai_prompt := py "fix";
  recording_retention_days := 7;
|}.

(** Both directories hold a recording that is more than seven days old. *)
Definition world_brackets : World :=
  {| clipboard := py "earlier";
     files := {[ ("/rec[1]"%string, "old.wav"%string)
                   := f64_round_int 1699000000;
                 ("/rec1"%string, "old.wav"%string)
                   := f64_round_int 1699000000 ]};
     dirs := {[ "/rec[1]"%string; "/rec1"%string; tmp ]}; trace := [] |}.



End Sample.

(* ===================================================================== *)
(** * Sequences of recorder calls *)
(* ===================================================================== *)

Module Session.
Import Recorder.

(** The calls the application and the audio thread make on the recorder. *)
Inductive call :=
  | Start (o : open_result)
  | Callback (indata : list spec_float)
  | Stop.

Definition step (r : AudioRecorder) (c : call) : AudioRecorder :=
  match c with
  | Start o => start o r
  | Callback indata => _callback indata r
  | Stop => fst (fst (stop r))
  end.

Definition run (calls : list call) (r : AudioRecorder) : AudioRecorder :=
  fold_left step calls r.

(** The blocks of one recording, delivered in order. *)
Definition deliver_all (blocks : list (list spec_float)) (r : AudioRecorder)
  : AudioRecorder :=
  fold_left (fun r indata => _callback indata r) blocks r.

(** The number of samples in a list of blocks. *)
Definition total_samples (blocks : list (list spec_float)) : nat :=
  list_sum (List.map (@List.length spec_float) blocks).

(** [lo], [hi] are the little-endian two's complement bytes of [z]. *)
Definition le16 (z lo hi : Z) : Prop :=
  0 <= lo <= 255 /\ 0 <= hi <= 255 /\
  z = lo + 256 * hi - (if 128 <=? hi then 65536 else 0).

(** A byte string that holds the given samples, two bytes each. *)
Inductive encodes : list Z -> list Z -> Prop :=
  | encodes_nil : encodes [] []
  | encodes_cons z lo hi zs ds :
      le16 z lo hi -> encodes zs ds -> encodes (z :: zs) (lo :: hi :: ds).

End Session.

(* ===================================================================== *)
(** * The microphone menu *)
(* ===================================================================== *)

Module Devices.
Import App.

(** [AudioRecorder.get_devices()]: the entry for the platform default, then
    the names of the devices that have input channels. The query is not
    guarded: when it raises, so does the method. *)
Definition get_devices (E : Env) : outcome (list pystr) :=
  match query_devices E with
  | None => Raise OSError
  | Some devices =>
      Ret (default_device_name
           :: List.map d_name
                (List.filter (fun d => 0 <? max_input_channels d) devices))
  end.

(** The device can record and carries this name. *)
Definition usable (name : pystr) (d : device) : Prop :=
  d_name d = name /\ 0 < max_input_channels d.

End Devices.

(* ===================================================================== *)
(** * Further predicates *)
(* ===================================================================== *)

Module More.
Import Recorder App Threads.

(** The number of toggles among the inputs. *)
Definition toggles (inputs : list input) : nat :=
  List.length (List.filter (fun i => match i with Toggle => true
                                             | _ => false end) inputs).

(** The inputs that follow the last click on the overlay; [None] when
    there is no click among the inputs. *)
Fixpoint after_last_click (inputs : list input) : option (list input) :=
  match inputs with
  | [] => None
  | i :: rest =>
      match after_last_click rest with
      | Some l => Some l
      | None => match i with Click => Some rest | _ => None end
      end
  end.

(** The microphone of the configuration can be looked up and opened. *)
Definition microphone_works (E : Env) (CFG : Config) : Prop :=
  (forall d, open_device E d = OpenOk) /\
  (exists idx, get_device_index E (microphone CFG) = Ret idx).

(** The text the speech model gives for a file, joined and stripped as
    [_transcribe] does it; [None] when the model raises. *)
Definition transcript (E : Env) (CFG : Config) (audio_file : path)
  : option pystr :=
  let lang := language CFG in
  let whisper_lang :=
    if PyStr.eqb lang (py "auto") then None else Some lang in
  match whisper E audio_file whisper_lang (silence_threshold_ms CFG) with
  | Some segments => Some (strip (join (py " ") segments))
  | None => None
  end.

(** The event is a request to the AI service. *)
Definition is_chat (e : event) : Prop :=
  match e with EvChat _ _ _ => True | _ => False end.

(** The event is none of the clipboard, focus and keyboard calls of the
    injection. *)
Definition not_chat (e : event) : Prop :=
  match e with EvChat _ _ _ => False | _ => True end.

(** The configuration with another API key. *)
Definition with_api_key (key : pystr) (CFG : Config) : Config :=
  {| language := language CFG;
     silence_threshold_ms := silence_threshold_ms CFG;
     auto_paste := auto_paste CFG;
     save_recordings_path := save_recordings_path CFG;
     microphone := microphone CFG;
     replacements := replacements CFG;
     ai_enabled := ai_enabled CFG;
     ai_api_key := key;
     ai_model := ai_model CFG;
     ai_prompt := ai_prompt CFG;
     recording_retention_days := recording_retention_days CFG |}.

(** The client the AI step talks through: the cached one, else a new one
    for the stripped key of the configuration, if it can be built. *)
Definition client_for (E : Env) (CFG : Config) (a : VoiceAssistantApp)
  : option pystr :=
  match _openai_client a with
  | Some client => Some client
  | None => if openai_ctor_ok E then Some (strip (ai_api_key CFG)) else None
  end.

(** The AI step gives no correction for this text: it is switched off, has
    no key, or its call fails. *)
Definition no_correction (E : Env) (CFG : Config) (a : VoiceAssistantApp)
  (text : pystr) : Prop :=
  ai_enabled CFG = false \/ strip (ai_api_key CFG) = [] \/
  Props.ai_call_fails E CFG a text = true.

(** The sweep is switched on and has a directory to work in. *)
Definition sweep_enabled (E : Env) (CFG : Config) (w : World) : bool :=
  (0 <? recording_retention_days CFG)
  && negb (String.eqb (save_recordings_path CFG) "")
  && bool_decide (realdir E (save_recordings_path CFG) ∈ dirs w).

End More.


(* ===================================================================== *)
(** * Settings: the configuration file, the editors, autostart *)
(* ===================================================================== *)

Module Settings.
Import App.

Section ConfigFile.

(** The values of the configuration are JSON values; how they look plays no
    part in loading and saving. *)
Context {V : Type}.

(** What is found at [CONFIG_FILE]: nothing, something [json.load] or the
    merge rejects, or a saved dictionary. *)
Inductive config_file :=
  | NoFile
  | Unreadable
  | Saved (saved : gmap string V).

(** [DEFAULT_CONFIG] *)
Variable DEFAULT_CONFIG : gmap string V.

(** [load_config()]: [{**DEFAULT_CONFIG, **saved}], the defaults alone when
    there is no file or reading it fails. *)
Definition load_config (file : config_file) : gmap string V :=
  match file with
  | Saved saved => saved ∪ DEFAULT_CONFIG
  | NoFile | Unreadable => DEFAULT_CONFIG
  end.

(** How writing the file goes: it works, [open(..., "w")] raises and the
    file is as before, or [json.dump] raises on the file just truncated. *)
Inductive write_result := Written | OpenRaises | DumpRaises.

(** [save_config(cfg)] *)
Definition save_config (cfg : gmap string V) (how : write_result)
  (file : config_file) : outcome unit * config_file :=
  match how with
  | Written => (Ret tt, Saved cfg)
  | OpenRaises => (Raise OSError, file)
  | DumpRaises => (Raise OSError, Unreadable)
  end.

(** [_save(key, value)]: the dictionary in memory and the file. The entry
    is set before the file is written. *)
Definition _save (key : string) (value : V) (how : write_result)
  (st : gmap string V * config_file)
  : outcome unit * (gmap string V * config_file) :=
  let cfg := <[key := value]> (fst st) in
  let '(r, file) := save_config cfg how (snd st) in
  (r, (cfg, file)).

(** A session of settings changes, each with the way its write goes. *)
Definition save_all (changes : list (string * V * write_result))
  (st : gmap string V * config_file) : gmap string V * config_file :=
  fold_left (fun st c => snd (_save (fst (fst c)) (snd (fst c)) (snd c) st))
    changes st.

End ConfigFile.

(** [_add_replacement]: the two entry fields, stripped; nothing happens for
    a blank pattern, else the rule goes to the end of the list. *)
Definition _add_replacement (find_entry replace_entry : pystr)
  (reps : list ReplacementRule) : list ReplacementRule :=
  let find := strip find_entry in
  let replace := strip replace_entry in
  if negb (truthy find) then reps
  else reps ++ [{| rep_match := find; rep_replace := replace;
                   rep_ignore_case := true |}].

(** [_remove_replacement(index)]: [reps.pop(index)] for an index in range. *)
Definition _remove_replacement (index : Z) (reps : list ReplacementRule)
  : list ReplacementRule :=
  if (0 <=? index) && (index <? Z.of_nat (List.length reps))
  then take (Z.to_nat index) reps ++ drop (S (Z.to_nat index)) reps
  else reps.

(** What the user does on the replacements page. *)
Inductive edit :=
  | Add (find_entry replace_entry : pystr)
  | Remove (index : Z).

Definition apply_edit (reps : list ReplacementRule) (e : edit)
  : list ReplacementRule :=
  match e with
  | Add f r => _add_replacement f r reps
  | Remove i => _remove_replacement i reps
  end.

(** A rule as the page stores it: a pattern that is not empty and has no
    white space around it, and the flag set. *)
Definition editor_rule (r : ReplacementRule) : Prop :=
  rep_match r <> [] /\ strip (rep_match r) = rep_match r /\
  strip (rep_replace r) = rep_replace r /\ rep_ignore_case r = true.

(** The rule gets past the guard [if match:] of the pipeline: its turn of
    the loop is the call of [re.sub] on its pattern and replacement, with
    what follows from the way that call ends. *)
Definition reaches_re_sub (E : Env) (r : ReplacementRule) : Prop :=
  forall text,
    apply_rule E text r
    = match Re.sub (re_engine E) (rep_match r) (rep_replace r) text with
      | Re.Done text' => Some text'
      | Re.Error => Some text
      | Re.Crash => None
      end.

(** The labels of the retention menu: "Не удалять", "1 день", "3 дня",
    "7 дней", "30 дней". *)
Definition label_keep : pystr :=
  [1053; 1077; 32; 1091; 1076; 1072; 1083; 1103; 1090; 1100]%N.
Definition label_1 : pystr := [49; 32; 1076; 1077; 1085; 1100]%N.
Definition label_3 : pystr := [51; 32; 1076; 1085; 1103]%N.
Definition label_7 : pystr := [55; 32; 1076; 1085; 1077; 1081]%N.
Definition label_30 : pystr := [51; 48; 32; 1076; 1085; 1077; 1081]%N.

Definition retention_options : list pystr :=
  [label_keep; label_1; label_3; label_7; label_30].

(** [label_to_days.get(val, 0)] of [_on_retention_change] *)
Definition label_to_days (val : pystr) : Z :=
  if PyStr.eqb val label_keep then 0
  else if PyStr.eqb val label_1 then 1
  else if PyStr.eqb val label_3 then 3
  else if PyStr.eqb val label_7 then 7
  else if PyStr.eqb val label_30 then 30
  else 0.

(** [retention_map.get(current_days, "Не удалять")] of the audio page *)
Definition retention_label (days : Z) : pystr :=
  if days =? 0 then label_keep
  else if days =? 1 then label_1
  else if days =? 3 then label_3
  else if days =? 7 then label_7
  else if days =? 30 then label_30
  else label_keep.

(** [_on_retention_change(val)], on the configuration of the pipeline. *)
Definition _on_retention_change (val : pystr) (CFG : Config) : Config :=
  {| language := language CFG;
     silence_threshold_ms := silence_threshold_ms CFG;
     auto_paste := auto_paste CFG;
     save_recordings_path := save_recordings_path CFG;
     microphone := microphone CFG;
     replacements := replacements CFG;
     ai_enabled := ai_enabled CFG;
     ai_api_key := ai_api_key CFG;
     ai_model := ai_model CFG;
     ai_prompt := ai_prompt CFG;
     recording_retention_days := label_to_days val |}.

(** The values of the registry key [...\CurrentVersion\Run] of the user. *)
Definition app_name : string := "VoiceAssistantPro".

(** How [winreg.OpenKey] and the call after it go: they work, or one of
    them raises (no such key, no permission, no [winreg] module). *)
Inductive reg_access := RegOk | RegRaises.

(** [set_autostart(enable)]; [command] is [_get_app_path()]. Deleting a
    value that is not there raises [FileNotFoundError], which is passed
    over; every other error is printed. *)
Definition set_autostart (access : reg_access) (command : string)
  (enable : bool) (run_key : gmap string string) : gmap string string :=
  match access with
  | RegOk => if enable then <[app_name := command]> run_key
             else delete app_name run_key
  | RegRaises => run_key
  end.

(** [is_autostart_enabled()] *)
Definition is_autostart_enabled (access : reg_access)
  (run_key : gmap string string) : bool :=
  match access with
  | RegOk => match run_key !! app_name with
             | Some _ => true
             | None => false            (* FileNotFoundError *)
             end
  | RegRaises => false
  end.

End Settings.

(* ===================================================================== *)
(** * The floating button *)
(* ===================================================================== *)

Module Button.

(** The entries of the position menu: "Правый нижний", "Правый верхний",
    "Левый нижний", "Левый верхний". *)
Definition right_bottom : pystr :=
  [1055; 1088; 1072; 1074; 1099; 1081; 32;
   1085; 1080; 1078; 1085; 1080; 1081]%N.
Definition right_top : pystr :=
  [1055; 1088; 1072; 1074; 1099; 1081; 32;
   1074; 1077; 1088; 1093; 1085; 1080; 1081]%N.
Definition left_bottom : pystr :=
  [1051; 1077; 1074; 1099; 1081; 32; 1085; 1080; 1078; 1085; 1080; 1081]%N.
Definition left_top : pystr :=
  [1051; 1077; 1074; 1099; 1081; 32;
   1074; 1077; 1088; 1093; 1085; 1080; 1081]%N.

(** The corner [FloatingButton.show] puts the window at, for a screen of
    [sw] by [sh] pixels: the [x], [y] of its geometry string. *)
Definition corner (position : pystr) (size sw sh : Z) : Z * Z :=
  let margin := 20 in
  if PyStr.eqb position right_bottom
  then (sw - size - margin, sh - size - margin - 50)
  else if PyStr.eqb position right_top then (sw - size - margin, margin)
  else if PyStr.eqb position left_bottom
  then (margin, sh - size - margin - 50)
  else if PyStr.eqb position left_top then (margin, margin)
  else (sw - size - margin, sh - size - margin - 50).

End Button.

(* ===================================================================== *)
(** * Further concrete cases *)
(* ===================================================================== *)

Module Cases.
Import Recorder App Threads.

(** [Sample.env] with three devices: two microphones around a loudspeaker. *)
Definition env_three_devices : Env := {|
  foreground_window := foreground_window Sample.env;
  query_devices :=
    Some [ {| d_name := py "USB Mic"; max_input_channels := 2 |};
           {| d_name := py "Speakers"; max_input_channels := 0 |};
           {| d_name := py "Headset"; max_input_channels := 1 |} ];
  open_device := open_device Sample.env;
  normcase := normcase Sample.env;
  realdir := realdir Sample.env;
  glob_pattern := glob_pattern Sample.env;
  stat_ok := stat_ok Sample.env;
  remove_ok := remove_ok Sample.env;
  wave_write_ok := wave_write_ok Sample.env;
  thread_start_ok := thread_start_ok Sample.env;
  re_engine := re_engine Sample.env;
  load_model_ok := load_model_ok Sample.env;
  whisper := whisper Sample.env;
  openai_ctor_ok := openai_ctor_ok Sample.env;
  chat_create := chat_create Sample.env;
  paste_imports_ok := paste_imports_ok Sample.env;
  clip_paste_ok := clip_paste_ok Sample.env;
  clip_copy_ok := clip_copy_ok Sample.env;
  user32_ok := user32_ok Sample.env;
  same_thread := same_thread Sample.env;
  key_ok := key_ok Sample.env;
  time_time := time_time Sample.env;
|}.

(** [Sample.env] with a speech model that hears only silence. *)
Definition env_silence : Env := {|
  foreground_window := foreground_window Sample.env;
  query_devices := query_devices Sample.env;
  open_device := open_device Sample.env;
  normcase := normcase Sample.env;
  realdir := realdir Sample.env;
  glob_pattern := glob_pattern Sample.env;
  stat_ok := stat_ok Sample.env;
  remove_ok := remove_ok Sample.env;
  wave_write_ok := wave_write_ok Sample.env;
  thread_start_ok := thread_start_ok Sample.env;
  re_engine := re_engine Sample.env;
  load_model_ok := load_model_ok Sample.env;
  whisper := fun _ _ _ => Some [py "  "; py ""];
  openai_ctor_ok := openai_ctor_ok Sample.env;
  chat_create := chat_create Sample.env;
  paste_imports_ok := paste_imports_ok Sample.env;
  clip_paste_ok := clip_paste_ok Sample.env;
  clip_copy_ok := clip_copy_ok Sample.env;
  user32_ok := user32_ok Sample.env;
  same_thread := same_thread Sample.env;
  key_ok := key_ok Sample.env;
  time_time := time_time Sample.env;
|}.

(** A configuration with a key and AI on, automatic pasting off. *)
Definition config_no_paste : Config := {|
  language := py "auto";
  silence_threshold_ms := 500;
  auto_paste := false;
  save_recordings_path := "/rec";
  microphone := default_device_name;
  replacements := [Sample.rule "it" "the light" true];
  ai_enabled := true;
  ai_api_key := py "sk-live";
  ai_model := py "gpt-4o-mini";
  ai_prompt := py "fix";
  recording_retention_days := 0;
|}.

(** [Sample.env] with a keyboard library that raises. *)
Definition env_no_keyboard : Env := {|
  foreground_window := foreground_window Sample.env;
  query_devices := query_devices Sample.env;
  open_device := open_device Sample.env;
  normcase := normcase Sample.env;
  realdir := realdir Sample.env;
  glob_pattern := glob_pattern Sample.env;
  stat_ok := stat_ok Sample.env;
  remove_ok := remove_ok Sample.env;
  wave_write_ok := wave_write_ok Sample.env;
  thread_start_ok := thread_start_ok Sample.env;
  re_engine := re_engine Sample.env;
  load_model_ok := load_model_ok Sample.env;
  whisper := whisper Sample.env;
  openai_ctor_ok := openai_ctor_ok Sample.env;
  chat_create := chat_create Sample.env;
  paste_imports_ok := paste_imports_ok Sample.env;
  clip_paste_ok := clip_paste_ok Sample.env;
  clip_copy_ok := clip_copy_ok Sample.env;
  user32_ok := false;
  same_thread := same_thread Sample.env;
  key_ok := false;
  time_time := time_time Sample.env;
|}.

(** [Sample.state] after a first job has cached a client for "sk-old". *)
Definition state_with_client : State :=
  (set_openai_client (Some (py "sk-old")) (App.init Sample.tmp),
   Sample.world).

(** A small table of defaults, a saved file and two changes. *)
Definition defaults : gmap string Z :=
  {[ "hotkey"%string := 1; "language"%string := 2 ]}.

Definition saved_file : @Settings.config_file Z :=
  Settings.Saved {[ "language"%string := 5 ]}.

Definition two_changes : list (string * Z * @Settings.write_result) :=
  [ ("auto_paste"%string, 0, Settings.Written);
    ("language"%string, 7, Settings.Written) ].

End Cases.

(* ===================================================================== *)
(** * Theorems *)
(* ===================================================================== *)

Import Recorder App Threads Props.

(** Unfolds the plumbing of [M] so that a computation reduces. *)
Ltac run_m :=
  unfold mbind, M_bind, bind, mret, M_ret, ret, guard, raise, try_except,
    modify_world, modify_app, get_world, get_app in *; simpl in *.

(** ** PCM conversion *)

Lemma wrap_int16_range z : in_int16 (wrap_int16 z).
Proof.
  unfold in_int16, wrap_int16.
  pose proof (Z.mod_pos_bound (z + 32768) 65536). lia.
Qed.

Lemma wrap_int16_fits z : in_int16 z -> wrap_int16 z = z.
Proof.
  unfold in_int16, wrap_int16. intros Hz.
  rewrite Z.mod_small by lia. lia.
Qed.

Lemma wrap_int16_above z : 32767 < z <= 65535 -> wrap_int16 z = z - 65536.
Proof.
  unfold wrap_int16. intros Hz.
  replace (z + 32768) with ((z - 32768) + 1 * 65536) by lia.
  rewrite Z.mod_add by lia. rewrite Z.mod_small by lia. lia.
Qed.

Lemma to_int32_fits f t :
  trunc f = Some t -> -2147483648 <= t <= 2147483647 -> to_int32 f = t.
Proof.
  intros Ht Hr. unfold to_int32. rewrite Ht.
  destruct (Z.leb_spec (-2147483648) t), (Z.leb_spec t 2147483647);
    simpl; lia.
Qed.

Lemma to_pcm_sample x :
  pcm_sample x (astype_int16 (f32_mul x (f32_of_int 32767))).
Proof.
  split; [apply wrap_int16_range |].
  intros t Ht Hr. unfold astype_int16.
  rewrite (to_int32_fits _ _ Ht Hr).
  split; [reflexivity |].
  split; [apply wrap_int16_fits | apply wrap_int16_above].
Qed.

Lemma to_pcm_samples audio : Forall2 pcm_sample audio (to_pcm audio).
Proof.
  induction audio as [| x audio IH]; simpl; constructor;
    [apply to_pcm_sample | exact IH].
Qed.

(** Claim C1, as the code has it. For every recorder that is recording and
    has captured at least one block, [stop()] writes a mono 16-bit file at
    the recorder's sample rate whose samples are the concatenated float
    samples scaled by 32767, truncated toward zero and reduced to 16 bits
    without clamping: an integer part within the int16 range is kept, one
    just above it comes out 65536 lower, that is negative. *)
Theorem stop_scales_and_wraps (r : AudioRecorder) :
  is_recording r = true ->
  frames r <> [] ->
  exists r' wav,
    stop r = (r', Some (temp_file r), Some wav) /\
    is_recording r' = false /\
    nchannels wav = channels r /\
    sampwidth wav = 2 /\
    framerate wav = sample_rate r /\
    Forall2 pcm_sample (List.concat (frames r)) (pcm wav).
Proof.
  intros Hrec Hframes. unfold stop. rewrite Hrec. simpl.
  destruct (frames r) as [| b bs] eqn:Hf; [congruence |].
  eexists _, _. split; [reflexivity |]. simpl.
  do 4 (split; [reflexivity |]).
  apply to_pcm_samples.
Qed.

Lemma stop_scales_and_wraps_witness :
  is_recording Sample.recorder_two_blocks = true /\
  frames Sample.recorder_two_blocks <> [] /\
  exists r' wav,
    stop Sample.recorder_two_blocks
      = (r', Some (temp_file Sample.recorder_two_blocks), Some wav) /\
    is_recording r' = false /\
    nchannels wav = 1 /\
    sampwidth wav = 2 /\
    framerate wav = 16000 /\
    Forall2 pcm_sample [Sample.f_0_5; Sample.f_1_01; Sample.f_m1] (pcm wav).
Proof.
  split; [reflexivity |]. split; [simpl; discriminate |].
  apply (stop_scales_and_wraps Sample.recorder_two_blocks).
  - reflexivity.
  - simpl. discriminate.
Defined.

(** Claim C1, refuted as stated. A recorder that captured the single
    sample 1.01 writes the sample -32442, where scaling and clamping gives
    32767. *)
Lemma stop_does_not_clamp :
  snd (stop Sample.recorder_over_full_scale)
    = Some {| nchannels := 1; sampwidth := 2; framerate := 16000;
              pcm := [-32442]; data := [70; 129] |} /\
  to_pcm_clamped (List.concat (frames Sample.recorder_over_full_scale))
    = [32767].
Proof. split; reflexivity. Qed.


(** ** Starting a recording *)

Lemma start_failed_open o r :
  o <> OpenOk -> is_recording (start o r) = is_recording r.
Proof.
  intros Ho. unfold start.
  destruct (is_recording r) eqn:Hr; [exact Hr |].
  destruct o; [congruence | reflexivity | reflexivity].
Qed.

(** Claim C2, on the code. When the microphone cannot be opened nothing is
    raised and the recorder's flag is false afterwards, but the controller's
    flag has been set and stays set: the controller is in the recording
    state, not idle. The next toggle then takes the stop branch, finds no
    recording and starts no job. *)
Theorem failed_open_leaves_controller_recording
  (E : Env) (CFG : Config) (a : VoiceAssistantApp) :
  is_recording (recorder a) = false ->
  (forall d, open_device E d <> OpenOk) ->
  is_recording (recorder (_start_recording E CFG a)) = false /\
  _is_recording (_start_recording E CFG a) = true /\
  _toggle_recording E CFG (_start_recording E CFG a)
    = (set__is_recording false (_start_recording E CFG a), None).
Proof.
  intros Hr Hopen.
  assert (Hrec : is_recording (recorder (_start_recording E CFG a)) = false).
  { unfold _start_recording.
    destruct (get_device_index E (microphone CFG)) as [idx | e]; simpl.
    - rewrite start_failed_open by apply Hopen. exact Hr.
    - exact Hr. }
  assert (Hctl : _is_recording (_start_recording E CFG a) = true).
  { unfold _start_recording.
    destruct (get_device_index E (microphone CFG)); reflexivity. }
  split; [exact Hrec |]. split; [exact Hctl |].
  unfold _toggle_recording. rewrite Hctl.
  unfold _stop_recording, recorder_stop, stop. simpl. rewrite Hrec. simpl.
  destruct (_start_recording E CFG a) as [r t c i h]; reflexivity.
Qed.

Lemma failed_open_leaves_controller_recording_witness :
  is_recording (recorder (App.init Sample.tmp)) = false /\
  (forall d, open_device Sample.env_no_device d <> OpenOk) /\
  is_recording
    (recorder (_start_recording Sample.env_no_device
                 (Sample.config 0 true "sk") (App.init Sample.tmp))) = false /\
  _is_recording
    (_start_recording Sample.env_no_device (Sample.config 0 true "sk")
       (App.init Sample.tmp)) = true.
Proof.
  split; [reflexivity |]. split; [intros d; discriminate |].
  destruct (failed_open_leaves_controller_recording Sample.env_no_device
              (Sample.config 0 true "sk") (App.init Sample.tmp))
    as (Hrec & Hctl & _).
  - reflexivity.
  - intros d. discriminate.
  - split; [exact Hrec | exact Hctl].
Defined.

(** ** The replacement rules *)

Lemma apply_replacements_cons E r rs text :
  apply_replacements E (r :: rs) text
  = apply_rule E text r ≫= apply_replacements E rs.
Proof. reflexivity. Qed.

Lemma apply_replacements_app E rs1 rs2 text :
  apply_replacements E (rs1 ++ rs2) text
  = apply_replacements E rs1 text ≫= apply_replacements E rs2.
Proof.
  revert text. induction rs1 as [| r rs1 IH]; intros text; [reflexivity |].
  change (apply_replacements E ((r :: rs1) ++ rs2) text)
    with (apply_rule E text r ≫= apply_replacements E (rs1 ++ rs2)).
  rewrite apply_replacements_cons.
  destruct (apply_rule E text r) as [text' |]; [apply IH | reflexivity].
Qed.

Lemma apply_replacements_one E r text :
  apply_replacements E [r] text = apply_rule E text r.
Proof.
  cbn [apply_replacements]. destruct (apply_rule E text r); reflexivity.
Qed.

(** Claim C5. The rules are applied one after the other in list order,
    each on the output of the one before: a list of rules acts as its first
    part followed by its second part, an exception that leaves the loop in
    the first part ending it there; and the rules a -> b, b -> c turn the
    text "a" into "c" (whatever their flags and the regex engine). *)
Theorem replacements_are_chained (E : Env) :
  (forall r rs text,
     apply_replacements E (r :: rs) text
     = apply_replacements E [r] text ≫= apply_replacements E rs) /\
  (forall rs1 rs2 text,
     apply_replacements E (rs1 ++ rs2) text
     = apply_replacements E rs1 text ≫= apply_replacements E rs2) /\
  (forall f1 f2,
     apply_replacements E [Sample.rule "a" "b" f1; Sample.rule "b" "c" f2]
       (py "a") = Some (py "c")).
Proof.
  split; [| split; [intros; apply apply_replacements_app |]].
  - intros r rs text. rewrite apply_replacements_one. reflexivity.
  - intros f1 f2. reflexivity.
Qed.

(** Claim C10. A rule whose pattern is the empty string changes nothing,
    wherever it stands in the list: the rules before and after it are
    applied as if it were not there. *)
Theorem empty_pattern_is_skipped
  (E : Env) (replace : pystr) (flag : bool)
  (before after : list ReplacementRule) (text : pystr) :
  apply_replacements E
    (before ++ {| rep_match := []; rep_replace := replace;
                  rep_ignore_case := flag |} :: after) text
  = apply_replacements E (before ++ after) text.
Proof.
  rewrite !apply_replacements_app.
  destruct (apply_replacements E before text) as [text' |]; reflexivity.
Qed.

Lemma starts_with_ci_same p t :
  same_ignoring_case t p -> Re.starts_with_ci p t = true.
Proof.
  unfold same_ignoring_case. revert t.
  induction p as [| a p IH]; intros [| b t] H; simpl in *;
    try reflexivity; try discriminate.
  injection H as Hab Hrest.
  rewrite Hab, N.eqb_refl. simpl. apply IH. exact Hrest.
Qed.

Lemma sub_literal_skips_all p repl k t :
  (List.length t <= k)%nat -> Re.sub_literal p repl k t = [].
Proof.
  revert k. induction t as [| c t IH]; intros k Hk; simpl; [reflexivity |].
  destruct k as [| k]; simpl in Hk; [lia |]. apply IH. lia.
Qed.

Lemma sub_literal_whole_match p repl t :
  p <> [] -> same_ignoring_case t p -> Re.sub_literal p repl 0 t = repl.
Proof.
  intros Hp Hsame.
  assert (Hlen : List.length t = List.length p).
  { unfold same_ignoring_case in Hsame.
    apply (f_equal (@List.length N)) in Hsame.
    rewrite !List.length_map in Hsame. exact Hsame. }
  destruct t as [| c t].
  - destruct p; [congruence | discriminate].
  - cbn [Re.sub_literal]. rewrite (starts_with_ci_same _ _ Hsame).
    rewrite sub_literal_skips_all; [apply app_nil_r |].
    simpl in Hlen. lia.
Qed.

Lemma apply_rule_flag E b r text :
  apply_rule E text (with_ignore_case b r) = apply_rule E text r.
Proof. reflexivity. Qed.

(** Claim C6, as the code has it. The flag of a rule is not consulted:
    setting or clearing it in every rule changes no result, and the
    substitution ignores letter case in both cases. In particular a rule
    whose pattern is an ASCII word rewrites a text that spells this word in
    any mix of upper and lower case, whatever the rule's flag. *)
Theorem substitution_ignores_case_whatever_the_flag
  (E : Env) (r : ReplacementRule) (text : pystr) :
  Re.literal_pattern (rep_match r) = true ->
  Re.literal_repl (rep_replace r) = true ->
  Re.ascii_text text = true ->
  same_ignoring_case text (rep_match r) ->
  (forall b rules t,
     apply_replacements E (List.map (with_ignore_case b) rules) t
     = apply_replacements E rules t) /\
  (forall b,
     apply_replacements E [with_ignore_case b r] text
     = Some (rep_replace r)).
Proof.
  intros Hp Hr Ht Hsame. split.
  - intros b rules. induction rules as [| r0 rules IH]; intros t;
      [reflexivity |].
    simpl List.map. rewrite !apply_replacements_cons, apply_rule_flag.
    destruct (apply_rule E t r0) as [t' |]; [apply IH | reflexivity].
  - intros b. rewrite apply_replacements_one, apply_rule_flag.
    unfold apply_rule.
    assert (Hne : rep_match r <> []).
    { intros Hnil. rewrite Hnil in Hp. discriminate. }
    destruct (rep_match r) as [| c p] eqn:Hm; [congruence |]. simpl truthy.
    unfold Re.sub. rewrite Hp, Hr, Ht. simpl andb. cbv iota.
    f_equal. apply sub_literal_whole_match; assumption.
Qed.

Lemma substitution_ignores_case_whatever_the_flag_witness :
  Re.literal_pattern (py "hello") = true /\
  Re.literal_repl (py "bye") = true /\
  Re.ascii_text (py "HeLLo") = true /\
  same_ignoring_case (py "HeLLo") (py "hello") /\
  (forall b rules t,
     apply_replacements Sample.env (List.map (with_ignore_case b) rules) t
     = apply_replacements Sample.env rules t) /\
  (forall b,
     apply_replacements Sample.env
       [with_ignore_case b (Sample.rule "hello" "bye" false)] (py "HeLLo")
     = Some (py "bye")).
Proof.
  do 4 (split; [reflexivity |]).
  apply (substitution_ignores_case_whatever_the_flag Sample.env
           (Sample.rule "hello" "bye" false) (py "HeLLo"));
    reflexivity.
Defined.

(** Claim C6, refuted as stated. The rule a -> b has no case-insensitive
    flag and the text "A" holds no lower-case "a", yet the rule rewrites it
    to "b". *)
Lemma unflagged_rule_matches_other_case :
  rep_ignore_case (Sample.rule "a" "b" false) = false /\
  ~ In 97%N (py "A") /\
  apply_replacements Sample.env [Sample.rule "a" "b" false] (py "A")
    = Some (py "b").
Proof.
  split; [reflexivity |]. split; [| reflexivity].
  simpl. intros [H | []]. discriminate.
Qed.

(** ** The AI correction *)

Lemma gpt_postprocess_returns E CFG text s :
  exists text' s', gpt_postprocess E CFG text s = (Ret text', s').
Proof.
  unfold gpt_postprocess.
  destruct (truthy text && truthy (strip (ai_api_key CFG)) && ai_enabled CFG);
    [| eexists _, _; reflexivity].
  unfold openai_client, chat_completions_create. run_m.
  destruct (_openai_client (fst s)); run_m.
  - destruct (chat_create E _ _ _ _) as [| [c |]]; run_m;
      try (eexists _, _; reflexivity).
    destruct (truthy (strip c)); eexists _, _; reflexivity.
  - destruct (openai_ctor_ok E); run_m; [| eexists _, _; reflexivity].
    destruct (chat_create E _ _ _ _) as [| [c |]]; run_m;
      try (eexists _, _; reflexivity).
    destruct (truthy (strip c)); eexists _, _; reflexivity.
Qed.

(** Claim C3. With AI switched off, or with an empty API key, the AI step
    returns the text it was given and leaves the whole state as it was, the
    trace of outgoing calls included: no request is sent. Only one of the
    two conditions is needed, whatever the other setting is. *)
Theorem ai_correction_skipped
  (E : Env) (CFG : Config) (text : pystr) (s : State) :
  ai_enabled CFG = false \/ ai_api_key CFG = [] ->
  gpt_postprocess E CFG text s = (Ret text, s) /\
  chat_calls (trace (snd (snd (gpt_postprocess E CFG text s))))
    = chat_calls (trace (snd s)).
Proof.
  intros H.
  assert (Heq : gpt_postprocess E CFG text s = (Ret text, s)).
  { unfold gpt_postprocess. destruct H as [H | H]; rewrite H.
    - rewrite andb_false_r. reflexivity.
    - simpl. rewrite andb_false_r. reflexivity. }
  split; [exact Heq |]. rewrite Heq. reflexivity.
Qed.

Lemma ai_correction_skipped_witness :
  (ai_enabled (Sample.config 0 true "") = false
   \/ ai_api_key (Sample.config 0 true "") = []) /\
  (ai_enabled (Sample.config 0 false "sk-live") = false
   \/ ai_api_key (Sample.config 0 false "sk-live") = []) /\
  gpt_postprocess Sample.env (Sample.config 0 true "") (py "turn the light on")
    Sample.state = (Ret (py "turn the light on"), Sample.state) /\
  gpt_postprocess Sample.env (Sample.config 0 false "sk-live")
    (py "turn the light on") Sample.state
    = (Ret (py "turn the light on"), Sample.state).
Proof.
  split; [right; reflexivity |]. split; [left; reflexivity |].
  split.
  - apply (ai_correction_skipped Sample.env (Sample.config 0 true "")
             (py "turn the light on") Sample.state).
    right. reflexivity.
  - apply (ai_correction_skipped Sample.env (Sample.config 0 false "sk-live")
             (py "turn the light on") Sample.state).
    left. reflexivity.
Defined.

(** Claim C7. Whenever the AI call fails (the client cannot be created,
    the request raises for any reason, or the answer is missing or blank),
    the AI step returns normally with the text it was given, the one
    produced by the replacement rules; and in no case at all does the step
    raise. *)
Theorem ai_failure_falls_back
  (E : Env) (CFG : Config) (text : pystr) (s : State) :
  ai_call_fails E CFG (fst s) text = true ->
  (exists s', gpt_postprocess E CFG text s = (Ret text, s')) /\
  (forall text0 s0, exists text' s',
      gpt_postprocess E CFG text0 s0 = (Ret text', s')).
Proof.
  intros Hfail. split; [| intros; apply gpt_postprocess_returns].
  unfold gpt_postprocess.
  destruct (truthy text && truthy (strip (ai_api_key CFG)) && ai_enabled CFG);
    [| eexists; reflexivity].
  unfold ai_call_fails in Hfail.
  unfold openai_client, chat_completions_create. run_m.
  destruct (_openai_client (fst s)); run_m.
  - destruct (chat_create E _ _ _ _) as [| [c |]]; run_m;
      try (eexists; reflexivity).
    destruct (truthy (strip c)); [discriminate | eexists; reflexivity].
  - destruct (openai_ctor_ok E); run_m; [| eexists; reflexivity].
    destruct (chat_create E _ _ _ _) as [| [c |]]; run_m;
      try (eexists; reflexivity).
    destruct (truthy (strip c)); [discriminate | eexists; reflexivity].
Qed.

Lemma ai_failure_falls_back_witness :
  ai_call_fails Sample.env_ai_timeout (Sample.config 0 true "sk-live")
    (fst Sample.state) (py "turn the light on") = true /\
  exists s', gpt_postprocess Sample.env_ai_timeout
               (Sample.config 0 true "sk-live") (py "turn the light on")
               Sample.state
             = (Ret (py "turn the light on"), s').
Proof.
  split; [reflexivity |].
  apply (ai_failure_falls_back Sample.env_ai_timeout
           (Sample.config 0 true "sk-live") (py "turn the light on")
           Sample.state).
  reflexivity.
Defined.

(** ** Injection *)

Lemma clip_writes_app tr1 tr2 :
  clip_writes (tr1 ++ tr2) = clip_writes tr1 ++ clip_writes tr2.
Proof. unfold clip_writes. apply flat_map_app. Qed.

(** Claim C9. When the injection block runs to its end, the clipboard
    holds the injected text. The block reads the clipboard once, then
    writes the text, and that is its only write: the content read at the
    start is not put back, so what was on the clipboard before is lost. *)
Theorem injection_replaces_clipboard
  (E : Env) (text : pystr) (s s' : State) :
  inject E text s = (Ret tt, s') ->
  clipboard (snd s') = text /\
  clip_writes (trace (snd s')) = clip_writes (trace (snd s)) ++ [text] /\
  exists later,
    trace (snd s')
      = trace (snd s) ++ EvClipRead :: EvClipWrite text :: later /\
    clip_writes later = [].
Proof.
  unfold inject, pyperclip_paste, pyperclip_copy, restore_focus,
    kb_press_and_release.
  destruct s as [a w]. run_m.
  destruct (paste_imports_ok E); run_m; [| discriminate].
  destruct (clip_paste_ok E); run_m; [| discriminate].
  destruct (clip_copy_ok E); run_m; [| discriminate].
  (* the four ways the focus block can go, then the key press *)
  destruct (_prev_hwnd a) as [hwnd |]; run_m;
    [ destruct (hwnd =? 0); run_m;
      [| destruct (user32_ok E); run_m;
         [ destruct (same_thread E hwnd); run_m |] ] |];
    (destruct (key_ok E); run_m; [| discriminate]);
    intros H; injection H as <-; simpl;
    rewrite <- !app_assoc; simpl;
    (split; [reflexivity |]);
    (split; [rewrite clip_writes_app; reflexivity
            | eexists; split; reflexivity]).
Qed.

Lemma injection_replaces_clipboard_witness :
  exists s',
    inject Sample.env (py "turn the light on") Sample.state = (Ret tt, s') /\
    clipboard (snd Sample.state) = py "earlier" /\
    clipboard (snd s') = py "turn the light on".
Proof.
  eexists. split; [reflexivity |]. split; [reflexivity |].
  eapply (injection_replaces_clipboard Sample.env (py "turn the light on")
            Sample.state).
  reflexivity.
Defined.

(** ** Retention *)

Section KeepsFiles.

Context {A B : Type}.

Lemma kf_ret (a : A) : keeps_files (mret a : M A).
Proof. intros s. reflexivity. Qed.

Lemma kf_raise (e : exn) : keeps_files (raise e : M A).
Proof. intros s. reflexivity. Qed.

Lemma kf_bind (m : M A) (k : A -> M B) :
  keeps_files m -> (forall a, keeps_files (k a)) -> keeps_files (m ≫= k).
Proof.
  intros Hm Hk s. specialize (Hm s). run_m.
  destruct (m s) as [[a | e] s1]; simpl in *; [| exact Hm].
  rewrite (Hk a s1). exact Hm.
Qed.

Lemma kf_try_except (m : M A) (h : exn -> M A) :
  keeps_files m -> (forall e, keeps_files (h e)) ->
  keeps_files (try_except m h).
Proof.
  intros Hm Hh s. specialize (Hm s). unfold try_except.
  destruct (m s) as [[a | e] s1]; simpl in *; [exact Hm |].
  rewrite (Hh e s1). exact Hm.
Qed.

End KeepsFiles.

Lemma kf_guard b e : keeps_files (guard b e).
Proof. destruct b; intros s; reflexivity. Qed.

Lemma kf_get_app : keeps_files get_app.
Proof. intros s. reflexivity. Qed.

Lemma kf_get_world : keeps_files get_world.
Proof. intros s. reflexivity. Qed.

Lemma kf_modify_app f : keeps_files (modify_app f).
Proof. intros s. reflexivity. Qed.

Lemma kf_modify_world f :
  (forall w, files (f w) = files w) -> keeps_files (modify_world f).
Proof. intros Hf s. simpl. apply Hf. Qed.

Ltac kf :=
  repeat first
    [ apply kf_ret | apply kf_raise | apply kf_guard | apply kf_get_app
    | apply kf_get_world | apply kf_modify_app
    | apply kf_modify_world; intros ?; reflexivity
    | apply kf_bind; [| intros ?]
    | apply kf_try_except; [| intros ?]
    | match goal with
      | |- keeps_files (match ?x with _ => _ end) => destruct x
      end ].

Lemma gpt_postprocess_keeps_files E CFG text :
  keeps_files (gpt_postprocess E CFG text).
Proof. unfold gpt_postprocess, openai_client, chat_completions_create. kf. Qed.

Lemma inject_keeps_files E text : keeps_files (inject E text).
Proof.
  unfold inject, pyperclip_paste, pyperclip_copy, restore_focus,
    kb_press_and_release. kf.
Qed.

Lemma transcribe_body_keeps_files E CFG audio_file :
  keeps_files (transcribe_body E CFG audio_file).
Proof.
  unfold transcribe_body, load_model, run_whisper.
  apply kf_bind; [kf | intros _].
  apply kf_bind; [kf | intros text].
  destruct (negb (truthy text)); [kf |].
  apply kf_bind; [kf | intros text0].
  apply kf_bind; [apply gpt_postprocess_keeps_files | intros text'].
  destruct (truthy text' && auto_paste CFG); [apply inject_keeps_files | kf].
Qed.

Lemma sweep_file_spec E cutoff f a w :
  sweep_file E cutoff f (a, w)
  = (Ret tt,
     (a, if stale cutoff w (resolve E f) && allowed E (resolve E f)
         then set_files (delete (resolve E f) (files w)) w else w)).
Proof.
  unfold sweep_file, os_path_getmtime, os_remove, stale, allowed. run_m.
  destruct (files w !! resolve E f) as [mtime |] eqn:Hf; run_m;
    [| reflexivity].
  destruct (stat_ok E (resolve E f)); run_m;
    [| rewrite andb_false_r; reflexivity].
  destruct (f64_ltb mtime cutoff); run_m; [| reflexivity].
  rewrite Hf. destruct (remove_ok E (resolve E f)); reflexivity.
Qed.

(** The loop removes the stale files it is given, those the system lets
    go, and nothing else. *)
Lemma sweep_loop E cutoff (l : list path) a w :
  exists w',
    for_each l (sweep_file E cutoff) (a, w) = (Ret tt, (a, w')) /\
    clipboard w' = clipboard w /\ dirs w' = dirs w /\ trace w' = trace w /\
    forall p, files w' !! p
              = if bool_decide (p ∈ List.map (resolve E) l)
                   && stale cutoff w p && allowed E p
                then None else files w !! p.
Proof.
  revert w. induction l as [| f l IH]; intros w.
  - exists w. repeat split; reflexivity.
  - cbn [for_each List.map]. unfold mbind, M_bind, bind.
    rewrite sweep_file_spec.
    destruct (stale cutoff w (resolve E f) && allowed E (resolve E f))
      eqn:Hgo.
    + apply andb_prop in Hgo. destruct Hgo as [Hstale Hok].
      destruct (IH (set_files (delete (resolve E f) (files w)) w))
        as (w' & Hrun & Hc & Hd & Ht & Hfiles).
      exists w'. split; [exact Hrun |]. repeat split; try assumption.
      intros p. rewrite Hfiles. unfold stale. simpl.
      destruct (decide (p = resolve E f)) as [-> | Hne].
      * rewrite lookup_delete_eq, andb_false_r.
        rewrite bool_decide_eq_true_2 by left. simpl.
        unfold stale in Hstale. rewrite Hstale, Hok. reflexivity.
      * rewrite lookup_delete_ne by congruence.
        rewrite (bool_decide_ext (p ∈ resolve E f :: List.map (resolve E) l)
                   (p ∈ List.map (resolve E) l)); [reflexivity |].
        rewrite elem_of_cons. tauto.
    + destruct (IH w) as (w' & Hrun & Hc & Hd & Ht & Hfiles).
      exists w'. split; [exact Hrun |]. repeat split; try assumption.
      intros p. rewrite Hfiles.
      destruct (decide (p = resolve E f)) as [-> | Hne].
      * rewrite <- !andb_assoc, Hgo, !andb_false_r. reflexivity.
      * rewrite (bool_decide_ext (p ∈ resolve E f :: List.map (resolve E) l)
                   (p ∈ List.map (resolve E) l)); [reflexivity |].
        rewrite elem_of_cons. tauto.
Qed.

Lemma listdir_spec E d w name :
  In name (listdir E d w) <->
  realdir E d ∈ dirs w /\ is_Some (files w !! (realdir E d, name)).
Proof.
  unfold listdir.
  destruct (bool_decide_reflect (realdir E d ∈ dirs w)) as [Hd | Hd].
  - rewrite in_map_iff. split.
    + intros [[d' n'] [Hn Hin]]. simpl in Hn. subst n'.
      apply filter_In in Hin. destruct Hin as [Hin Heq].
      simpl in Heq. apply String.eqb_eq in Heq. subst d'.
      apply in_map_iff in Hin. destruct Hin as [[q mtime] [Hq Hin]].
      simpl in Hq. subst q. split; [exact Hd |].
      apply list_elem_of_In, elem_of_map_to_list in Hin. eauto.
    + intros [_ [mtime Hp]]. exists (realdir E d, name).
      split; [reflexivity |]. apply filter_In.
      split; [| simpl; apply String.eqb_refl].
      apply in_map_iff. exists ((realdir E d, name), mtime).
      split; [reflexivity |].
      apply list_elem_of_In, elem_of_map_to_list. exact Hp.
  - simpl. split; [tauto | intros [H _]; contradiction].
Qed.

(** What [glob] returns names, file by file, the entries of the listed
    directories whose name matches. *)
Lemma glob_wav_spec E d a w :
  exists found,
    glob_wav E d (a, w) = (Ret found, (a, w)) /\
    forall p, p ∈ List.map (resolve E) found <->
              fst p ∈ List.map (realdir E) (glob_dirs E d) /\
              fst p ∈ dirs w /\
              matches_star_wav E (snd p) = true /\
              is_Some (files w !! p).
Proof.
  eexists. split; [reflexivity |].
  intros [pd pn]. rewrite !list_elem_of_In, !in_map_iff. simpl. split.
  - intros [[d0 n0] [Hres Hin]]. unfold resolve in Hres. simpl in Hres.
    injection Hres as <- <-.
    apply in_flat_map in Hin. destruct Hin as [dirname [Hdir Hin]].
    apply in_map_iff in Hin. destruct Hin as [n1 [Heq Hin]].
    injection Heq as <- <-.
    apply filter_In in Hin. destruct Hin as [Hin Hm].
    apply listdir_spec in Hin. destruct Hin as [Hd Hs].
    split; [exists dirname; split; [reflexivity | exact Hdir] |].
    split; [exact Hd |]. split; assumption.
  - intros ([dirname [<- Hdir]] & Hd & Hm & Hs).
    exists (dirname, pn). split; [reflexivity |].
    apply in_flat_map. exists dirname. split; [exact Hdir |].
    apply in_map. apply filter_In. split; [| exact Hm].
    apply listdir_spec. split; assumption.
Qed.

Lemma cleanup_audio_file_no_retention E CFG f a w :
  recording_retention_days CFG <= 0 ->
  exists w',
    _cleanup_audio_file E CFG f (a, w) = (Ret tt, (a, w')) /\
    files w' = if remove_ok E (resolve E f)
               then delete (resolve E f) (files w) else files w.
Proof.
  intros Hdays. unfold _cleanup_audio_file.
  destruct (Z.leb_spec (recording_retention_days CFG) 0); [| lia].
  unfold os_remove. run_m.
  destruct (files w !! resolve E f) eqn:Hf; run_m.
  - destruct (remove_ok E (resolve E f)); run_m;
      eexists; split; reflexivity.
  - exists w. split; [reflexivity |].
    destruct (remove_ok E (resolve E f)); [| reflexivity].
    symmetry. apply delete_id. exact Hf.
Qed.

Lemma f64_round_int_overflow z :
  0 < z -> f64_of_int z = None -> f64_round_int z = S754_infinity false.
Proof.
  intros Hz Hnone. unfold f64_of_int in Hnone.
  destruct z as [| m | m]; try lia.
  unfold f64_round_int, binary_normalize, binary_round in *.
  destruct (shl_align _ _ _) as [mz ez].
  unfold binary_round_aux in *.
  destruct (shr_fexp _ _ _ _ _) as [mrs' e'].
  destruct (shr_fexp _ _ _ _ _) as [mrs'' e''].
  destruct (shr_m mrs'') as [| q | q]; try discriminate.
  destruct (e'' <=? 1024 - 53); [discriminate | reflexivity].
Qed.

(** No time is before [now - infinity]. *)
Lemma nothing_before_minus_infinity now w p :
  stale (f64_sub now (S754_infinity false)) w p = false.
Proof.
  unfold stale. destruct (files w !! p) as [mtime |]; [| reflexivity].
  destruct now as [s | [] | | s m e], mtime as [s' | [] | | [] m' e'];
    reflexivity.
Qed.

(** What the sweep does, for every configuration, clock and disk: it only
    touches the files, and of those it removes the ones [swept] names. *)
Lemma sweep_effect E CFG s :
  fst (snd (_cleanup_old_recordings E CFG s)) = fst s /\
  clipboard (snd (snd (_cleanup_old_recordings E CFG s)))
    = clipboard (snd s) /\
  trace (snd (snd (_cleanup_old_recordings E CFG s))) = trace (snd s) /\
  dirs (snd (snd (_cleanup_old_recordings E CFG s))) = dirs (snd s) /\
  forall p,
    files (snd (snd (_cleanup_old_recordings E CFG s))) !! p
    = if More.sweep_enabled E CFG (snd s) && swept E CFG (snd s) p
      then None else files (snd s) !! p.
Proof.
  destruct s as [a w]. unfold _cleanup_old_recordings, More.sweep_enabled.
  destruct (Z.leb_spec (recording_retention_days CFG) 0) as [Hle | Hgt].
  { assert (Hoff : (0 <? recording_retention_days CFG) = false)
      by (apply Z.ltb_ge; lia).
    rewrite Hoff. simpl. repeat split; reflexivity. }
  assert (Hon : (0 <? recording_retention_days CFG) = true)
    by (apply Z.ltb_lt; lia).
  rewrite Hon. unfold os_path_isdir, cutoff_time. run_m.
  destruct (String.eqb (save_recordings_path CFG) ""); simpl;
    [repeat split; reflexivity |].
  destruct (bool_decide (realdir E (save_recordings_path CFG) ∈ dirs w));
    simpl; [| repeat split; reflexivity].
  destruct (f64_of_int (recording_retention_days CFG * 86400))
    as [seconds |] eqn:Hsec; run_m.
  - assert (Hcut : cutoff E CFG = f64_sub (time_time E) seconds).
    { unfold cutoff. f_equal. unfold f64_of_int in Hsec.
      destruct (f64_round_int _); congruence. }
    destruct (glob_wav_spec E (save_recordings_path CFG) a w)
      as (found & Hglob & Hfound).
    unfold glob_wav in Hglob. run_m. injection Hglob as <-.
    match goal with
    | |- context [for_each ?l _ _] =>
        destruct (sweep_loop E (f64_sub (time_time E) seconds) l a w)
          as (w' & Hrun & Hc & Hd & Ht & Hfiles)
    end.
    rewrite Hrun. simpl. do 4 (split; [assumption || reflexivity |]).
    intros p. rewrite Hfiles. unfold swept, swept_dirs. rewrite Hcut.
    destruct (stale _ w p) eqn:Hstale; rewrite ?andb_false_r;
      [| reflexivity].
    destruct (allowed E p); rewrite ?andb_false_r; [| reflexivity].
    rewrite !andb_true_r.
    assert (Hsome : is_Some (files w !! p)).
    { unfold stale in Hstale.
      destruct (files w !! p); [eauto | discriminate]. }
    destruct (bool_decide
                (fst p ∈ List.map (realdir E)
                           (glob_dirs E (save_recordings_path CFG)))
              && bool_decide (fst p ∈ dirs w)
              && matches_star_wav E (snd p)) eqn:Hm.
    + apply andb_prop in Hm. destruct Hm as [Hm Hmatch].
      apply andb_prop in Hm. destruct Hm as [Hin Hdir].
      apply bool_decide_eq_true in Hin, Hdir.
      rewrite bool_decide_eq_true_2; [reflexivity |].
      apply Hfound. repeat split; assumption.
    + rewrite bool_decide_eq_false_2; [reflexivity |].
      intros Hin. apply Hfound in Hin.
      destruct Hin as (Hin & Hdir & Hmatch & _).
      rewrite (bool_decide_eq_true_2 _ Hin) in Hm.
      rewrite (bool_decide_eq_true_2 _ Hdir) in Hm.
      rewrite Hmatch in Hm. discriminate.
  - do 4 (split; [reflexivity |]). intros p. unfold swept, cutoff.
    assert (Hpos : 0 < recording_retention_days CFG * 86400) by lia.
    rewrite (f64_round_int_overflow _ Hpos Hsec).
    rewrite nothing_before_minus_infinity, !andb_false_r. reflexivity.
Qed.

(** Claim C4, on the code. The sweep hands the managed directory's name to
    [glob] as it is, so a name with wildcard characters is read as a
    pattern. With the managed directory [/rec[1]] and a directory [/rec1]
    beside it, both holding a recording more than seven days old, the
    pattern matches [/rec1] and not [/rec[1]]: the sweep returns normally,
    the expired recording of the managed directory is still there and the
    file outside it is gone. *)
Theorem sweep_reads_directory_name_as_pattern :
  has_magic (save_recordings_path Sample.config_brackets) = true /\
  expired Sample.env_brackets Sample.config_brackets Sample.world_brackets
    ("/rec[1]"%string, "old.wav"%string) = true /\
  expired Sample.env_brackets Sample.config_brackets Sample.world_brackets
    ("/rec1"%string, "old.wav"%string) = false /\
  fst (_cleanup_old_recordings Sample.env_brackets Sample.config_brackets
         (App.init Sample.tmp, Sample.world_brackets)) = Ret tt /\
  files (snd (snd (_cleanup_old_recordings Sample.env_brackets
                     Sample.config_brackets
                     (App.init Sample.tmp, Sample.world_brackets))))
    !! ("/rec[1]"%string, "old.wav"%string)
  = Some (f64_round_int 1699000000) /\
  files (snd (snd (_cleanup_old_recordings Sample.env_brackets
                     Sample.config_brackets
                     (App.init Sample.tmp, Sample.world_brackets))))
    !! ("/rec1"%string, "old.wav"%string)
  = None.
Proof. repeat split; vm_compute; reflexivity. Qed.

(** ** Jobs in flight *)

Lemma start_recording_opens E CFG a :
  (forall d, open_device E d = OpenOk) ->
  (exists idx, get_device_index E (microphone CFG) = Ret idx) ->
  _start_recording E CFG a
  = set_recorder (start OpenOk (recorder a))
      (set_prev_hwnd (foreground_window E) (set__is_recording true a)).
Proof.
  intros Hopen [idx Hidx]. unfold _start_recording.
  rewrite Hidx, Hopen. reflexivity.
Qed.


Lemma run_app E CFG l1 l2 s :
  run E CFG (l1 ++ l2) s = run E CFG l2 (run E CFG l1 s).
Proof. unfold run. apply fold_left_app. Qed.




(* ===================================================================== *)
(** * Further properties of the code *)
(* ===================================================================== *)

Import Session.

(** ** The recorder *)

Lemma callback_recording indata r :
  is_recording r = true ->
  _callback indata r = set_frames (frames r ++ [indata]) r.
Proof. intros Hrec. unfold _callback. rewrite Hrec. reflexivity. Qed.

Lemma deliver_all_frames blocks r :
  is_recording r = true ->
  is_recording (deliver_all blocks r) = true /\
  frames (deliver_all blocks r) = frames r ++ blocks /\
  temp_file (deliver_all blocks r) = temp_file r /\
  sample_rate (deliver_all blocks r) = sample_rate r /\
  channels (deliver_all blocks r) = channels r.
Proof.
  revert r. induction blocks as [| b blocks IH]; intros r Hrec.
  - simpl. rewrite app_nil_r. repeat split; assumption.
  - cbn [deliver_all fold_left]. rewrite (callback_recording b r Hrec).
    destruct (IH (set_frames (frames r ++ [b]) r) Hrec)
      as (H1 & H2 & H3 & H4 & H5).
    unfold deliver_all in *. rewrite H1, H2, H3, H4, H5. simpl.
    rewrite <- app_assoc. repeat split; reflexivity.
Qed.

Lemma to_pcm_length audio : List.length (to_pcm audio) = List.length audio.
Proof. unfold to_pcm. apply List.length_map. Qed.

Lemma concat_total_samples blocks :
  List.length (List.concat blocks) = total_samples blocks.
Proof.
  unfold total_samples. induction blocks as [| b blocks IH]; simpl;
    [reflexivity |].
  rewrite List.length_app, IH. reflexivity.
Qed.

(** X1. A recording holds exactly what was delivered since its start:
    whatever frames an idle recorder still carries from an earlier
    recording, starting it with a microphone that opens, delivering the
    blocks of a non-empty list and stopping writes the file whose samples
    are the conversion of those blocks, in order, one per captured sample. *)
Theorem recording_holds_blocks_since_start
  (r : AudioRecorder) (blocks : list (list spec_float)) :
  is_recording r = false ->
  blocks <> [] ->
  exists r' wav,
    stop (deliver_all blocks (start OpenOk r))
      = (r', Some (temp_file r), Some wav) /\
    pcm wav = to_pcm (List.concat blocks) /\
    List.length (pcm wav) = total_samples blocks /\
    frames r' = blocks /\
    is_recording r' = false.
Proof.
  intros Hidle Hne.
  assert (Hstart : is_recording (start OpenOk r) = true /\
                   frames (start OpenOk r) = [] /\
                   temp_file (start OpenOk r) = temp_file r).
  { unfold start. rewrite Hidle. repeat split; reflexivity. }
  destruct Hstart as (Hrec & Hfr & Htf).
  destruct (deliver_all_frames blocks _ Hrec) as (H1 & H2 & H3 & _ & _).
  rewrite Hfr in H2. simpl in H2. rewrite Htf in H3.
  unfold stop. rewrite H1. simpl. rewrite H2, H3.
  destruct blocks as [| b bs]; [congruence |].
  eexists _, _. split; [reflexivity |]. simpl.
  split; [reflexivity |].
  split; [rewrite to_pcm_length; apply (concat_total_samples (b :: bs)) |].
  split; [exact H2 | reflexivity].
Qed.

Lemma recording_holds_blocks_since_start_witness :
  is_recording (fst (fst (stop Sample.recorder_two_blocks))) = false /\
  [[Sample.f_1_01]] <> [] /\
  exists r' wav,
    stop (deliver_all [[Sample.f_1_01]]
            (start OpenOk (fst (fst (stop Sample.recorder_two_blocks)))))
      = (r', Some Sample.working_file, Some wav) /\
    pcm wav = [-32442].
Proof.
  split; [reflexivity |]. split; [discriminate |].
  destruct (recording_holds_blocks_since_start
              (fst (fst (stop Sample.recorder_two_blocks)))
              [[Sample.f_1_01]] eq_refl)
    as (r' & wav & Hstop & Hpcm & _); [discriminate |].
  exists r', wav. split; [exact Hstop | exact Hpcm].
Defined.

Lemma int16_bytes_le16 z :
  in_int16 z -> le16 z (Z.land z 255) (Z.land (Z.shiftr z 8) 255).
Proof.
  unfold in_int16, le16. intros Hz.
  change 255 with (Z.ones 8).
  rewrite !Z.land_ones by lia. rewrite Z.shiftr_div_pow2 by lia.
  change (2 ^ 8) with 256. change (Z.ones 8) with 255.
  pose proof (Z.div_mod z 256 ltac:(lia)) as Hz256.
  pose proof (Z.mod_pos_bound z 256 ltac:(lia)) as Hlo.
  pose proof (Z.mod_pos_bound (z / 256) 256 ltac:(lia)) as Hhi.
  assert (Hq : -128 <= z / 256 <= 127) by lia.
  destruct (Z.leb_spec 128 ((z / 256) mod 256)) as [Hge | Hlt].
  - assert (Hneg : z / 256 < 0).
    { destruct (Z_lt_le_dec (z / 256) 0) as [Hn | Hp]; [exact Hn |].
      rewrite Z.mod_small in Hge by lia. lia. }
    assert (Hmod : (z / 256) mod 256 = z / 256 + 256).
    { replace (z / 256) with ((z / 256 + 256) + (-1) * 256) at 1 by lia.
      rewrite Z.mod_add by lia. apply Z.mod_small. lia. }
    lia.
  - assert (Hpos : 0 <= z / 256).
    { destruct (Z_lt_le_dec (z / 256) 0) as [Hn | Hp]; [| exact Hp].
      assert (Hmod : (z / 256) mod 256 = z / 256 + 256).
      { replace (z / 256) with ((z / 256 + 256) + (-1) * 256) at 1 by lia.
        rewrite Z.mod_add by lia. apply Z.mod_small. lia. }
      lia. }
    rewrite (Z.mod_small (z / 256) 256) by lia. lia.
Qed.

Lemma to_pcm_in_range audio : Forall in_int16 (to_pcm audio).
Proof.
  unfold to_pcm. apply Forall_forall. intros z Hin.
  apply in_map_iff in Hin. destruct Hin as (x & <- & _).
  apply wrap_int16_range.
Qed.

Lemma bytes_encode zs :
  Forall in_int16 zs -> encodes zs (List.concat (List.map int16_bytes zs)).
Proof.
  induction 1 as [| z zs Hz _ IH]; simpl; constructor;
    [apply int16_bytes_le16; exact Hz | exact IH].
Qed.

Lemma encodes_length zs ds :
  encodes zs ds -> List.length ds = (2 * List.length zs)%nat.
Proof. induction 1; simpl; lia. Qed.

(** X2. The bytes handed to [writeframes] hold the samples of the file as
    16-bit little-endian two's complement numbers, two bytes per captured
    sample and nothing else, for every recording that captured audio. *)
Theorem stop_writes_two_bytes_per_sample (r : AudioRecorder) :
  is_recording r = true ->
  frames r <> [] ->
  exists wav,
    snd (stop r) = Some wav /\
    Forall in_int16 (pcm wav) /\
    encodes (pcm wav) (data wav) /\
    List.length (data wav) = (2 * total_samples (frames r))%nat.
Proof.
  intros Hrec Hne. unfold stop. rewrite Hrec. simpl.
  destruct (frames r) as [| b bs] eqn:Hf; [congruence |].
  eexists. split; [reflexivity |]. cbn [pcm data].
  pose proof (to_pcm_in_range (List.concat (b :: bs))) as Hrange.
  split; [exact Hrange |].
  pose proof (bytes_encode _ Hrange) as Henc.
  split; [exact Henc |].
  etransitivity; [exact (encodes_length _ _ Henc) |].
  rewrite to_pcm_length, concat_total_samples. reflexivity.
Qed.

Lemma stop_writes_two_bytes_per_sample_witness :
  is_recording Sample.recorder_two_blocks = true /\
  frames Sample.recorder_two_blocks <> [] /\
  exists wav,
    snd (stop Sample.recorder_two_blocks) = Some wav /\
    List.length (data wav) = 6%nat.
Proof.
  split; [reflexivity |]. split; [simpl; discriminate |].
  destruct (stop_writes_two_bytes_per_sample Sample.recorder_two_blocks
              eq_refl)
    as (wav & Hstop & _ & _ & Hlen); [simpl; discriminate |].
  exists wav. split; [exact Hstop | exact Hlen].
Defined.

Lemma stop_leaves_idle r :
  is_recording (fst (fst (stop r))) = false /\
  stream (fst (fst (stop r))) = (if is_recording r then None else stream r) /\
  sample_rate (fst (fst (stop r))) = sample_rate r /\
  channels (fst (fst (stop r))) = channels r /\
  temp_file (fst (fst (stop r))) = temp_file r.
Proof.
  unfold stop. destruct (is_recording r) eqn:Hrec; simpl.
  - destruct (frames r); simpl; repeat split; reflexivity.
  - rewrite Hrec. repeat split; reflexivity.
Qed.

(** X3. Stopping is harmless when nothing records: after any [stop()],
    whatever the recorder was doing, a second [stop()] returns no path,
    writes no file and leaves the recorder as the first one left it. *)
Theorem second_stop_does_nothing (r : AudioRecorder) :
  stop (fst (fst (stop r))) = (fst (fst (stop r)), None, None).
Proof.
  destruct (stop_leaves_idle r) as (Hidle & _).
  unfold stop at 1. rewrite Hidle. reflexivity.
Qed.

Lemma start_fields o r :
  sample_rate (start o r) = sample_rate r /\
  channels (start o r) = channels r /\
  temp_file (start o r) = temp_file r.
Proof.
  unfold start. destruct (is_recording r); [repeat split; reflexivity |].
  destruct o; repeat split; reflexivity.
Qed.

Lemma callback_fields indata r :
  sample_rate (_callback indata r) = sample_rate r /\
  channels (_callback indata r) = channels r /\
  temp_file (_callback indata r) = temp_file r /\
  is_recording (_callback indata r) = is_recording r /\
  stream (_callback indata r) = stream r.
Proof.
  unfold _callback. destruct (is_recording r) eqn:Hrec;
    repeat split; simpl; congruence.
Qed.

(** X4. Whatever calls are made on a recorder, in whatever order and with
    whatever luck in opening the device, it stays a mono 16 kHz recorder
    with the same working file, and it is recording exactly when it holds
    a running stream. *)
Theorem recorder_invariant (tmp : string) (calls : list call) :
  sample_rate (Session.run calls (Recorder.init tmp)) = 16000 /\
  channels (Session.run calls (Recorder.init tmp)) = 1 /\
  temp_file (Session.run calls (Recorder.init tmp))
    = (tmp, "voice_assistant_temp.wav"%string) /\
  (is_recording (Session.run calls (Recorder.init tmp)) = true <->
   stream (Session.run calls (Recorder.init tmp))
     = Some {| running := true |}).
Proof.
  unfold Session.run.
  assert (Hgen : forall r,
             sample_rate r = 16000 /\ channels r = 1 /\
             temp_file r = (tmp, "voice_assistant_temp.wav"%string) /\
             (is_recording r = true <->
              stream r = Some {| running := true |}) ->
             let r' := fold_left step calls r in
             sample_rate r' = 16000 /\ channels r' = 1 /\
             temp_file r' = (tmp, "voice_assistant_temp.wav"%string) /\
             (is_recording r' = true <->
              stream r' = Some {| running := true |})).
  { induction calls as [| c calls IH]; intros r Hr; [exact Hr |].
    cbn [fold_left]. apply IH. clear IH.
    destruct Hr as (Hsr & Hch & Htf & Hiff).
    destruct c as [o | indata |]; cbn [step].
    - destruct (start_fields o r) as (-> & -> & ->).
      do 3 (split; [assumption |]).
      unfold start. destruct (is_recording r) eqn:Hrec.
      + rewrite Hrec. exact Hiff.
      + destruct o; simpl; split; intros H; try reflexivity;
          try discriminate.
        apply Hiff in H. discriminate.
    - destruct (callback_fields indata r) as (-> & -> & -> & -> & ->).
      repeat split; try assumption; apply Hiff.
    - destruct (stop_leaves_idle r) as (-> & -> & -> & -> & ->).
      do 3 (split; [assumption |]).
      destruct (is_recording r) eqn:Hrec.
      + split; discriminate.
      + split; [discriminate |]. intros H. apply Hiff in H. discriminate. }
  apply Hgen. simpl. repeat split; try reflexivity; discriminate.
Qed.

(** ** The microphone menu *)

Import Devices.

Lemma find_device_sound name ds : forall i0 i,
  find_device name i0 ds = Some i ->
  exists d,
    (i0 <= i)%nat /\ nth_error ds (i - i0) = Some d /\ usable name d /\
    forall j d', (j < i - i0)%nat -> nth_error ds j = Some d' ->
                 ~ usable name d'.
Proof.
  induction ds as [| d ds IH]; intros i0 i Hfind; simpl in Hfind;
    [discriminate |].
  destruct (PyStr.eqb (d_name d) name && (0 <? max_input_channels d))
    eqn:Hd.
  - injection Hfind as <-. exists d. rewrite Nat.sub_diag.
    apply andb_prop in Hd. destruct Hd as [Hn Hc].
    unfold PyStr.eqb in Hn. apply bool_decide_eq_true in Hn.
    apply Z.ltb_lt in Hc.
    repeat split; try assumption; try reflexivity; try lia.
  - destruct (IH (S i0) i Hfind) as (d1 & Hle & Hnth & Hus & Hfirst).
    exists d1. split; [lia |].
    replace (i - i0)%nat with (S (i - S i0)) by lia.
    split; [exact Hnth |]. split; [exact Hus |].
    intros [| j] d' Hj Hd'; simpl in Hd'.
    + injection Hd' as <-. intros [Hn Hc].
      assert (PyStr.eqb (d_name d) name && (0 <? max_input_channels d)
              = true); [| congruence].
      apply andb_true_intro. split.
      * unfold PyStr.eqb. apply bool_decide_eq_true. exact Hn.
      * apply Z.ltb_lt. exact Hc.
    + apply (Hfirst j d'); [lia | exact Hd'].
Qed.

Lemma find_device_complete name ds : forall i0 d,
  In d ds -> usable name d -> exists i, find_device name i0 ds = Some i.
Proof.
  induction ds as [| d0 ds IH]; intros i0 d Hin Hus; [contradiction |].
  simpl.
  destruct (PyStr.eqb (d_name d0) name && (0 <? max_input_channels d0))
    eqn:Hd0; [eauto |].
  destruct Hin as [-> | Hin]; [| eapply IH; eassumption].
  destruct Hus as [Hn Hc].
  assert (PyStr.eqb (d_name d) name && (0 <? max_input_channels d) = true);
    [| congruence].
  apply andb_true_intro. split.
  - unfold PyStr.eqb. apply bool_decide_eq_true. exact Hn.
  - apply Z.ltb_lt. exact Hc.
Qed.

(** X5. The microphone menu and the device lookup fit together. The menu
    starts with the entry for the platform default, which the lookup maps
    to no index without asking for the devices; and every other non-empty
    name of the menu is mapped to the index of the first device that has
    this name and input channels. *)
Theorem menu_names_resolve (E : Env) (menu : list pystr) (name : pystr) :
  get_devices E = Ret menu ->
  In name menu ->
  name <> [] ->
  name <> default_device_name ->
  hd_error menu = Some default_device_name /\
  get_device_index E default_device_name = Ret None /\
  exists devices i d,
    query_devices E = Some devices /\
    get_device_index E name = Ret (Some i) /\
    nth_error devices i = Some d /\
    usable name d /\
    forall j d', (j < i)%nat -> nth_error devices j = Some d' ->
                 ~ usable name d'.
Proof.
  unfold get_devices. intros Hmenu Hin Hne Hnd.
  destruct (query_devices E) as [devices |] eqn:Hq; [| discriminate].
  injection Hmenu as <-.
  split; [reflexivity |].
  split.
  { unfold get_device_index.
    replace (PyStr.eqb default_device_name default_device_name) with true
      by reflexivity.
    rewrite orb_true_r. reflexivity. }
  destruct Hin as [Heq | Hin]; [congruence |].
  apply in_map_iff in Hin. destruct Hin as (d0 & Hname & Hin).
  apply filter_In in Hin. destruct Hin as [Hin Hch].
  apply Z.ltb_lt in Hch.
  destruct (find_device_complete name devices 0%nat d0 Hin (conj Hname Hch))
    as (i & Hfind).
  destruct (find_device_sound name devices 0%nat i Hfind)
    as (d & _ & Hnth & Hus & Hfirst).
  rewrite Nat.sub_0_r in Hnth, Hfirst.
  exists devices, i, d. split; [reflexivity |].
  split; [| split; [exact Hnth | split; [exact Hus | exact Hfirst]]].
  unfold get_device_index. rewrite Hq, Hfind.
  destruct name as [| c name]; [congruence |]. simpl.
  unfold PyStr.eqb. rewrite bool_decide_eq_false_2 by exact Hnd.
  reflexivity.
Qed.

Lemma menu_names_resolve_witness :
  get_devices Cases.env_three_devices
    = Ret [default_device_name; py "USB Mic"; py "Headset"] /\
  In (py "Headset") [default_device_name; py "USB Mic"; py "Headset"] /\
  py "Headset" <> [] /\
  py "Headset" <> default_device_name /\
  exists i d,
    get_device_index Cases.env_three_devices (py "Headset") = Ret (Some i) /\
    usable (py "Headset") d.
Proof.
  assert (Hin : In (py "Headset")
                  [default_device_name; py "USB Mic"; py "Headset"])
    by (simpl; tauto).
  assert (Hne : py "Headset" <> []) by discriminate.
  assert (Hnd : py "Headset" <> default_device_name) by discriminate.
  split; [reflexivity |]. do 3 (split; [assumption |]).
  destruct (menu_names_resolve Cases.env_three_devices _ (py "Headset")
              eq_refl Hin Hne Hnd)
    as (_ & _ & devices & i & d & _ & Hidx & _ & Hus & _).
  exists i, d. split; [exact Hidx | exact Hus].
Defined.

(** ** The controller *)

Import More.

Lemma stop_recording_fields E a :
  _is_recording (fst (_stop_recording E a)) = false /\
  recorder (fst (_stop_recording E a)) = fst (fst (stop (recorder a))) /\
  (snd (_stop_recording E a) = snd (fst (stop (recorder a))) \/
   snd (_stop_recording E a) = None).
Proof.
  unfold _stop_recording, recorder_stop. simpl.
  destruct (stop (recorder a)) as [[r f] [wav |]];
    [destruct (wave_write_ok E _ wav) |];
    simpl; repeat split; auto.
Qed.

Lemma toggle_flips E CFG a :
  _is_recording (fst (_toggle_recording E CFG a)) = negb (_is_recording a).
Proof.
  unfold _toggle_recording. destruct (_is_recording a) eqn:Hrec.
  - apply stop_recording_fields.
  - unfold _start_recording. simpl.
    destruct (get_device_index E (microphone CFG)); reflexivity.
Qed.

Lemma exec_controller_flag E CFG s i :
  _is_recording (app (exec E CFG s i))
  = match i with
    | Toggle => negb (_is_recording (app s))
    | Click => false
    | _ => _is_recording (app s)
    end.
Proof.
  destruct i as [| indata | n |]; simpl; try reflexivity.
  - rewrite <- (toggle_flips E CFG (app s)).
    destruct (_toggle_recording E CFG (app s)) as [a started]. reflexivity.
  - destruct (stop_recording_fields E (app s)) as (Hctl & _).
    destruct (_stop_recording E (app s)) as [a started]. exact Hctl.
Qed.

(** X6. The controller's flag is decided by the toggles and the clicks on
    the overlay, and by nothing else: a click clears it, a toggle flips it.
    After any inputs it is set exactly when the number of toggles since the
    last click is odd (without a click: when it differs from its initial
    value by an odd number of toggles), whether or not the microphone
    opened or the file could be written, and whatever audio arrived or jobs
    returned in between. *)
Theorem controller_flag_counts_toggles_since_click
  (E : Env) (CFG : Config) (inputs : list input) (s : System) :
  _is_recording (app (Threads.run E CFG inputs s))
  = match after_last_click inputs with
    | Some rest => Nat.odd (toggles rest)
    | None => xorb (_is_recording (app s)) (Nat.odd (toggles inputs))
    end.
Proof.
  unfold Threads.run. revert s.
  induction inputs as [| i inputs IH]; intros s.
  - simpl. rewrite xorb_false_r. reflexivity.
  - cbn [fold_left after_last_click]. rewrite IH.
    destruct (after_last_click inputs) as [rest |]; [reflexivity |].
    rewrite exec_controller_flag.
    destruct i as [| indata | n |].
    + change (toggles (Toggle :: inputs)) with (S (toggles inputs)).
      rewrite Nat.odd_succ, <- Nat.negb_odd.
      destruct (_is_recording (app s)), (Nat.odd (toggles inputs));
        reflexivity.
    + change (toggles (Block indata :: inputs)) with (toggles inputs).
      reflexivity.
    + change (toggles (JobReturns n :: inputs)) with (toggles inputs).
      reflexivity.
    + reflexivity.
Qed.

Lemma exec_keeps_agreement E CFG s i :
  microphone_works E CFG ->
  is_recording (recorder (app s)) = _is_recording (app s) ->
  (is_recording (recorder (app s)) = true <->
   stream (recorder (app s)) = Some {| running := true |}) ->
  is_recording (recorder (app (exec E CFG s i)))
    = _is_recording (app (exec E CFG s i)) /\
  (is_recording (recorder (app (exec E CFG s i))) = true <->
   stream (recorder (app (exec E CFG s i))) = Some {| running := true |}).
Proof.
  intros [Hopen Hidx] Hagree Hiff. destruct s as [a js]. simpl in *.
  assert (Hstop : forall js',
             is_recording
               (recorder (app (let '(a', started) := _stop_recording E a in
                               {| app := a'; jobs := js' started |})))
             = _is_recording
                 (app (let '(a', started) := _stop_recording E a in
                       {| app := a'; jobs := js' started |})) /\
             (is_recording
                (recorder (app (let '(a', started) := _stop_recording E a in
                                {| app := a'; jobs := js' started |})))
              = true <->
              stream
                (recorder (app (let '(a', started) := _stop_recording E a in
                                {| app := a'; jobs := js' started |})))
              = Some {| running := true |})).
  { intros js'. destruct (stop_recording_fields E a) as (H1 & H2 & _).
    destruct (_stop_recording E a) as [a' started]. simpl in *.
    rewrite H1, H2.
    destruct (stop_leaves_idle (recorder a)) as (Hidle & Hstream & _).
    rewrite Hidle, Hstream.
    split; [reflexivity |]. split; [discriminate |].
    destruct (is_recording (recorder a)); [discriminate |].
    intros Hs. apply Hiff in Hs. discriminate. }
  destruct i as [| indata | n |]; simpl.
  - unfold _toggle_recording. destruct (_is_recording a) eqn:Hctl.
    + apply (Hstop (fun started => spawn E started js)).
    + rewrite (start_recording_opens E CFG a Hopen Hidx). simpl.
      unfold start. rewrite Hagree. simpl.
      split; [reflexivity |]. split; reflexivity.
  - unfold deliver.
    destruct (stream (recorder a)) as [[[|]] |] eqn:Hs;
      try (rewrite Hs; split; assumption).
    destruct (callback_fields indata (recorder a))
      as (_ & _ & _ & Hrec & Hstr).
    rewrite Hrec, Hstr, Hs. split; assumption.
  - split; assumption.
  - apply (Hstop (fun started => spawn E started js)).
Qed.

(** X7. With a microphone that can be looked up and opened, the controller
    and the recorder never disagree: in every state reached from start-up
    the recorder records exactly when the controller's flag is set, and it
    then holds a running stream, and only then. *)
Theorem flags_agree_when_microphone_works
  (E : Env) (CFG : Config) (tmp : string) (inputs : list input) :
  microphone_works E CFG ->
  is_recording (recorder (app (Threads.run E CFG inputs (boot tmp))))
    = _is_recording (app (Threads.run E CFG inputs (boot tmp))) /\
  (_is_recording (app (Threads.run E CFG inputs (boot tmp))) = true <->
   stream (recorder (app (Threads.run E CFG inputs (boot tmp))))
     = Some {| running := true |}).
Proof.
  intros Hmic.
  assert (Hgen : forall s,
             is_recording (recorder (app s)) = _is_recording (app s) ->
             (is_recording (recorder (app s)) = true <->
              stream (recorder (app s)) = Some {| running := true |}) ->
             is_recording (recorder (app (Threads.run E CFG inputs s)))
               = _is_recording (app (Threads.run E CFG inputs s)) /\
             (is_recording (recorder (app (Threads.run E CFG inputs s)))
                = true <->
              stream (recorder (app (Threads.run E CFG inputs s)))
                = Some {| running := true |})).
  { unfold Threads.run. induction inputs as [| i inputs IH]; intros s H1 H2;
      [split; assumption |].
    cbn [fold_left].
    destruct (exec_keeps_agreement E CFG s i Hmic H1 H2) as [H1' H2'].
    apply IH; assumption. }
  destruct (Hgen (boot tmp)) as [Hagree Hiff].
  - reflexivity.
  - simpl. split; discriminate.
  - split; [exact Hagree |]. rewrite <- Hagree. exact Hiff.
Qed.

Lemma flags_agree_when_microphone_works_witness :
  microphone_works Sample.env (Sample.config 0 true "") /\
  is_recording
    (recorder (app (Threads.run Sample.env (Sample.config 0 true "")
                      [Toggle; Block [Sample.f_0_5]; Toggle; Toggle]
                      (boot Sample.tmp))))
  = _is_recording
      (app (Threads.run Sample.env (Sample.config 0 true "")
              [Toggle; Block [Sample.f_0_5]; Toggle; Toggle]
              (boot Sample.tmp))).
Proof.
  assert (Hmic : microphone_works Sample.env (Sample.config 0 true "")).
  { split; [intros d; reflexivity | exists None; reflexivity]. }
  split; [exact Hmic |].
  exact (proj1 (flags_agree_when_microphone_works Sample.env
                  (Sample.config 0 true "") Sample.tmp
                  [Toggle; Block [Sample.f_0_5]; Toggle; Toggle] Hmic)).
Defined.

(** X8. A recording that captured nothing starts no job: from the idle
    state two toggles with no audio delivered in between leave the list of
    running jobs as it was and the application idle again, whether the
    microphone opened, failed to open or could not even be looked up. *)
Theorem empty_recording_starts_no_job
  (E : Env) (CFG : Config) (s : System) :
  _is_recording (app s) = false ->
  is_recording (recorder (app s)) = false ->
  jobs (Threads.run E CFG [Toggle; Toggle] s) = jobs s /\
  _is_recording (app (Threads.run E CFG [Toggle; Toggle] s)) = false /\
  is_recording (recorder (app (Threads.run E CFG [Toggle; Toggle] s)))
    = false.
Proof.
  intros Hctl Hrec.
  destruct s as [[[sr ch rec fr st tf] t c i h] js].
  simpl in Hctl, Hrec. subst i rec.
  unfold Threads.run, fold_left, exec, _toggle_recording.
  cbn [app _is_recording]. unfold _start_recording.
  destruct (get_device_index E (microphone CFG)) as [idx | e]; cbn.
  - destruct (open_device E idx); cbn; repeat split; reflexivity.
  - repeat split; reflexivity.
Qed.

Lemma empty_recording_starts_no_job_witness :
  _is_recording (app (boot Sample.tmp)) = false /\
  is_recording (recorder (app (boot Sample.tmp))) = false /\
  jobs (Threads.run Sample.env_no_device (Sample.config 0 true "")
          [Toggle; Toggle] (boot Sample.tmp)) = [].
Proof.
  split; [reflexivity |]. split; [reflexivity |].
  apply (empty_recording_starts_no_job Sample.env_no_device
           (Sample.config 0 true "") (boot Sample.tmp));
    reflexivity.
Defined.

(** One recording made from the idle state: a toggle, a block of audio,
    a toggle. The state is idle again and one more job is running. *)
Lemma recording_cycle E CFG (s : System) (b : list spec_float) :
  microphone_works E CFG ->
  (forall p wav, wave_write_ok E p wav = true) ->
  (forall running, thread_start_ok E running = true) ->
  _is_recording (app s) = false ->
  is_recording (recorder (app s)) = false ->
  _is_recording (app (Threads.run E CFG [Toggle; Block b; Toggle] s))
    = false /\
  is_recording
    (recorder (app (Threads.run E CFG [Toggle; Block b; Toggle] s)))
    = false /\
  jobs (Threads.run E CFG [Toggle; Block b; Toggle] s)
    = jobs s ++ [temp_file (recorder (app s))].
Proof.
  intros [Hopen Hidx] Hwrite Hthread Hctl Hrec.
  destruct s as [[[sr ch rec fr st tf] t c i h] js].
  simpl in Hctl, Hrec. subst i rec.
  unfold Threads.run, fold_left, exec, _toggle_recording.
  cbn [app _is_recording].
  rewrite (start_recording_opens E CFG _ Hopen Hidx).
  unfold _stop_recording, recorder_stop, stop, spawn. cbn.
  rewrite Hwrite. cbn. rewrite Hthread. repeat split; reflexivity.
Qed.

(** X29. The application puts no bound on the jobs in flight: with a
    microphone that works, a file system that takes every recording and a
    system that creates every thread asked for, for every [n] there are
    inputs after which [n] jobs started from start-up are running together
    and the application is idle, ready for the next recording. *)
Theorem jobs_in_flight_are_unbounded
  (E : Env) (CFG : Config) (tmp : string) (n : nat) :
  microphone_works E CFG ->
  (forall p wav, wave_write_ok E p wav = true) ->
  (forall running, thread_start_ok E running = true) ->
  exists inputs,
    in_flight (Threads.run E CFG inputs (boot tmp)) = n /\
    _is_recording (app (Threads.run E CFG inputs (boot tmp))) = false.
Proof.
  intros Hmic Hwrite Hthread.
  assert (Hgen : forall s,
             _is_recording (app s) = false ->
             is_recording (recorder (app s)) = false ->
             exists inputs,
               _is_recording (app (Threads.run E CFG inputs s)) = false /\
               is_recording (recorder (app (Threads.run E CFG inputs s)))
                 = false /\
               in_flight (Threads.run E CFG inputs s)
                 = (in_flight s + n)%nat).
  { induction n as [| n IH]; intros s Hctl Hrec.
    - exists []. simpl. repeat split; try assumption. lia.
    - destruct (recording_cycle E CFG s [] Hmic Hwrite Hthread Hctl Hrec)
        as (Hctl1 & Hrec1 & Hjobs1).
      destruct (IH _ Hctl1 Hrec1) as (inputs & Hctl2 & Hrec2 & Hn).
      exists ([Toggle; Block []; Toggle] ++ inputs).
      rewrite run_app. repeat split; try assumption.
      rewrite Hn. unfold in_flight. rewrite Hjobs1, length_app. simpl. lia. }
  destruct (Hgen (boot tmp) eq_refl eq_refl) as (inputs & Hctl & _ & Hn).
  exists inputs. split; [exact Hn | exact Hctl].
Qed.

Lemma jobs_in_flight_are_unbounded_witness :
  microphone_works Sample.env (Sample.config 0 true "") /\
  (forall p wav, wave_write_ok Sample.env p wav = true) /\
  (forall running, thread_start_ok Sample.env running = true) /\
  exists inputs,
    in_flight (Threads.run Sample.env (Sample.config 0 true "") inputs
                 (boot Sample.tmp)) = 3%nat.
Proof.
  assert (Hmic : microphone_works Sample.env (Sample.config 0 true "")).
  { split; [intros d; reflexivity | exists None; reflexivity]. }
  assert (Hwrite : forall p wav, wave_write_ok Sample.env p wav = true)
    by (intros p wav; reflexivity).
  assert (Hthread : forall running,
             thread_start_ok Sample.env running = true)
    by (intros running; reflexivity).
  split; [exact Hmic |]. split; [exact Hwrite |]. split; [exact Hthread |].
  destruct (jobs_in_flight_are_unbounded Sample.env (Sample.config 0 true "")
              Sample.tmp 3%nat Hmic Hwrite Hthread) as (inputs & Hn & _).
  exists inputs. exact Hn.
Defined.

(** ** The pipeline job *)

Lemma cleanup_audio_file_world E CFG f s :
  fst (snd (_cleanup_audio_file E CFG f s)) = fst s /\
  clipboard (snd (snd (_cleanup_audio_file E CFG f s))) = clipboard (snd s) /\
  trace (snd (snd (_cleanup_audio_file E CFG f s))) = trace (snd s) /\
  dirs (snd (snd (_cleanup_audio_file E CFG f s))) = dirs (snd s) /\
  (fst (_cleanup_audio_file E CFG f s) = Ret tt \/
   fst (_cleanup_audio_file E CFG f s) = Raise OverflowError /\
   0 < recording_retention_days CFG /\
   f64_of_int (recording_retention_days CFG * 86400) = None).
Proof.
  destruct s as [a w]. unfold _cleanup_audio_file.
  destruct (Z.leb_spec (recording_retention_days CFG) 0) as [Hle | Hgt].
  - unfold os_remove. run_m.
    destruct (files w !! resolve E f); run_m;
      [destruct (remove_ok E (resolve E f)); run_m |];
      repeat split; try reflexivity; left; reflexivity.
  - unfold _cleanup_old_recordings.
    destruct (Z.leb_spec (recording_retention_days CFG) 0); [lia |].
    unfold os_path_isdir, cutoff_time. run_m.
    destruct (String.eqb (save_recordings_path CFG) ""
              || negb (bool_decide
                         (realdir E (save_recordings_path CFG) ∈ dirs w)));
      run_m; [repeat split; try reflexivity; left; reflexivity |].
    destruct (f64_of_int (recording_retention_days CFG * 86400))
      as [seconds |] eqn:Hsec; run_m.
    + unfold glob_wav. run_m.
      match goal with
      | |- context [for_each ?l _ _] =>
          destruct (sweep_loop E (f64_sub (time_time E) seconds) l a w)
            as (w' & Hrun & Hc & Hd & Ht & _)
      end.
      rewrite Hrun. simpl. repeat split; try assumption. left; reflexivity.
    + repeat split; try reflexivity. right. repeat split; assumption.
Qed.

(** X9. Nothing but an overflow of the retention arithmetic leaves the job:
    [_transcribe] returns normally whatever the model, the AI service, the
    clipboard or the keyboard do. The one exception that can escape is the
    [OverflowError] of [days * 86400] in the sweep it runs at the end,
    for a positive retention too large for a float. *)
Theorem transcribe_contains_failures
  (E : Env) (CFG : Config) (audio_file : path) (s : State) :
  fst (_transcribe E CFG audio_file s) = Ret tt \/
  fst (_transcribe E CFG audio_file s) = Raise OverflowError /\
  0 < recording_retention_days CFG /\
  f64_of_int (recording_retention_days CFG * 86400) = None.
Proof.
  unfold _transcribe, try_finally.
  assert (Hret : exists s1,
             try_except (transcribe_body E CFG audio_file)
               (fun _ => mret tt) s = (Ret tt, s1)).
  { unfold try_except.
    destruct (transcribe_body E CFG audio_file s) as [[[] | e] s1];
      eexists; reflexivity. }
  destruct Hret as (s1 & ->).
  destruct (cleanup_audio_file_world E CFG audio_file s1)
    as (_ & _ & _ & _ & Hout).
  destruct (_cleanup_audio_file E CFG audio_file s1) as [[[] | e] s2];
    simpl in *; [left; reflexivity |].
  destruct Hout as [Hout | (Hout & Hd & Hov)]; [discriminate |].
  right. repeat split; assumption.
Qed.

(** What the AI step does to the state: it may cache a client and it adds
    at most the one request to the trace. *)
Lemma gpt_postprocess_world E CFG text s :
  clipboard (snd (snd (gpt_postprocess E CFG text s))) = clipboard (snd s) /\
  (trace (snd (snd (gpt_postprocess E CFG text s))) = trace (snd s) \/
   trace (snd (snd (gpt_postprocess E CFG text s)))
     = trace (snd s) ++ [EvChat (ai_model CFG) (ai_prompt CFG) text]).
Proof.
  unfold gpt_postprocess.
  destruct (truthy text && truthy (strip (ai_api_key CFG)) && ai_enabled CFG);
    [| split; [reflexivity | left; reflexivity]].
  unfold openai_client, chat_completions_create. run_m.
  destruct (_openai_client (fst s)); run_m.
  - destruct (chat_create E _ _ _ _) as [| [c |]]; run_m;
      try (split; [reflexivity | right; reflexivity]).
    destruct (truthy (strip c)); split; try reflexivity; right; reflexivity.
  - destruct (openai_ctor_ok E); run_m;
      [| split; [reflexivity | left; reflexivity]].
    destruct (chat_create E _ _ _ _) as [| [c |]]; run_m;
      try (split; [reflexivity | right; reflexivity]).
    destruct (truthy (strip c)); split; try reflexivity; right; reflexivity.
Qed.

(** What the injection does to the state, however far it gets: the
    clipboard is as before or holds the text, and the trace grows by
    clipboard, focus and keyboard calls only. *)
Lemma inject_world E text s :
  (clipboard (snd (snd (inject E text s))) = clipboard (snd s) \/
   clipboard (snd (snd (inject E text s))) = text) /\
  exists extra,
    trace (snd (snd (inject E text s))) = trace (snd s) ++ extra /\
    Forall not_chat extra.
Proof.
  unfold inject, pyperclip_paste, pyperclip_copy, restore_focus,
    kb_press_and_release.
  destruct s as [a w]. run_m.
  destruct (paste_imports_ok E); run_m;
    [| split; [left; reflexivity
              | exists []; rewrite app_nil_r; split;
                [reflexivity | constructor]]].
  destruct (clip_paste_ok E); run_m;
    [| split; [left; reflexivity
              | exists []; rewrite app_nil_r; split;
                [reflexivity | constructor]]].
  destruct (clip_copy_ok E); run_m;
    [| split; [left; reflexivity
              | eexists; split; [reflexivity | repeat constructor]]].
  destruct (_prev_hwnd a) as [hwnd |]; run_m;
    [ destruct (hwnd =? 0); run_m;
      [| destruct (user32_ok E); run_m;
         [ destruct (same_thread E hwnd); run_m |] ] |];
    (destruct (key_ok E); run_m);
    (split; [right; reflexivity |]);
    rewrite <- ?app_assoc; simpl;
    (eexists; split; [reflexivity | repeat constructor]).
Qed.

(** The ways the body of [_transcribe] can go: no text came out, the model
    could not be loaded or the rules left their loop with an exception,
    and the outer world is as before; or the text went through the rules
    and the AI step and the injection decides the rest. *)
Lemma transcribe_body_cases E CFG f s :
  ((forall t, transcript E CFG f = Some t -> t = []) \/
   transcriber (fst s) = false /\ load_model_ok E = false \/
   exists t, transcript E CFG f = Some t /\
             apply_replacements E (replacements CFG) t = None) /\
  snd (snd (transcribe_body E CFG f s)) = snd s
  \/
  exists t t' s1 text1 s2,
    transcript E CFG f = Some t /\ t <> [] /\
    apply_replacements E (replacements CFG) t = Some t' /\
    snd s1 = snd s /\
    gpt_postprocess E CFG t' s1 = (Ret text1, s2) /\
    transcribe_body E CFG f s
      = (if truthy text1 && auto_paste CFG then inject E text1 s2
         else (Ret tt, s2)) /\
    _openai_client (fst s1) = _openai_client (fst s) /\
    (transcriber (fst s) = true \/ load_model_ok E = true).
Proof.
  unfold transcribe_body, load_model, run_whisper, transcript.
  destruct s as [a w]. run_m.
  destruct (whisper E f _ _) as [segs |] eqn:Hw.
  2: { left. split; [left; intros t; discriminate |].
       destruct (transcriber a); [reflexivity |].
       destruct (load_model_ok E); reflexivity. }
  destruct (strip (join (py " ") segs)) as [| c t] eqn:Ht.
  { left. split; [left; intros t H; injection H as <-; reflexivity |].
    destruct (transcriber a); [reflexivity |].
    destruct (load_model_ok E); reflexivity. }
  destruct (apply_replacements E (replacements CFG) (c :: t))
    as [t' |] eqn:Hrules.
  2: { left. split.
       - right. right. exists (c :: t). split; [reflexivity | exact Hrules].
       - destruct (transcriber a); [reflexivity |].
         destruct (load_model_ok E); reflexivity. }
  destruct (transcriber a) eqn:Htr.
  - right. run_m.
    destruct (gpt_postprocess_returns E CFG t' (a, w)) as (text1 & s2 & Hg).
    exists (c :: t), t', (a, w), text1, s2. rewrite Hg.
    repeat split; try reflexivity; try discriminate; try assumption;
      try (left; reflexivity).
    destruct (truthy text1 && auto_paste CFG); reflexivity.
  - destruct (load_model_ok E) eqn:Hl.
    + right. run_m.
      destruct (gpt_postprocess_returns E CFG t' (set_transcriber true a, w))
        as (text1 & s2 & Hg).
      exists (c :: t), t', (set_transcriber true a, w), text1, s2.
      rewrite Hg.
      repeat split; try reflexivity; try discriminate; try assumption;
        try (right; reflexivity).
      destruct (truthy text1 && auto_paste CFG); reflexivity.
    + left. split; [right; left; split; reflexivity | reflexivity].
Qed.

Lemma transcribe_outer_world E CFG f s :
  clipboard (snd (snd (_transcribe E CFG f s)))
    = clipboard (snd (snd (transcribe_body E CFG f s))) /\
  trace (snd (snd (_transcribe E CFG f s)))
    = trace (snd (snd (transcribe_body E CFG f s))).
Proof.
  unfold _transcribe, try_finally, try_except.
  destruct (transcribe_body E CFG f s) as [[[] | e] s1]; run_m;
    destruct (cleanup_audio_file_world E CFG f s1) as (_ & Hc & Ht & _);
    destruct (_cleanup_audio_file E CFG f s1) as [[[] | e'] s2];
    simpl in *; split; assumption.
Qed.

(** X10. Without text nothing leaves the process: when the speech model
    raises or gives only silence (a transcript that is empty once
    stripped), the job sends no request to the AI service, does not read
    or write the clipboard, does not touch the focus and presses no key. *)
Theorem no_text_no_output
  (E : Env) (CFG : Config) (audio_file : path) (s : State) :
  (forall t, transcript E CFG audio_file = Some t -> t = []) ->
  clipboard (snd (snd (_transcribe E CFG audio_file s))) = clipboard (snd s) /\
  trace (snd (snd (_transcribe E CFG audio_file s))) = trace (snd s).
Proof.
  intros Hblank.
  destruct (transcribe_outer_world E CFG audio_file s) as [-> ->].
  destruct (transcribe_body_cases E CFG audio_file s)
    as [[_ Hsame] | (t & t' & s1 & text1 & s2 & Ht & Hne & _)].
  - rewrite Hsame. split; reflexivity.
  - apply Hblank in Ht. congruence.
Qed.

Lemma chat_calls_app tr1 tr2 :
  chat_calls (tr1 ++ tr2) = (chat_calls tr1 + chat_calls tr2)%nat.
Proof.
  unfold chat_calls. rewrite List.filter_app, List.length_app. reflexivity.
Qed.

Lemma chat_calls_not_chat extra :
  Forall not_chat extra -> chat_calls extra = 0%nat.
Proof.
  induction 1 as [| e extra He _ IH]; [reflexivity |].
  change (e :: extra) with ([e] ++ extra). rewrite chat_calls_app, IH.
  destruct e; simpl in He; try contradiction; reflexivity.
Qed.

Lemma no_text_no_output_witness :
  (forall t, transcript Cases.env_silence (Sample.config 0 true "sk")
               Sample.working_file = Some t -> t = []) /\
  clipboard (snd (snd (_transcribe Cases.env_silence
                         (Sample.config 0 true "sk") Sample.working_file
                         Sample.state))) = py "earlier" /\
  trace (snd (snd (_transcribe Cases.env_silence
                     (Sample.config 0 true "sk") Sample.working_file
                     Sample.state))) = [].
Proof.
  assert (Hblank : forall t,
             transcript Cases.env_silence (Sample.config 0 true "sk")
               Sample.working_file = Some t -> t = []).
  { intros t H. vm_compute in H. injection H as <-. reflexivity. }
  split; [exact Hblank |].
  exact (no_text_no_output Cases.env_silence (Sample.config 0 true "sk")
           Sample.working_file Sample.state Hblank).
Defined.

(** X11. With automatic pasting switched off the clipboard is left alone:
    the job neither reads nor writes it and sends no key, whatever the
    transcript is; the only call that can leave the process is the one
    request to the AI service. *)
Theorem auto_paste_off_spares_clipboard
  (E : Env) (CFG : Config) (audio_file : path) (s : State) :
  auto_paste CFG = false ->
  clipboard (snd (snd (_transcribe E CFG audio_file s))) = clipboard (snd s) /\
  exists extra,
    trace (snd (snd (_transcribe E CFG audio_file s)))
      = trace (snd s) ++ extra /\
    Forall is_chat extra /\ (List.length extra <= 1)%nat.
Proof.
  intros Hoff.
  destruct (transcribe_outer_world E CFG audio_file s) as [-> ->].
  destruct (transcribe_body_cases E CFG audio_file s)
    as [[_ Hsame]
       | (t & t' & s1 & text1 & s2 & _ & _ & _ & Hs1 & Hgpt & Hbody & _)].
  - rewrite Hsame. split; [reflexivity |].
    exists []. rewrite app_nil_r. repeat split; [constructor | simpl; lia].
  - rewrite Hbody, Hoff, andb_false_r. simpl.
    destruct (gpt_postprocess_world E CFG t' s1) as [Hclip Htrace].
    rewrite Hgpt in Hclip, Htrace. simpl in Hclip, Htrace.
    rewrite Hs1 in Hclip, Htrace. split; [exact Hclip |].
    destruct Htrace as [-> | ->].
    + exists []. rewrite app_nil_r. repeat split; [constructor | simpl; lia].
    + eexists. split; [reflexivity |].
      split; [repeat constructor | simpl; lia].
Qed.

Lemma auto_paste_off_spares_clipboard_witness :
  auto_paste Cases.config_no_paste = false /\
  clipboard (snd (snd (_transcribe Sample.env Cases.config_no_paste
                         Sample.working_file Sample.state)))
    = py "earlier".
Proof.
  split; [reflexivity |].
  exact (proj1 (auto_paste_off_spares_clipboard Sample.env
                  Cases.config_no_paste Sample.working_file Sample.state
                  eq_refl)).
Defined.

(** X12. Once the text has been copied it stays on the clipboard, whether
    or not the paste goes through: when the clipboard calls succeed, the
    injection ends with the text on the clipboard even if giving back the
    focus or pressing the keys fails. A failure of the focus calls does not
    stop the key press; the block returns normally exactly when the key
    press does. *)
Theorem clipboard_keeps_text_when_paste_fails
  (E : Env) (text : pystr) (s : State) :
  paste_imports_ok E = true ->
  clip_paste_ok E = true ->
  clip_copy_ok E = true ->
  clipboard (snd (snd (inject E text s))) = text /\
  (fst (inject E text s) = Ret tt <-> key_ok E = true) /\
  (key_ok E = true ->
   In (EvKey "ctrl+v") (trace (snd (snd (inject E text s))))).
Proof.
  intros Himp Hpaste Hcopy.
  unfold inject, pyperclip_paste, pyperclip_copy, restore_focus,
    kb_press_and_release.
  destruct s as [a w]. run_m. rewrite Himp, Hpaste, Hcopy. run_m.
  destruct (_prev_hwnd a) as [hwnd |]; run_m;
    [ destruct (hwnd =? 0); run_m;
      [| destruct (user32_ok E); run_m;
         [ destruct (same_thread E hwnd); run_m |] ] |];
    (destruct (key_ok E); run_m);
    (split; [reflexivity |]);
    (split; [split; intros H; (reflexivity || discriminate) |]);
    intros H; try discriminate;
    rewrite ?in_app_iff; simpl; tauto.
Qed.

Lemma clipboard_keeps_text_when_paste_fails_witness :
  paste_imports_ok Cases.env_no_keyboard = true /\
  clip_paste_ok Cases.env_no_keyboard = true /\
  clip_copy_ok Cases.env_no_keyboard = true /\
  fst (inject Cases.env_no_keyboard (py "turn the light on") Sample.state)
    = Raise KeyboardError /\
  clipboard (snd (snd (inject Cases.env_no_keyboard (py "turn the light on")
                         Sample.state))) = py "turn the light on".
Proof.
  do 3 (split; [reflexivity |]). split; [reflexivity |].
  exact (proj1 (clipboard_keeps_text_when_paste_fails Cases.env_no_keyboard
                  (py "turn the light on") Sample.state
                  eq_refl eq_refl eq_refl)).
Defined.

(** X13. A job sends at most one request to the AI service, whatever the
    configuration, the transcript and the outcome of every call. *)
Theorem at_most_one_request_per_job
  (E : Env) (CFG : Config) (audio_file : path) (s : State) :
  (chat_calls (trace (snd s))
   <= chat_calls (trace (snd (snd (_transcribe E CFG audio_file s)))))%nat /\
  (chat_calls (trace (snd (snd (_transcribe E CFG audio_file s))))
   <= chat_calls (trace (snd s)) + 1)%nat.
Proof.
  destruct (transcribe_outer_world E CFG audio_file s) as [_ ->].
  destruct (transcribe_body_cases E CFG audio_file s)
    as [[_ Hsame]
       | (t & t' & s1 & text1 & s2 & _ & _ & _ & Hs1 & Hgpt & Hbody & _)].
  - rewrite Hsame. lia.
  - destruct (gpt_postprocess_world E CFG t' s1) as [_ Htrace].
    rewrite Hgpt in Htrace. simpl in Htrace. rewrite Hs1 in Htrace.
    assert (Hs2 : (chat_calls (trace (snd s)) <= chat_calls (trace (snd s2))
                   <= chat_calls (trace (snd s)) + 1)%nat).
    { destruct Htrace as [-> | ->]; [lia |].
      rewrite chat_calls_app.
      change (chat_calls [EvChat (ai_model CFG) (ai_prompt CFG) t'])
        with 1%nat.
      lia. }
    rewrite Hbody.
    destruct (truthy text1 && auto_paste CFG); [| simpl; lia].
    destruct (inject_world E text1 s2) as (_ & extra & -> & Hextra).
    rewrite chat_calls_app, (chat_calls_not_chat _ Hextra). lia.
Qed.

(** X14. The client of the AI service is built once: while a client is
    cached, the AI step behaves the same for every non-blank API key of
    the configuration, so a key changed in the settings is not used until
    the application is started again. *)
Theorem cached_client_ignores_new_key
  (E : Env) (CFG : Config) (key1 key2 client text : pystr) (s : State) :
  _openai_client (fst s) = Some client ->
  strip key1 <> [] ->
  strip key2 <> [] ->
  gpt_postprocess E (with_api_key key1 CFG) text s
  = gpt_postprocess E (with_api_key key2 CFG) text s.
Proof.
  intros Hclient Hk1 Hk2. unfold gpt_postprocess. simpl.
  destruct (strip key1) as [| c1 k1]; [congruence |].
  destruct (strip key2) as [| c2 k2]; [congruence |]. simpl.
  destruct (truthy text && true && ai_enabled CFG); [| reflexivity].
  unfold openai_client. run_m. rewrite Hclient. reflexivity.
Qed.

Lemma cached_client_ignores_new_key_witness :
  _openai_client (fst Cases.state_with_client) = Some (py "sk-old") /\
  strip (py "sk-old") <> [] /\
  strip (py "sk-new") <> [] /\
  gpt_postprocess Sample.env
    (with_api_key (py "sk-old") (Sample.config 0 true "")) (py "hello")
    Cases.state_with_client
  = gpt_postprocess Sample.env
      (with_api_key (py "sk-new") (Sample.config 0 true "")) (py "hello")
      Cases.state_with_client.
Proof.
  split; [reflexivity |]. split; [discriminate |]. split; [discriminate |].
  apply (cached_client_ignores_new_key Sample.env (Sample.config 0 true "")
           (py "sk-old") (py "sk-new") (py "sk-old") (py "hello")
           Cases.state_with_client);
    [reflexivity | discriminate | discriminate].
Defined.

(** X15. When the AI service answers with a text that is not blank, the
    AI step returns that answer stripped, in place of the text it was
    given; it has sent exactly one request, carrying the configured model,
    the prompt and the text, and the client it used is cached. *)
Theorem ai_answer_replaces_text
  (E : Env) (CFG : Config) (text client answer : pystr) (s : State) :
  text <> [] ->
  strip (ai_api_key CFG) <> [] ->
  ai_enabled CFG = true ->
  client_for E CFG (fst s) = Some client ->
  chat_create E client (ai_model CFG) (ai_prompt CFG) text
    = ApiContent (Some answer) ->
  strip answer <> [] ->
  exists s',
    gpt_postprocess E CFG text s = (Ret (strip answer), s') /\
    trace (snd s')
      = trace (snd s) ++ [EvChat (ai_model CFG) (ai_prompt CFG) text] /\
    _openai_client (fst s') = Some client /\
    clipboard (snd s') = clipboard (snd s).
Proof.
  intros Htext Hkey Hen Hclient Hanswer Hne.
  unfold gpt_postprocess. rewrite Hen.
  unfold client_for in Hclient.
  destruct text as [| c text]; [congruence |].
  destruct (strip (ai_api_key CFG)) as [| k key] eqn:Hk; [congruence |].
  simpl truthy. simpl andb. cbv iota.
  unfold openai_client, chat_completions_create. run_m.
  destruct (_openai_client (fst s)) as [cached |] eqn:Hc; run_m.
  - injection Hclient as ->. rewrite Hanswer. run_m.
    destruct (strip answer) as [| a0 ans]; [congruence |]. simpl.
    eexists. split; [reflexivity |]. simpl.
    repeat split; try reflexivity. exact Hc.
  - destruct (openai_ctor_ok E); [| discriminate]. run_m.
    injection Hclient as <-. rewrite Hanswer. run_m.
    destruct (strip answer) as [| a0 ans]; [congruence |]. simpl.
    eexists. split; [reflexivity |]. simpl.
    repeat split; reflexivity.
Qed.

Lemma ai_answer_replaces_text_witness :
  py "turn it on" <> [] /\
  strip (ai_api_key (Sample.config 0 true " sk-live ")) <> [] /\
  ai_enabled (Sample.config 0 true " sk-live ") = true /\
  client_for Sample.env (Sample.config 0 true " sk-live ")
    (fst Sample.state) = Some (py "sk-live") /\
  exists s',
    gpt_postprocess Sample.env (Sample.config 0 true " sk-live ")
      (py "turn it on") Sample.state
    = (Ret (py "[turn it on]"), s').
Proof.
  split; [discriminate |]. split; [discriminate |].
  split; [reflexivity |]. split; [reflexivity |].
  destruct (ai_answer_replaces_text Sample.env
              (Sample.config 0 true " sk-live ") (py "turn it on")
              (py "sk-live") (py "[turn it on]") Sample.state)
    as (s' & Hrun & _);
    [discriminate | discriminate | reflexivity | reflexivity | reflexivity
    | discriminate |].
  exists s'. exact Hrun.
Defined.

Lemma gpt_no_correction E CFG text s :
  no_correction E CFG (fst s) text ->
  exists s',
    gpt_postprocess E CFG text s = (Ret text, s') /\
    clipboard (snd s') = clipboard (snd s) /\
    clip_writes (trace (snd s')) = clip_writes (trace (snd s)).
Proof.
  intros Hno.
  destruct (gpt_postprocess_world E CFG text s) as [Hclip Htrace].
  assert (Hret : exists s', gpt_postprocess E CFG text s = (Ret text, s')).
  { unfold gpt_postprocess.
    destruct Hno as [Hoff | [Hkey | Hfail]].
    - rewrite Hoff, andb_false_r. eexists; reflexivity.
    - rewrite Hkey. simpl. rewrite andb_false_r. eexists; reflexivity.
    - destruct (truthy text && truthy (strip (ai_api_key CFG))
                && ai_enabled CFG); [| eexists; reflexivity].
      unfold ai_call_fails in Hfail.
      unfold openai_client, chat_completions_create. run_m.
      destruct (_openai_client (fst s)); run_m.
      + destruct (chat_create E _ _ _ _) as [| [c |]]; run_m;
          try (eexists; reflexivity).
        destruct (truthy (strip c)); [discriminate | eexists; reflexivity].
      + destruct (openai_ctor_ok E); run_m; [| eexists; reflexivity].
        destruct (chat_create E _ _ _ _) as [| [c |]]; run_m;
          try (eexists; reflexivity).
        destruct (truthy (strip c)); [discriminate | eexists; reflexivity]. }
  destruct Hret as (s' & Hret). exists s'. rewrite Hret in Hclip, Htrace.
  simpl in Hclip, Htrace. split; [exact Hret |]. split; [exact Hclip |].
  destruct Htrace as [-> | ->]; [reflexivity |].
  rewrite clip_writes_app. simpl. apply app_nil_r.
Qed.

Lemma inject_copies E text s :
  paste_imports_ok E = true ->
  clip_paste_ok E = true ->
  clip_copy_ok E = true ->
  clipboard (snd (snd (inject E text s))) = text /\
  clip_writes (trace (snd (snd (inject E text s))))
    = clip_writes (trace (snd s)) ++ [text].
Proof.
  intros Himp Hpaste Hcopy.
  unfold inject, pyperclip_paste, pyperclip_copy, restore_focus,
    kb_press_and_release.
  destruct s as [a w]. run_m. rewrite Himp, Hpaste, Hcopy. run_m.
  destruct (_prev_hwnd a) as [hwnd |]; run_m;
    [ destruct (hwnd =? 0); run_m;
      [| destruct (user32_ok E); run_m;
         [ destruct (same_thread E hwnd); run_m |] ] |];
    (destruct (key_ok E); run_m);
    (split; [reflexivity |]);
    rewrite ?clip_writes_app; simpl; rewrite ?app_nil_r; reflexivity.
Qed.

(** X16. From the recording to the clipboard when the AI gives no
    correction (it is off, has no key, or its call fails): if the model is
    available, the transcript is not empty, the loop over the replacement
    rules runs to its end (no [re.sub] raises anything but [re.error]) and
    leaves a text, pasting is on and the clipboard calls work, then the job
    ends with the transcript as rewritten by the replacement rules on the
    clipboard, and that is the only text it wrote there. *)
Theorem uncorrected_text_reaches_clipboard
  (E : Env) (CFG : Config) (audio_file : path) (t text : pystr)
  (s : State) :
  transcriber (fst s) = true \/ load_model_ok E = true ->
  transcript E CFG audio_file = Some t ->
  t <> [] ->
  apply_replacements E (replacements CFG) t = Some text ->
  text <> [] ->
  no_correction E CFG (fst s) text ->
  auto_paste CFG = true ->
  paste_imports_ok E = true ->
  clip_paste_ok E = true ->
  clip_copy_ok E = true ->
  clipboard (snd (snd (_transcribe E CFG audio_file s))) = text /\
  clip_writes (trace (snd (snd (_transcribe E CFG audio_file s))))
    = clip_writes (trace (snd s)) ++ [text].
Proof.
  intros Hmodel Ht Hne Hrules Hpre Hno Hpaste Himp Hcp Hcc.
  destruct (transcribe_outer_world E CFG audio_file s) as [-> ->].
  destruct (transcribe_body_cases E CFG audio_file s)
    as [[[Hblank | [[Htr Hl] | (t0 & Ht0 & Hnone)]] _]
       | (t' & text' & s1 & text1 & s2 & Ht' & _ & Hrules' & Hs1 & Hgpt
          & Hbody & Hcl & _)].
  - apply Hblank in Ht. congruence.
  - destruct Hmodel; congruence.
  - congruence.
  - rewrite Ht in Ht'. injection Ht' as <-.
    rewrite Hrules in Hrules'. injection Hrules' as <-.
    assert (Hno1 : no_correction E CFG (fst s1) text).
    { unfold no_correction, ai_call_fails in *. rewrite Hcl. exact Hno. }
    destruct (gpt_no_correction E CFG _ s1 Hno1) as (s' & Hrun & _ & Hw).
    rewrite Hrun in Hgpt. injection Hgpt as <- <-.
    rewrite Hbody, Hpaste.
    destruct text as [| c pre]; [congruence |].
    simpl truthy. simpl andb. cbv iota.
    destruct (inject_copies E (c :: pre) s' Himp Hcp Hcc) as [Hclip Hwrites].
    split; [exact Hclip |]. rewrite Hwrites, Hw, Hs1. reflexivity.
Qed.

Lemma uncorrected_text_reaches_clipboard_witness :
  transcript Sample.env_ai_timeout (Sample.config 0 true "sk-live")
    Sample.working_file = Some (py "turn it  on") /\
  apply_replacements Sample.env_ai_timeout
    (replacements (Sample.config 0 true "sk-live")) (py "turn it  on")
    = Some (py "turn the light  on") /\
  no_correction Sample.env_ai_timeout (Sample.config 0 true "sk-live")
    (fst Sample.state) (py "turn the light  on") /\
  clipboard (snd (snd (_transcribe Sample.env_ai_timeout
                         (Sample.config 0 true "sk-live")
                         Sample.working_file Sample.state)))
    = py "turn the light  on".
Proof.
  split; [reflexivity |]. split; [reflexivity |].
  assert (Hno : no_correction Sample.env_ai_timeout
                  (Sample.config 0 true "sk-live") (fst Sample.state)
                  (py "turn the light  on"))
    by (right; right; reflexivity).
  split; [exact Hno |].
  refine (proj1 (uncorrected_text_reaches_clipboard Sample.env_ai_timeout
                   (Sample.config 0 true "sk-live") Sample.working_file
                   (py "turn it  on") (py "turn the light  on")
                   Sample.state _ eq_refl _ eq_refl _ Hno
                   eq_refl eq_refl eq_refl eq_refl)).
  - right. reflexivity.
  - discriminate.
  - discriminate.
Defined.

(** X17. A rule that the regex engine rejects is skipped and the chain
    goes on: if [re.sub] raises [re.error] for a rule on the text the rules
    before it have produced, the result is the one of the list without
    that rule. *)
Theorem invalid_rule_is_skipped
  (E : Env) (r : ReplacementRule)
  (before after : list ReplacementRule) (text : pystr) :
  (forall text',
     apply_replacements E before text = Some text' ->
     Re.sub (re_engine E) (rep_match r) (rep_replace r) text' = Re.Error) ->
  apply_replacements E (before ++ r :: after) text
  = apply_replacements E (before ++ after) text.
Proof.
  intros Herr.
  rewrite !apply_replacements_app.
  destruct (apply_replacements E before text) as [text' |]; [| reflexivity].
  cbn [mbind option_bind]. rewrite apply_replacements_cons.
  unfold apply_rule. rewrite (Herr text' eq_refl).
  destruct (truthy (rep_match r)); reflexivity.
Qed.

Lemma invalid_rule_is_skipped_witness :
  (forall text',
     apply_replacements Sample.env [Sample.rule "a" "b" true] (py "a(a")
       = Some text' ->
     Re.sub (re_engine Sample.env) (py "(") (py "x") text' = Re.Error) /\
  apply_replacements Sample.env
    ([Sample.rule "a" "b" true] ++ Sample.rule "(" "x" true
       :: [Sample.rule "b" "c" true]) (py "a(a")
  = Some (py "c(c").
Proof.
  assert (Herr : forall text',
             apply_replacements Sample.env [Sample.rule "a" "b" true]
               (py "a(a") = Some text' ->
             Re.sub (re_engine Sample.env) (py "(") (py "x") text'
             = Re.Error).
  { intros text' H. vm_compute in H. injection H as <-. reflexivity. }
  split; [exact Herr |].
  rewrite (invalid_rule_is_skipped Sample.env (Sample.rule "(" "x" true)
             [Sample.rule "a" "b" true] [Sample.rule "b" "c" true]
             (py "a(a") Herr).
  reflexivity.
Defined.

(** ** Retention, for every configuration *)

Lemma sweep_outcome E CFG s :
  fst (_cleanup_old_recordings E CFG s)
  = match f64_of_int (recording_retention_days CFG * 86400) with
    | Some _ => Ret tt
    | None => if sweep_enabled E CFG (snd s) then Raise OverflowError
              else Ret tt
    end.
Proof.
  destruct s as [a w]. unfold _cleanup_old_recordings, sweep_enabled.
  destruct (Z.leb_spec (recording_retention_days CFG) 0) as [Hle | Hgt].
  { assert (Hoff : (0 <? recording_retention_days CFG) = false)
      by (apply Z.ltb_ge; lia).
    rewrite Hoff. simpl. destruct (f64_of_int _); reflexivity. }
  assert (Hon : (0 <? recording_retention_days CFG) = true)
    by (apply Z.ltb_lt; lia).
  rewrite Hon. unfold os_path_isdir, cutoff_time. run_m.
  destruct (String.eqb (save_recordings_path CFG) ""); simpl;
    [destruct (f64_of_int _); reflexivity |].
  destruct (bool_decide (realdir E (save_recordings_path CFG) ∈ dirs w));
    simpl; [| destruct (f64_of_int _); reflexivity].
  destruct (f64_of_int (recording_retention_days CFG * 86400))
    as [seconds |]; run_m; [| reflexivity].
  unfold glob_wav. run_m.
  match goal with
  | |- context [for_each ?l _ _] =>
      destruct (sweep_loop E (f64_sub (time_time E) seconds) l a w)
        as (w' & Hrun & _)
  end.
  rewrite Hrun. reflexivity.
Qed.

(** Without wildcard characters in its name, the managed directory is the
    one directory the sweep lists. *)
Lemma swept_without_wildcards E CFG w p :
  has_magic (save_recordings_path CFG) = false ->
  realdir E (save_recordings_path CFG) ∈ dirs w ->
  swept E CFG w p = expired E CFG w p && allowed E p.
Proof.
  intros Hplain Hdir. unfold swept, swept_dirs, expired, glob_dirs.
  rewrite Hplain. cbn [List.map].
  destruct (String.eqb_spec (fst p) (realdir E (save_recordings_path CFG)))
    as [Heq | Hne].
  - rewrite bool_decide_eq_true_2 by (rewrite Heq; left).
    rewrite bool_decide_eq_true_2 by (rewrite Heq; exact Hdir).
    reflexivity.
  - rewrite bool_decide_eq_false_2; [reflexivity |].
    intros Hin. apply list_elem_of_singleton in Hin. contradiction.
Qed.

(** X28. The retention policy, for a managed directory whose name holds no
    wildcard character. With a positive retention and the directory in
    place, the sweep removes exactly the files of that directory, however
    its name is spelled, that [glob] keeps for [*.wav], whose modification
    time is strictly before [now - days * 86400] and that the system lets
    it examine and delete: each of those is gone afterwards, every other
    file of the disk is there with its time unchanged. (It returns
    normally, unless
    [days * 86400] is beyond every double: then it raises before it has
    looked at a file, and no file is that old.) With a retention of zero or
    less the sweep changes nothing at all, and yet [_transcribe], however
    its pipeline ends, finishes by deleting its working file, if the system
    lets it go, and only that file. *)
Theorem retention_policy
  (E : Env) (CFG : Config) (audio_file : path) (s : State) :
  (0 < recording_retention_days CFG ->
   has_magic (save_recordings_path CFG) = false ->
   save_recordings_path CFG <> ""%string ->
   realdir E (save_recordings_path CFG) ∈ dirs (snd s) ->
   exists r s',
     _cleanup_old_recordings E CFG s = (r, s') /\
     r = match f64_of_int (recording_retention_days CFG * 86400) with
         | Some _ => Ret tt
         | None => Raise OverflowError
         end /\
     forall p, files (snd s') !! p
               = if expired E CFG (snd s) p && allowed E p then None
                 else files (snd s) !! p)
  /\
  (recording_retention_days CFG <= 0 ->
   _cleanup_old_recordings E CFG s = (Ret tt, s) /\
   exists s',
     _transcribe E CFG audio_file s = (Ret tt, s') /\
     files (snd s')
     = if remove_ok E (resolve E audio_file)
       then delete (resolve E audio_file) (files (snd s))
       else files (snd s)).
Proof.
  split.
  - intros Hdays Hplain Hpath Hdir.
    assert (Hen : sweep_enabled E CFG (snd s) = true).
    { unfold sweep_enabled.
      rewrite (proj2 (Z.ltb_lt _ _) Hdays).
      rewrite (proj2 (String.eqb_neq _ _) Hpath).
      rewrite bool_decide_eq_true_2 by exact Hdir. reflexivity. }
    destruct (sweep_effect E CFG s) as (_ & _ & _ & _ & Hfiles).
    pose proof (sweep_outcome E CFG s) as Hout.
    destruct (_cleanup_old_recordings E CFG s) as [r s']. simpl in *.
    exists r, s'. split; [reflexivity |]. split.
    + rewrite Hout, Hen. reflexivity.
    + intros p. rewrite Hfiles, Hen.
      rewrite (swept_without_wildcards E CFG (snd s) p Hplain Hdir).
      reflexivity.
  - intros Hdays. destruct s as [a w]. split.
    + unfold _cleanup_old_recordings.
      destruct (Z.leb_spec (recording_retention_days CFG) 0); [| lia].
      reflexivity.
    + unfold _transcribe, try_finally.
      pose proof (kf_try_except (transcribe_body E CFG audio_file)
                    (fun _ => mret tt)
                    (transcribe_body_keeps_files E CFG audio_file)
                    (fun _ => kf_ret tt) (a, w)) as Hkeep.
      assert (Hret : exists s1,
                 try_except (transcribe_body E CFG audio_file)
                   (fun _ => mret tt) (a, w) = (Ret tt, s1)).
      { unfold try_except.
        destruct (transcribe_body E CFG audio_file (a, w)) as [[[] | e] s1];
          eexists; reflexivity. }
      destruct Hret as ([a1 w1] & Hret). rewrite Hret in Hkeep |- *.
      simpl in Hkeep.
      destruct (cleanup_audio_file_no_retention E CFG audio_file a1 w1 Hdays)
        as (w' & Hclean & Hfiles).
      rewrite Hclean. eexists. split; [reflexivity |].
      simpl. rewrite Hfiles, Hkeep. reflexivity.
Qed.

Lemma retention_policy_witness :
  (0 < recording_retention_days (Sample.config 7 true "") /\
   has_magic (save_recordings_path (Sample.config 7 true "")) = false /\
   save_recordings_path (Sample.config 7 true "") <> ""%string /\
   realdir Sample.env (save_recordings_path (Sample.config 7 true ""))
     ∈ dirs (snd Sample.state) /\
   exists s',
     _cleanup_old_recordings Sample.env (Sample.config 7 true "") Sample.state
       = (Ret tt, s') /\
     files (snd s') !! ("/rec"%string, "old.wav"%string) = None /\
     files (snd s') !! ("/rec"%string, "new.wav"%string)
       = Some (f64_round_int 1699999000) /\
     files (snd s') !! ("/rec"%string, "old.txt"%string)
       = Some (f64_round_int 1699000000) /\
     files (snd s') !! Sample.working_file = Some (f64_round_int 1699999999))
  /\
  (recording_retention_days (Sample.config 0 true "") <= 0 /\
   exists s',
     _transcribe Sample.env (Sample.config 0 true "") Sample.working_file
       Sample.state = (Ret tt, s') /\
     files (snd s') = delete Sample.working_file Sample.disk).
Proof.
  split.
  - assert (Hd : 0 < recording_retention_days (Sample.config 7 true ""))
      by (simpl; lia).
    assert (Hm : has_magic (save_recordings_path (Sample.config 7 true ""))
                 = false)
      by reflexivity.
    assert (Hp : save_recordings_path (Sample.config 7 true "") <> ""%string)
      by discriminate.
    assert (Hin : realdir Sample.env
                    (save_recordings_path (Sample.config 7 true ""))
                  ∈ dirs (snd Sample.state))
      by (simpl; set_solver).
    do 4 (split; [assumption |]).
    destruct (proj1 (retention_policy Sample.env (Sample.config 7 true "")
                       Sample.working_file Sample.state) Hd Hm Hp Hin)
      as (r & s' & Hrun & Hr & Hfiles).
    exists s'. split; [rewrite Hrun, Hr; reflexivity |].
    rewrite !Hfiles. vm_compute. repeat split; reflexivity.
  - assert (Hd : recording_retention_days (Sample.config 0 true "") <= 0)
      by (simpl; lia).
    split; [exact Hd |].
    exact (proj2 (proj2 (retention_policy Sample.env (Sample.config 0 true "")
                           Sample.working_file Sample.state) Hd)).
Defined.

(** X18. What the sweep never does, for every configuration, clock and
    disk: it creates no file and changes no modification time; it leaves
    the clipboard, the trace of outgoing calls, the directories and the
    application object alone; and a file that is gone afterwards was, under
    a positive retention with the managed path in place, a file that
    [glob] keeps for [*.wav] in one of the directories it lists for that
    path, last modified strictly before the cutoff. When the path holds no
    wildcard character this is an expired recording of the managed
    directory. *)
Theorem sweep_only_removes_stale_recordings
  (E : Env) (CFG : Config) (s : State) :
  (forall p mtime,
     files (snd (snd (_cleanup_old_recordings E CFG s))) !! p = Some mtime ->
     files (snd s) !! p = Some mtime) /\
  (forall p,
     files (snd s) !! p <> None ->
     files (snd (snd (_cleanup_old_recordings E CFG s))) !! p = None ->
     0 < recording_retention_days CFG /\
     save_recordings_path CFG <> ""%string /\
     realdir E (save_recordings_path CFG) ∈ dirs (snd s) /\
     fst p ∈ swept_dirs E CFG /\
     matches_star_wav E (snd p) = true /\
     stale (cutoff E CFG) (snd s) p = true /\
     (has_magic (save_recordings_path CFG) = false ->
      expired E CFG (snd s) p = true)) /\
  fst (snd (_cleanup_old_recordings E CFG s)) = fst s /\
  clipboard (snd (snd (_cleanup_old_recordings E CFG s)))
    = clipboard (snd s) /\
  trace (snd (snd (_cleanup_old_recordings E CFG s))) = trace (snd s) /\
  dirs (snd (snd (_cleanup_old_recordings E CFG s))) = dirs (snd s).
Proof.
  destruct (sweep_effect E CFG s) as (Ha & Hc & Ht & Hd & Hfiles).
  split; [| split; [| repeat split; assumption]].
  - intros p mtime Hp. rewrite Hfiles in Hp.
    destruct (sweep_enabled E CFG (snd s) && swept E CFG (snd s) p);
      [discriminate | exact Hp].
  - intros p Hbefore Hafter. rewrite Hfiles in Hafter.
    destruct (sweep_enabled E CFG (snd s) && swept E CFG (snd s) p) eqn:Hsw;
      [| contradiction].
    apply andb_prop in Hsw. destruct Hsw as [Hen Hswept].
    unfold sweep_enabled in Hen.
    apply andb_prop in Hen. destruct Hen as [Hen Hdir].
    apply andb_prop in Hen. destruct Hen as [Hdays Hpath].
    apply Z.ltb_lt in Hdays. apply bool_decide_eq_true in Hdir.
    apply negb_true_iff in Hpath. apply String.eqb_neq in Hpath.
    do 3 (split; [assumption |]).
    assert (Hparts := Hswept). unfold swept in Hparts.
    apply andb_prop in Hparts. destruct Hparts as [Hparts Hok].
    apply andb_prop in Hparts. destruct Hparts as [Hparts Hstale].
    apply andb_prop in Hparts. destruct Hparts as [Hparts Hmatch].
    apply andb_prop in Hparts. destruct Hparts as [Hin _].
    apply bool_decide_eq_true in Hin.
    do 3 (split; [assumption |]).
    intros Hplain.
    rewrite (swept_without_wildcards E CFG (snd s) p Hplain Hdir) in Hswept.
    apply andb_prop in Hswept. apply Hswept.
Qed.

Lemma sweep_only_removes_stale_recordings_witness :
  files (snd Sample.state) !! ("/rec"%string, "old.wav"%string) <> None /\
  files (snd (snd (_cleanup_old_recordings Sample.env
                     (Sample.config 7 true "") Sample.state)))
    !! ("/rec"%string, "old.wav"%string) = None /\
  has_magic (save_recordings_path (Sample.config 7 true "")) = false /\
  expired Sample.env (Sample.config 7 true "") (snd Sample.state)
    ("/rec"%string, "old.wav"%string) = true.
Proof.
  assert (Hbefore : files (snd Sample.state)
                      !! ("/rec"%string, "old.wav"%string) <> None)
    by (vm_compute; discriminate).
  assert (Hafter : files (snd (snd (_cleanup_old_recordings Sample.env
                                      (Sample.config 7 true "")
                                      Sample.state)))
                     !! ("/rec"%string, "old.wav"%string) = None)
    by (vm_compute; reflexivity).
  split; [exact Hbefore |]. split; [exact Hafter |].
  split; [reflexivity |].
  exact (proj2 (proj2 (proj2 (proj2 (proj2 (proj2
           (proj1 (proj2 (sweep_only_removes_stale_recordings Sample.env
                            (Sample.config 7 true "") Sample.state))
              ("/rec"%string, "old.wav"%string) Hbefore Hafter))))))
           eq_refl).
Defined.


(** X20. Under a positive retention the job keeps its working file: when
    the file lies in none of the directories the sweep lists (for a managed
    path without wildcard characters: not in the managed directory, however
    the two are spelled), [_transcribe] ends with the file exactly as it
    was, there or not, however the pipeline went. *)
Theorem positive_retention_keeps_working_file
  (E : Env) (CFG : Config) (audio_file : path) (s : State) :
  0 < recording_retention_days CFG ->
  realdir E (fst audio_file) ∉ swept_dirs E CFG ->
  files (snd (snd (_transcribe E CFG audio_file s))) !! resolve E audio_file
  = files (snd s) !! resolve E audio_file.
Proof.
  intros Hdays Hdir. unfold _transcribe, try_finally.
  pose proof (kf_try_except (transcribe_body E CFG audio_file)
                (fun _ => mret tt)
                (transcribe_body_keeps_files E CFG audio_file)
                (fun _ => kf_ret tt) s) as Hkeep.
  destruct (try_except (transcribe_body E CFG audio_file)
              (fun _ => mret tt) s) as [r1 s1].
  simpl in Hkeep. unfold _cleanup_audio_file.
  destruct (Z.leb_spec (recording_retention_days CFG) 0); [lia |].
  destruct (sweep_effect E CFG s1) as (_ & _ & _ & _ & Hfiles).
  assert (Hexp : swept E CFG (snd s1) (resolve E audio_file) = false).
  { unfold swept, resolve. cbn [fst].
    rewrite bool_decide_eq_false_2 by exact Hdir. reflexivity. }
  specialize (Hfiles (resolve E audio_file)).
  rewrite Hexp, andb_false_r in Hfiles.
  destruct (_cleanup_old_recordings E CFG s1) as [[[] | e] s2];
    simpl in *; rewrite Hfiles, Hkeep; reflexivity.
Qed.

Lemma positive_retention_keeps_working_file_witness :
  0 < recording_retention_days (Sample.config 7 true "") /\
  (realdir Sample.env (fst Sample.working_file)
     ∉ swept_dirs Sample.env (Sample.config 7 true "")) /\
  files (snd (snd (_transcribe Sample.env (Sample.config 7 true "")
                     Sample.working_file Sample.state)))
    !! Sample.working_file
  = Some (f64_round_int 1699999999).
Proof.
  assert (Hd : 0 < recording_retention_days (Sample.config 7 true ""))
    by (simpl; lia).
  assert (Hp : realdir Sample.env (fst Sample.working_file)
               ∉ swept_dirs Sample.env (Sample.config 7 true "")).
  { intros Hin. apply list_elem_of_singleton in Hin. discriminate. }
  split; [exact Hd |]. split; [exact Hp |].
  pose proof (positive_retention_keeps_working_file Sample.env
                (Sample.config 7 true "") Sample.working_file Sample.state
                Hd Hp) as Hkept.
  change (resolve Sample.env Sample.working_file) with Sample.working_file
    in Hkept.
  rewrite Hkept. vm_compute. reflexivity.
Defined.

(** ** Settings *)

Import Settings.

Lemma union_absorbs_defaults {V} (m D : gmap string V) :
  dom D ⊆ dom m -> m ∪ D = m.
Proof.
  intros Hdom. apply map_eq. intros k.
  destruct (m !! k) as [v |] eqn:Hk.
  - apply lookup_union_Some_l. exact Hk.
  - rewrite lookup_union_r by exact Hk.
    apply not_elem_of_dom. intros Hin. apply Hdom in Hin.
    apply elem_of_dom in Hin. rewrite Hk in Hin. destruct Hin; discriminate.
Qed.

Lemma load_config_dom {V} (D : gmap string V) file :
  dom D ⊆ dom (load_config D file).
Proof.
  destruct file as [| | saved]; simpl; [reflexivity | reflexivity |].
  rewrite dom_union. set_solver.
Qed.

(** X21. Loading the configuration never loses a default: whatever is on
    disk, every key of [DEFAULT_CONFIG] is present in the result, so that
    reading such a key cannot fail. A saved entry wins over the default of
    its key, a key that was not saved gets its default, and a missing or
    unreadable file gives the defaults alone. *)
Theorem load_config_fills_in_defaults
  {V : Type} (DEFAULT_CONFIG : gmap string V) (file : config_file)
  (key : string) :
  dom DEFAULT_CONFIG ⊆ dom (load_config DEFAULT_CONFIG file) /\
  load_config DEFAULT_CONFIG file !! key
  = match file with
    | Saved saved => match saved !! key with
                     | Some v => Some v
                     | None => DEFAULT_CONFIG !! key
                     end
    | NoFile | Unreadable => DEFAULT_CONFIG !! key
    end.
Proof.
  split; [apply load_config_dom |].
  destruct file as [| | saved]; simpl; try reflexivity.
  destruct (saved !! key) as [v |] eqn:Hk.
  - apply lookup_union_Some_l. exact Hk.
  - apply lookup_union_r. exact Hk.
Qed.

Lemma save_written_reloads {V} (D : gmap string V) key value st :
  dom D ⊆ dom (fst st) ->
  load_config D (snd (snd (_save key value Written st)))
    = fst (snd (_save key value Written st)) /\
  dom D ⊆ dom (fst (snd (_save key value Written st))) /\
  fst (snd (_save key value Written st)) !! key = Some value.
Proof.
  intros Hdom. destruct st as [cfg file]. simpl in *.
  assert (Hdom' : dom D ⊆ dom (<[key := value]> cfg)).
  { rewrite dom_insert. set_solver. }
  split; [apply union_absorbs_defaults; exact Hdom' |].
  split; [exact Hdom' | apply lookup_insert_eq].
Qed.

(** X22. Settings survive a restart: start from the configuration loaded
    from any file, make any changes whose writes all succeed, and loading
    the file again gives exactly the dictionary in memory; in particular
    the value of the last change is what comes back for its key. *)
Theorem saved_settings_are_reloaded
  {V : Type} (DEFAULT_CONFIG : gmap string V) (file : config_file)
  (changes : list (string * V * write_result)) :
  Forall (fun c => snd c = Written) changes ->
  load_config DEFAULT_CONFIG
    (snd (save_all changes (load_config DEFAULT_CONFIG file, file)))
  = fst (save_all changes (load_config DEFAULT_CONFIG file, file)) /\
  forall earlier key value,
    changes = earlier ++ [(key, value, Written)] ->
    load_config DEFAULT_CONFIG
      (snd (save_all changes (load_config DEFAULT_CONFIG file, file)))
      !! key = Some value.
Proof.
  intros Hall.
  assert (Hgen : forall st,
             load_config DEFAULT_CONFIG (snd st) = fst st ->
             dom DEFAULT_CONFIG ⊆ dom (fst st) ->
             load_config DEFAULT_CONFIG (snd (save_all changes st))
               = fst (save_all changes st) /\
             dom DEFAULT_CONFIG ⊆ dom (fst (save_all changes st)) /\
             forall earlier key value,
               changes = earlier ++ [(key, value, Written)] ->
               fst (save_all changes st) !! key = Some value).
  { induction Hall as [| [[k v] how] changes Hhow _ IH]; intros st Hload Hdom.
    - split; [exact Hload |]. split; [exact Hdom |].
      intros [| ? ?] key value H; discriminate.
    - simpl in Hhow. subst how. unfold save_all. cbn [fold_left fst snd].
      destruct (save_written_reloads DEFAULT_CONFIG k v st Hdom)
        as (Hload1 & Hdom1 & Hlook1).
      destruct (IH _ Hload1 Hdom1) as (Hload2 & Hdom2 & Hlast).
      split; [exact Hload2 |]. split; [exact Hdom2 |].
      intros earlier key value Heq.
      destruct earlier as [| e earlier].
      + simpl in Heq. injection Heq as Hk Hv Hrest. subst k v changes.
        exact Hlook1.
      + simpl in Heq. injection Heq as _ Heq.
        apply (Hlast earlier key value Heq). }
  destruct (Hgen (load_config DEFAULT_CONFIG file, file) eq_refl
              (load_config_dom DEFAULT_CONFIG file))
    as (Hload & _ & Hlast).
  split; [exact Hload |].
  intros earlier key value Heq. rewrite Hload. eapply Hlast. exact Heq.
Qed.

Lemma saved_settings_are_reloaded_witness :
  Forall (fun c => snd c = Written) Cases.two_changes /\
  load_config Cases.defaults
    (snd (save_all Cases.two_changes
            (load_config Cases.defaults Cases.saved_file, Cases.saved_file)))
    !! "language"%string = Some 7.
Proof.
  assert (Hall : Forall (fun c : string * Z * write_result => snd c = Written)
                   Cases.two_changes)
    by (repeat constructor).
  split; [exact Hall |].
  exact (proj2 (saved_settings_are_reloaded Cases.defaults Cases.saved_file
                  Cases.two_changes Hall)
           [("auto_paste"%string, 0, Written)] "language"%string 7 eq_refl).
Defined.

(** *** The replacements page *)

Lemma lstrip_idempotent s : lstrip (lstrip s) = lstrip s.
Proof.
  induction s as [| c s IH]; [reflexivity |]. simpl.
  destruct (isspace c) eqn:Hc; [exact IH |]. simpl. rewrite Hc. reflexivity.
Qed.

Lemma lstrip_head s c u : lstrip s = c :: u -> isspace c = false.
Proof.
  induction s as [| c0 s IH]; simpl; [discriminate |].
  destruct (isspace c0) eqn:Hc0; [exact IH |].
  intros H. injection H as <- _. exact Hc0.
Qed.

Lemma lstrip_keeps_last l c :
  isspace c = false -> exists l', lstrip (l ++ [c]) = l' ++ [c].
Proof.
  intros Hc. induction l as [| c0 l IH]; simpl.
  - rewrite Hc. exists []. reflexivity.
  - destruct (isspace c0); [exact IH | exists (c0 :: l); reflexivity].
Qed.

Lemma strip_idempotent s : strip (strip s) = strip s.
Proof.
  unfold strip, rstrip.
  destruct (lstrip s) as [| c u] eqn:Hu; [reflexivity |].
  pose proof (lstrip_head s c u Hu) as Hc.
  simpl rev.
  destruct (lstrip_keeps_last (rev u) c Hc) as (l' & Hl').
  rewrite Hl'. rewrite rev_app_distr. simpl.
  rewrite Hc. simpl rev. rewrite rev_involutive.
  rewrite <- Hl', lstrip_idempotent, Hl'. rewrite rev_app_distr. reflexivity.
Qed.

Lemma add_replacement_keeps find replace reps :
  Forall editor_rule reps ->
  Forall editor_rule (_add_replacement find replace reps).
Proof.
  intros Hreps. unfold _add_replacement.
  destruct (strip find) as [| c f] eqn:Hf; simpl; [exact Hreps |].
  apply Forall_app. split; [exact Hreps |].
  constructor; [| constructor].
  unfold editor_rule. simpl. rewrite <- Hf.
  repeat split; try apply strip_idempotent. rewrite Hf. discriminate.
Qed.

Lemma remove_replacement_keeps index reps :
  Forall editor_rule reps ->
  Forall editor_rule (_remove_replacement index reps).
Proof.
  intros Hreps. unfold _remove_replacement.
  destruct ((0 <=? index) && (index <? Z.of_nat (List.length reps)));
    [| exact Hreps].
  apply Forall_app. split; [apply Forall_take | apply Forall_drop];
    exact Hreps.
Qed.

Lemma editor_rule_reaches_re_sub E r :
  editor_rule r -> reaches_re_sub E r.
Proof.
  intros (Hne & _) text. unfold apply_rule.
  destruct (rep_match r); [congruence | reflexivity].
Qed.

(** X23. Every rule made on the replacements page is well formed: after
    any sequence of additions and removals, starting from the empty list,
    each stored rule has a pattern that is not empty, with no white space
    around it or around its replacement, and carries the case-insensitive
    flag. So the guard [if match:] of the pipeline never skips a stored
    rule: each one is handed to [re.sub] (which can still reject its
    pattern with [re.error]). *)
Theorem editor_rules_are_well_formed (E : Env) (edits : list edit) :
  Forall (fun r => editor_rule r /\ reaches_re_sub E r)
    (fold_left apply_edit edits []).
Proof.
  assert (Hgen : forall reps,
             Forall editor_rule reps ->
             Forall editor_rule (fold_left apply_edit edits reps)).
  { induction edits as [| e edits IH]; intros reps Hreps; [exact Hreps |].
    cbn [fold_left]. apply IH. destruct e as [f r | i]; simpl.
    - apply add_replacement_keeps. exact Hreps.
    - apply remove_replacement_keeps. exact Hreps. }
  specialize (Hgen [] (Forall_nil _)).
  induction Hgen as [| r l Hr _ IH]; constructor; [| exact IH].
  split; [exact Hr | apply editor_rule_reaches_re_sub, Hr].
Qed.

(** X24. Adding and removing on the replacements page: a rule with a
    pattern that is not blank goes to the end of the list, which grows by
    one, and the pipeline applies it after all the others; removing the
    last index right after gives the old list back. A blank pattern adds
    nothing, and removing at an index outside the list changes nothing. *)
Theorem add_then_remove_restores
  (E : Env) (find replace : pystr) (reps : list ReplacementRule)
  (index : Z) (text : pystr) :
  (strip find <> [] ->
   _remove_replacement (Z.of_nat (List.length reps))
     (_add_replacement find replace reps) = reps /\
   List.length (_add_replacement find replace reps)
     = S (List.length reps) /\
   apply_replacements E (_add_replacement find replace reps) text
     = apply_replacements E reps text ≫=
         (fun text' =>
            apply_rule E text'
              {| rep_match := strip find; rep_replace := strip replace;
                 rep_ignore_case := true |})) /\
  (strip find = [] -> _add_replacement find replace reps = reps) /\
  (index < 0 \/ Z.of_nat (List.length reps) <= index ->
   _remove_replacement index reps = reps).
Proof.
  split; [| split].
  - intros Hfind. unfold _add_replacement.
    destruct (strip find) as [| c f] eqn:Hf; [congruence |]. simpl.
    split; [| split].
    + unfold _remove_replacement. rewrite List.length_app. simpl.
      replace ((0 <=? Z.of_nat (List.length reps))
               && (Z.of_nat (List.length reps)
                   <? Z.of_nat (List.length reps + 1)))
        with true.
      * rewrite Nat2Z.id.
        rewrite take_app_length, drop_ge, app_nil_r; [reflexivity |].
        rewrite length_app. simpl. lia.
      * symmetry. apply andb_true_intro. split;
          [apply Z.leb_le | apply Z.ltb_lt]; lia.
    + rewrite List.length_app. simpl. lia.
    + rewrite apply_replacements_app.
      destruct (apply_replacements E reps text) as [text' |];
        [apply apply_replacements_one | reflexivity].
  - intros Hblank. unfold _add_replacement. rewrite Hblank. reflexivity.
  - intros Hout. unfold _remove_replacement.
    destruct (Z.leb_spec 0 index),
      (Z.ltb_spec index (Z.of_nat (List.length reps)));
      simpl; try reflexivity; lia.
Qed.

Lemma add_then_remove_restores_witness :
  strip (py " teh ") <> [] /\
  _remove_replacement 1
    (_add_replacement (py " teh ") (py "the") [Sample.rule "a" "b" true])
  = [Sample.rule "a" "b" true] /\
  (5 < 0 \/ Z.of_nat (List.length [Sample.rule "a" "b" true]) <= 5) /\
  _remove_replacement 5 [Sample.rule "a" "b" true]
  = [Sample.rule "a" "b" true].
Proof.
  assert (Hfind : strip (py " teh ") <> []) by discriminate.
  assert (Hout : 5 < 0
                 \/ Z.of_nat (List.length [Sample.rule "a" "b" true]) <= 5)
    by (right; simpl; lia).
  destruct (add_then_remove_restores Sample.env (py " teh ") (py "the")
              [Sample.rule "a" "b" true] 5 (py "teh"))
    as (Hadd & _ & Hremove).
  split; [exact Hfind |].
  split; [exact (proj1 (Hadd Hfind)) |].
  split; [exact Hout | exact (Hremove Hout)].
Defined.

(** *** The retention menu *)

Lemma label_to_days_values val :
  label_to_days val = 0 \/ label_to_days val = 1 \/ label_to_days val = 3 \/
  label_to_days val = 7 \/ label_to_days val = 30.
Proof.
  unfold label_to_days.
  repeat match goal with
         | |- context [PyStr.eqb ?a ?b] => destruct (PyStr.eqb a b)
         end; tauto.
Qed.

(** X25. The retention menu and the sweep fit together. Whatever label
    reaches [_on_retention_change], the number of days it stores is one of
    0, 1, 3, 7 and 30, never negative; each of the five labels of the menu
    is shown again for the number it stored; and choosing the first label,
    or any text that is not in the menu, switches the sweep off. *)
Theorem retention_menu_fits_the_sweep
  (E : Env) (CFG : Config) (val : pystr) (s : State) :
  In (recording_retention_days (_on_retention_change val CFG))
    [0; 1; 3; 7; 30] /\
  (In val retention_options ->
   retention_label (recording_retention_days (_on_retention_change val CFG))
   = val) /\
  (~ In val [label_1; label_3; label_7; label_30] ->
   _cleanup_old_recordings E (_on_retention_change val CFG) s = (Ret tt, s)).
Proof.
  split; [| split].
  - simpl. destruct (label_to_days_values val) as [H | [H | [H | [H | H]]]];
      rewrite H; tauto.
  - simpl. intros [<- | [<- | [<- | [<- | [<- | []]]]]]; reflexivity.
  - intros Hnot. unfold _cleanup_old_recordings. simpl.
    assert (Hzero : label_to_days val = 0).
    { unfold label_to_days.
      destruct (PyStr.eqb val label_keep); [reflexivity |].
      destruct (PyStr.eqb val label_1) eqn:H1.
      { apply bool_decide_eq_true in H1. subst. simpl in Hnot. tauto. }
      destruct (PyStr.eqb val label_3) eqn:H3.
      { apply bool_decide_eq_true in H3. subst. simpl in Hnot. tauto. }
      destruct (PyStr.eqb val label_7) eqn:H7.
      { apply bool_decide_eq_true in H7. subst. simpl in Hnot. tauto. }
      destruct (PyStr.eqb val label_30) eqn:H30.
      { apply bool_decide_eq_true in H30. subst. simpl in Hnot. tauto. }
      reflexivity. }
    rewrite Hzero. reflexivity.
Qed.

Lemma retention_menu_fits_the_sweep_witness :
  In label_7 retention_options /\
  retention_label
    (recording_retention_days
       (_on_retention_change label_7 (Sample.config 0 true ""))) = label_7 /\
  ~ In (py "never") [label_1; label_3; label_7; label_30] /\
  _cleanup_old_recordings Sample.env
    (_on_retention_change (py "never") (Sample.config 30 true ""))
    Sample.state = (Ret tt, Sample.state).
Proof.
  assert (Hin : In label_7 retention_options) by (simpl; tauto).
  assert (Hnot : ~ In (py "never") [label_1; label_3; label_7; label_30]).
  { simpl. intros [H | [H | [H | [H | []]]]]; discriminate. }
  split; [exact Hin |].
  split.
  - exact (proj1 (proj2 (retention_menu_fits_the_sweep Sample.env
                           (Sample.config 0 true "") label_7 Sample.state))
             Hin).
  - split; [exact Hnot |].
    exact (proj2 (proj2 (retention_menu_fits_the_sweep Sample.env
                           (Sample.config 30 true "") (py "never")
                           Sample.state)) Hnot).
Defined.

(** *** Autostart *)

(** X26. Switching autostart on and asking again says yes, switching it
    off says no, twice is the same as once, and no other value of the Run
    key is touched; when the registry cannot be opened the key is left as
    it is and the answer is no. *)
Theorem autostart_round_trip
  (command : string) (enable : bool) (run_key : gmap string string)
  (other : string) :
  is_autostart_enabled RegOk (set_autostart RegOk command enable run_key)
    = enable /\
  set_autostart RegOk command enable
    (set_autostart RegOk command enable run_key)
    = set_autostart RegOk command enable run_key /\
  (other <> app_name ->
   set_autostart RegOk command enable run_key !! other = run_key !! other) /\
  set_autostart RegRaises command enable run_key = run_key /\
  is_autostart_enabled RegRaises run_key = false.
Proof.
  split; [| split; [| split; [| split; reflexivity]]].
  - destruct enable; simpl.
    + rewrite lookup_insert_eq. reflexivity.
    + rewrite lookup_delete_eq. reflexivity.
  - destruct enable; simpl.
    + apply insert_insert_eq.
    + apply delete_delete_eq.
  - intros Hne. destruct enable; simpl.
    + apply lookup_insert_ne. congruence.
    + apply lookup_delete_ne. congruence.
Qed.

Lemma autostart_round_trip_witness :
  "OneDrive"%string <> app_name /\
  set_autostart RegOk "app.exe --autostart" true
    {[ "OneDrive"%string := "onedrive.exe"%string ]} !! "OneDrive"%string
  = Some "onedrive.exe"%string.
Proof.
  assert (Hne : "OneDrive"%string <> app_name) by discriminate.
  split; [exact Hne |].
  rewrite (proj1 (proj2 (proj2 (autostart_round_trip "app.exe --autostart"
                                  true
                                  {[ "OneDrive"%string
                                     := "onedrive.exe"%string ]}
                                  "OneDrive"))) Hne).
  reflexivity.
Defined.

(** ** The floating button *)

Import Button.

(** X27. The floating button is put fully on the screen: for every entry
    of the position menu, and for any other text, a button of a size that
    leaves room (the screen is at least 40 pixels wider and 90 pixels
    higher than the button) lies inside the screen with at least 20 pixels
    to each edge. *)
Theorem floating_button_is_on_screen (position : pystr) (size sw sh : Z) :
  0 <= size ->
  size + 40 <= sw ->
  size + 90 <= sh ->
  20 <= fst (corner position size sw sh) /\
  fst (corner position size sw sh) + size <= sw - 20 /\
  20 <= snd (corner position size sw sh) /\
  snd (corner position size sw sh) + size <= sh - 20.
Proof.
  intros Hsize Hw Hh. unfold corner.
  repeat match goal with
         | |- context [PyStr.eqb ?a ?b] => destruct (PyStr.eqb a b)
         end; simpl; lia.
Qed.

Lemma floating_button_is_on_screen_witness :
  0 <= 60 /\ 60 + 40 <= 1920 /\ 60 + 90 <= 1080 /\
  corner left_bottom 60 1920 1080 = (20, 950) /\
  20 <= fst (corner left_bottom 60 1920 1080) /\
  snd (corner left_bottom 60 1920 1080) + 60 <= 1080 - 20.
Proof.
  assert (H1 : 0 <= 60) by lia.
  assert (H2 : 60 + 40 <= 1920) by lia.
  assert (H3 : 60 + 90 <= 1080) by lia.
  do 3 (split; [assumption |]). split; [reflexivity |].
  destruct (floating_button_is_on_screen left_bottom 60 1920 1080 H1 H2 H3)
    as (Hx & _ & _ & Hy).
  split; [exact Hx | exact Hy].
Defined.
